(** * A shallow embedding of the library catalogue ([models.py])

    The catalogue of [models.py] is a Python object graph: a [Library]
    object owns a list object whose items are references to [Book]
    objects, and every mutation is followed by a full rewrite of a JSON
    file.  The embedding keeps that shape: objects live in a heap and are
    named by locations, methods are computations in a state-and-exception
    monad over a world made of the heap, the file system and the remote
    bibliographic service.

    What lies outside [models.py] is taken by its contract: [json.load]
    gives back the value [json.dump] was given, [open] fails on a path
    that cannot be written, [client.get] answers a URL with a response or
    an exception, the same each time it is asked.  Floating-point numbers
    and the encoding of text are not modelled. *)

From Stdlib Require Import ZArith String List Bool Lia.
From stdpp Require Import base option list gmap strings fin_maps.

Local Open Scope Z_scope.
Local Open Scope string_scope.
Local Open Scope list_scope.

(** ** Python values

    The values that [json.load] and [response.json()] can produce, and
    that the three attributes of a [Book] may therefore hold.  JSON
    numbers are modelled by integers; numbers with a fraction or an
    exponent are outside the model.  A dictionary is kept as the list of
    its items in insertion order. *)

#[warnings="-register-all"]
Inductive value : Type :=
| VNone
| VBool (b : bool)
| VInt (z : Z)
| VStr (s : string)
| VList (l : list value)
| VDict (d : list (string * value)).

(** [d[k]] on the items of a dictionary. *)
Fixpoint assoc_get {A : Type} (k : string) (d : list (string * A)) : option A :=
  match d with
  | [] => None
  | (k', v) :: d' => if String.eqb k' k then Some v else assoc_get k d'
  end.

(** Python's [a == b] on these values: [True == 1], sequences are compared
    item by item, dictionaries as mappings. *)
Fixpoint py_eq (a b : value) {struct a} : bool :=
  match a, b with
  | VNone, VNone => true
  | VBool x, VBool y => Bool.eqb x y
  | VBool x, VInt y => Z.eqb (Z.b2z x) y
  | VInt x, VBool y => Z.eqb x (Z.b2z y)
  | VInt x, VInt y => Z.eqb x y
  | VStr s, VStr t => String.eqb s t
  | VList l, VList m =>
      (fix items (l m : list value) {struct l} : bool :=
         match l, m with
         | [], [] => true
         | x :: l', y :: m' => py_eq x y && items l' m'
         | _, _ => false
         end) l m
  | VDict d, VDict e =>
      Nat.eqb (length d) (length e) &&
      (fix entries (d : list (string * value)) {struct d} : bool :=
         match d with
         | [] => true
         | (k, v) :: d' =>
             match assoc_get k e with
             | Some w => py_eq v w && entries d'
             | None => false
             end
         end) d
  | _, _ => false
  end.

(** ** Objects, heap and world *)

Definition loc := nat.

(** [class Book]: three attributes set by [__init__]. *)
Record Book : Type := mkBook { title : value; author : value; isbn : value }.

Inductive obj : Type :=
| OBook (b : Book)
| OList (items : list loc)
| OLibrary (filename : string) (books : loc).

(** What a path of the file system holds: bytes that are not UTF-8 text,
    on which reading raises [UnicodeDecodeError]; text that [json.load]
    rejects with [JSONDecodeError] (an empty file is such a text); or the
    text of a JSON document, kept as the value [json.load] decodes it to.
    [json.dump] writes the text of the value it is given: that
    [json.load] gives back what [json.dump] was given is the contract of
    the [json] library for these values. *)
Inductive content : Type :=
| Undecodable
| Malformed
| Document (v : value).

(** The two URLs [add_book_by_isbn] builds, kept as template and argument:
    [https://openlibrary.org/isbn/{isbn}.json] and
    [https://openlibrary.org{key}.json]. *)
Inductive url : Type :=
| IsbnUrl (isbn : value)
| AuthorUrl (key : value).

(** What [client.get(url)] does: raise [httpx.TimeoutException],
    [httpx.ConnectError] or some other exception, or return a response
    with a status code and a body; the body is [None] when
    [response.json()] raises [json.JSONDecodeError]. *)
Inductive reply : Type :=
| Timeout
| ConnectFailed
| TransportFailed
| Response (status_code : Z) (body : option value).

(** The world: the objects, what each existing path holds, the paths that
    cannot be opened for writing, and what the service answers. *)
Record World : Type := mkWorld {
  heap : list obj;
  files : gmap string content;
  unwritable : gset string;
  remote : url -> reply
}.

(** ** Exceptions

    The classes that matter to the handlers of [models.py].  In Python 3
    [IOError] is [OSError]; [FileNotFoundError] and the built-in
    [ConnectionError] are subclasses of it, [json.JSONDecodeError] and
    [UnicodeDecodeError] are subclasses of [ValueError].  A message is
    kept as its template and arguments. *)

Inductive exn : Type :=
| ValueError (m : message)
| ConnectionError (m : message)
| IOError (m : message)
| FileNotFoundError
| JSONDecodeError
| UnicodeDecodeError
| KeyError (k : string)
| IndexError
| TypeError
| AttributeError
| TimeoutException
| ConnectError
| TransportError
| HTTPStatusError (status_code : Z)
with message : Type :=
| AlreadyExists (isbn : value)
| NotFound (isbn : value)
| TimedOut
| ConnectFailure
| HTTPError (status_code : Z)
| InvalidFormat
| Unexpected (e : exn)
| CannotOpen (filename : string)
| SaveFailed (filename : string) (e : exn).

(** [isinstance(e, OSError)], what [except IOError] catches. *)
Definition is_OSError (e : exn) : bool :=
  match e with
  | IOError _ | FileNotFoundError | ConnectionError _ => true
  | _ => false
  end.

(** ** The monad of methods

    A world in, a result or an exception and a world out.  An exception
    does not undo what the method did before it was raised. *)

Inductive outcome (A : Type) : Type :=
| Ok (a : A)
| Raise (e : exn).
Arguments Ok {A} a.
Arguments Raise {A} e.

Definition M (A : Type) : Type := World -> outcome A * World.

Definition ret {A} (a : A) : M A := fun w => (Ok a, w).

Definition raise {A} (e : exn) : M A := fun w => (Raise e, w).

Definition bind {A B} (m : M A) (k : A -> M B) : M B :=
  fun w =>
    match m w with
    | (Ok a, w') => k a w'
    | (Raise e, w') => (Raise e, w')
    end.

(** [try: m except ...: h e]; a handler re-raises what it does not catch. *)
Definition try_except {A} (m : M A) (h : exn -> M A) : M A :=
  fun w =>
    match m w with
    | (Ok a, w') => (Ok a, w')
    | (Raise e, w') => h e w'
    end.

Declare Scope py_scope.
Delimit Scope py_scope with py.
Notation "'let*' x ':=' m 'in' k" := (bind m (fun x => k))
  (at level 10, x name, m at level 100, k at level 200) : py_scope.
Local Open Scope py_scope.

(** A list comprehension [[f x for x in l]]. *)
Fixpoint comprehension {A B} (f : A -> M B) (l : list A) : M (list B) :=
  match l with
  | [] => ret []
  | x :: l' =>
      let* y := f x in
      let* ys := comprehension f l' in
      ret (y :: ys)
  end.

(** ** Heap primitives *)

Definition set_heap (w : World) (h : list obj) : World :=
  mkWorld h (files w) (unwritable w) (remote w).

Definition set_files (w : World) (fs : gmap string content) : World :=
  mkWorld (heap w) fs (unwritable w) (remote w).

(** A new object; locations are never reused. *)
Definition alloc (o : obj) : M loc :=
  fun w => (Ok (length (heap w)), set_heap w (heap w ++ [o])).

Definition store (l : loc) (o : obj) : M unit :=
  fun w => (Ok tt, set_heap w (<[l := o]> (heap w))).

Definition deref (l : loc) : M obj :=
  fun w =>
    match heap w !! l with
    | Some o => (Ok o, w)
    | None => (Raise AttributeError, w)
    end.

(** The attributes of a [Book] object. *)
Definition book_of (l : loc) : M Book :=
  let* o := deref l in
  match o with
  | OBook b => ret b
  | _ => raise AttributeError
  end.

(** [self.filename] and [self.books]. *)
Definition self_filename (self : loc) : M string :=
  let* o := deref self in
  match o with
  | OLibrary fn _ => ret fn
  | _ => raise AttributeError
  end.

Definition self_books (self : loc) : M loc :=
  let* o := deref self in
  match o with
  | OLibrary _ bl => ret bl
  | _ => raise AttributeError
  end.

(** [self.books = l]. *)
Definition set_self_books (self : loc) (l : loc) : M unit :=
  let* fn := self_filename self in
  store self (OLibrary fn l).

(** The items of a list object, [l.append(x)], [l.pop(i)], [l.copy()]. *)
Definition list_items (l : loc) : M (list loc) :=
  let* o := deref l in
  match o with
  | OList items => ret items
  | _ => raise TypeError
  end.

Definition list_append (l : loc) (x : loc) : M unit :=
  let* items := list_items l in
  store l (OList (items ++ [x])).

Definition list_pop (l : loc) (i : nat) : M unit :=
  let* items := list_items l in
  if (i <? length items)%nat then store l (OList (delete i items))
  else raise IndexError.

Definition list_copy (l : loc) : M loc :=
  let* items := list_items l in
  alloc (OList items).

(** ** Files and JSON *)

(** [os.path.exists(p)]. *)
Definition path_exists (p : string) : M bool :=
  fun w => (Ok (match files w !! p with Some _ => true | None => false end), w).

(** [open(p, 'r')] and reading the whole file. *)
Definition open_read (p : string) : M content :=
  fun w =>
    match files w !! p with
    | Some c => (Ok c, w)
    | None => (Raise FileNotFoundError, w)
    end.

(** [open(p, 'w')]: an [OSError] when the path cannot be opened for
    writing, otherwise the file is created or truncated. *)
Definition open_write (p : string) : M unit :=
  fun w =>
    if decide (p ∈ unwritable w) then (Raise (IOError (CannotOpen p)), w)
    else (Ok tt, set_files w (<[p := Malformed]> (files w))).

(** Reading the file and [json.load(file)]. *)
Definition json_load (c : content) : M value :=
  match c with
  | Undecodable => raise UnicodeDecodeError
  | Malformed => raise JSONDecodeError
  | Document v => ret v
  end.

(** [json.dump(v, file, indent=2, ensure_ascii=False)] on the file opened
    at [p]. *)
Definition json_dump (v : value) (p : string) : M unit :=
  fun w => (Ok tt, set_files w (<[p := Document v]> (files w))).

(** [for x in v]: the items of a list, the keys of a dictionary, the
    characters of a string; anything else is not iterable. *)
Definition iter_items (v : value) : option (list value) :=
  match v with
  | VList l => Some l
  | VDict d => Some (map (fun kv => VStr (fst kv)) d)
  | VStr s => Some (map (fun c => VStr (String c EmptyString)) (list_ascii_of_string s))
  | _ => None
  end.

Definition py_iter (v : value) : M (list value) :=
  match iter_items v with
  | Some l => ret l
  | None => raise TypeError
  end.

(** [v[k]] for a string [k]: a dictionary looks the key up, a list or a
    string wants an integer index, the rest is not subscriptable. *)
Definition py_subscript (v : value) (k : string) : M value :=
  match v with
  | VDict d =>
      match assoc_get k d with
      | Some x => ret x
      | None => raise (KeyError k)
      end
  | _ => raise TypeError
  end.

(** [v.get(k, default)]: only a dictionary has the method. *)
Definition py_get (v : value) (k : string) (default : value) : M value :=
  match v with
  | VDict d =>
      match assoc_get k d with
      | Some x => ret x
      | None => ret default
      end
  | _ => raise AttributeError
  end.

(** [k in v].  Where the code asks, [v] is a dictionary: [v.get] has raised
    otherwise. *)
Definition has_key (k : string) (v : value) : bool :=
  match v with
  | VDict d => match assoc_get k d with Some _ => true | None => false end
  | _ => false
  end.

(** [sep.join(l)]: every item has to be a string. *)
Fixpoint strings_of (l : list value) : option (list string) :=
  match l with
  | [] => Some []
  | VStr s :: l' =>
      match strings_of l' with
      | Some ss => Some (s :: ss)
      | None => None
      end
  | _ :: _ => None
  end.

Definition py_join (sep : string) (l : list value) : M value :=
  match strings_of l with
  | Some ss => ret (VStr (String.concat sep ss))
  | None => raise TypeError
  end.

(** ** The remote service *)

(** [client.get(u)]: the status code and the body of the response. *)
Definition client_get (u : url) : M (Z * option value) :=
  fun w =>
    match remote w u with
    | Timeout => (Raise TimeoutException, w)
    | ConnectFailed => (Raise ConnectError, w)
    | TransportFailed => (Raise TransportError, w)
    | Response st body => (Ok (st, body), w)
    end.

(** [response.raise_for_status()] of httpx: any status outside 2xx raises
    [HTTPStatusError]. *)
Definition raise_for_status (response : Z * option value) : M unit :=
  if ((200 <=? fst response) && (fst response <? 300))%Z then ret tt
  else raise (HTTPStatusError (fst response)).

(** [response.json()]. *)
Definition response_json (response : Z * option value) : M value :=
  match snd response with
  | Some v => ret v
  | None => raise JSONDecodeError
  end.

(** ** [class Book] *)

(** [book.isbn]. *)
Definition attr_isbn (book : loc) : M value :=
  let* b := book_of book in
  ret (isbn b).

(** [Book.to_dict]. *)
Definition to_dict (b : Book) : list (string * value) :=
  [("title", title b); ("author", author b); ("isbn", isbn b)].

(** [Book(title, author, isbn)]. *)
Definition Book_init (title author isbn : value) : M loc :=
  alloc (OBook (mkBook title author isbn)).

(** ** [class Library] *)

(** [Library.find_book]: the first book of [self.books] whose [isbn]
    equals the argument. *)
Fixpoint find_loop (items : list loc) (isbn : value) : M (option loc) :=
  match items with
  | [] => ret None
  | book :: rest =>
      let* i := attr_isbn book in
      if py_eq i isbn then ret (Some book) else find_loop rest isbn
  end.

Definition find_book (self : loc) (isbn : value) : M (option loc) :=
  let* books := self_books self in
  let* items := list_items books in
  find_loop items isbn.

(** [Library.save_books]: the file is opened (and so truncated) first,
    then the list of dictionaries is built and dumped. *)
Definition save_books (self : loc) : M unit :=
  let* fn := self_filename self in
  try_except
    (let* _ := open_write fn in
     let* books := self_books self in
     let* items := list_items books in
     let* dicts := comprehension
                     (fun book => let* b := book_of book in ret (VDict (to_dict b)))
                     items in
     json_dump (VList dicts) fn)
    (fun e =>
       if is_OSError e then raise (IOError (SaveFailed fn e)) else raise e).

(** [Library.add_book]. *)
Definition add_book (self : loc) (book : loc) : M unit :=
  let* isbn := attr_isbn book in
  let* found := find_book self isbn in
  match found with
  | Some _ => raise (ValueError (AlreadyExists isbn))
  | None =>
      let* books := self_books self in
      let* _ := list_append books book in
      save_books self
  end.

(** [Library.remove_book]: the loop over [enumerate(self.books)]. *)
Fixpoint remove_loop (self : loc) (i : nat) (items : list loc) (isbn : value)
  : M bool :=
  match items with
  | [] => ret false
  | book :: rest =>
      let* x := attr_isbn book in
      if py_eq x isbn then
        let* books := self_books self in
        let* _ := list_pop books i in
        let* _ := save_books self in
        ret true
      else remove_loop self (S i) rest isbn
  end.

Definition remove_book (self : loc) (isbn : value) : M bool :=
  let* books := self_books self in
  let* items := list_items books in
  remove_loop self 0%nat items isbn.

(** [Library.list_books]. *)
Definition list_books (self : loc) : M loc :=
  let* books := self_books self in
  list_copy books.

(** [self.books = []]. *)
Definition reset_books (self : loc) : M unit :=
  let* l := alloc (OList []) in
  set_self_books self l.

(** [Book(book_data['title'], book_data['author'], book_data['isbn'])]. *)
Definition book_from (book_data : value) : M loc :=
  let* t := py_subscript book_data "title" in
  let* a := py_subscript book_data "author" in
  let* i := py_subscript book_data "isbn" in
  Book_init t a i.

(** [Library.load_books]. *)
Definition load_books (self : loc) : M unit :=
  let* fn := self_filename self in
  let* there := path_exists fn in
  if negb there then reset_books self
  else
    try_except
      (let* file := open_read fn in
       let* data := json_load file in
       let* rows := py_iter data in
       let* bs := comprehension book_from rows in
       let* l := alloc (OList bs) in
       set_self_books self l)
      (fun e =>
         match e with
         | JSONDecodeError | KeyError _ | FileNotFoundError => reset_books self
         | _ => raise e
         end).

(** [Library(filename)]. *)
Definition Library_init (filename : string) : M loc :=
  let* l := alloc (OList []) in
  let* self := alloc (OLibrary filename l) in
  let* _ := load_books self in
  ret self.

(** The loop over [book_data['authors']] of [add_book_by_isbn]; [authors]
    is the list the loop appends to. *)
Fixpoint fetch_authors (refs : list value) (authors : list value)
  : M (list value) :=
  match refs with
  | [] => ret authors
  | author_ref :: rest =>
      match author_ref with
      | VDict d =>
          match assoc_get "key" d with
          | Some key =>
              let* author_response := client_get (AuthorUrl key) in
              if (fst author_response =? 200)%Z then
                let* author_data := response_json author_response in
                let* name := py_get author_data "name" (VStr "Unknown Author") in
                fetch_authors rest (authors ++ [name])
              else fetch_authors rest authors
          | None => fetch_authors rest authors
          end
      | _ => fetch_authors rest authors
      end
  end.

(** The [except] clauses of [add_book_by_isbn], in their order. *)
Definition lookup_handler {A} (isbn : value) (e : exn) : M A :=
  match e with
  | TimeoutException => raise (ConnectionError TimedOut)
  | ConnectError => raise (ConnectionError ConnectFailure)
  | HTTPStatusError st =>
      if (st =? 404)%Z then raise (ValueError (NotFound isbn))
      else raise (ConnectionError (HTTPError st))
  | JSONDecodeError => raise (ValueError InvalidFormat)
  | ValueError m => raise (ValueError m)
  | UnicodeDecodeError => raise UnicodeDecodeError
  | _ => raise (ConnectionError (Unexpected e))
  end.

(** [Library.add_book_by_isbn]. *)
Definition add_book_by_isbn (self : loc) (isbn : value) : M loc :=
  let* existing_book := find_book self isbn in
  match existing_book with
  | Some _ => raise (ValueError (AlreadyExists isbn))
  | None =>
      try_except
        (let* response := client_get (IsbnUrl isbn) in
         if (fst response =? 404)%Z then raise (ValueError (NotFound isbn))
         else
           let* _ := raise_for_status response in
           let* book_data := response_json response in
           let* title := py_get book_data "title" (VStr "Unknown Title") in
           let* authors :=
             (if has_key "authors" book_data then
                let* refs0 := py_subscript book_data "authors" in
                let* refs := py_iter refs0 in
                fetch_authors refs []
              else ret []) in
           let authors :=
             match authors with
             | [] => [VStr "Unknown Author"]
             | _ => authors
             end in
           let* author := py_join ", " authors in
           let* book := Book_init title author isbn in
           let* _ := add_book self book in
           ret book)
        (lookup_handler isbn)
  end.

(** ** Reading a heap *)

(** The record a location holds, when it is a [Book]. *)
Definition book_at (h : list obj) (l : loc) : option Book :=
  match h !! l with
  | Some (OBook b) => Some b
  | _ => None
  end.

(** The items of the list a location holds. *)
Definition items_at (h : list obj) (l : loc) : option (list loc) :=
  match h !! l with
  | Some (OList items) => Some items
  | _ => None
  end.

(** The file name and the list object of a [Library]. *)
Definition library_at (h : list obj) (self : loc) : option (string * loc) :=
  match h !! self with
  | Some (OLibrary fn bl) => Some (fn, bl)
  | _ => None
  end.

(** The records a list object refers to, in order. *)
Definition records (h : list obj) (l : loc) : option (list Book) :=
  match items_at h l with
  | Some items => mapM (book_at h) items
  | None => None
  end.

(** The in-memory sequence of a catalogue. *)
Definition catalog (h : list obj) (self : loc) : option (list Book) :=
  match library_at h self with
  | Some (_, bl) => records h bl
  | None => None
  end.

(** What [save_books] dumps for a sequence of records. *)
Definition to_json (bs : list Book) : value :=
  VList (map (fun b => VDict (to_dict b)) bs).

(** The ISBNs of a sequence of records, in order. *)
Definition isbns (bs : list Book) : list value := map isbn bs.

(** The index of the first record whose [isbn] equals [i], as the loops of
    [find_book] and [remove_book] meet it. *)
Fixpoint position (i : value) (bs : list Book) : option nat :=
  match bs with
  | [] => None
  | b :: bs' =>
      if py_eq (isbn b) i then Some 0%nat
      else
        match position i bs' with
        | Some n => Some (S n)
        | None => None
        end
  end.

(** The file a catalogue is persisted to. *)
Definition file_of (h : list obj) (self : loc) : option string :=
  match library_at h self with
  | Some (fn, _) => Some fn
  | None => None
  end.

(** The world in which [book] has been appended to the list object [bl]. *)
Definition appended (w : World) (bl : loc) (items : list loc) (book : loc) : World :=
  set_heap w (<[bl := OList (items ++ [book])]> (heap w)).

(** The world in which item [n] has been popped from the list object [bl]. *)
Definition popped (w : World) (bl : loc) (items : list loc) (n : nat) : World :=
  set_heap w (<[bl := OList (delete n items)]> (heap w)).

(** The sequence without the first record whose [isbn] equals [i]. *)
Definition remove_first (i : value) (bs : list Book) : list Book :=
  match position i bs with
  | Some n => delete n bs
  | None => bs
  end.

(** The first record of a sequence whose [isbn] equals [i]. *)
Definition first_with (i : value) (bs : list Book) : option Book :=
  match position i bs with
  | Some n => bs !! n
  | None => None
  end.

(** The record behind the result of [find_book]. *)
Definition found (h : list obj) (r : option loc) : option Book :=
  match r with
  | Some l => book_at h l
  | None => None
  end.

(** The references the catalogue's own list object holds. *)
Definition catalog_items (h : list obj) (self : loc) : option (list loc) :=
  match library_at h self with
  | Some (_, bl) => items_at h bl
  | None => None
  end.

(** The catalogue [self] has pairwise distinct ISBNs. *)
Definition unique_isbns (w : World) (self : loc) : Prop :=
  exists fn bs,
    file_of (heap w) self = Some fn /\ catalog (heap w) self = Some bs /\
    List.NoDup (isbns bs).

(** ** What a load yields

    The effect of the comprehension of [load_books] on one row and on a
    sequence of rows, read off the code: the record a row gives or the
    exception it raises, and the records created before the first
    exception. *)

Definition row_result (row : value) : Book + exn :=
  match row with
  | VDict d =>
      match assoc_get "title" d with
      | None => inr (KeyError "title")
      | Some t =>
          match assoc_get "author" d with
          | None => inr (KeyError "author")
          | Some a =>
              match assoc_get "isbn" d with
              | None => inr (KeyError "isbn")
              | Some i => inl (mkBook t a i)
              end
          end
      end
  | _ => inr TypeError
  end.

Fixpoint load_rows (rows : list value) : list Book * option exn :=
  match rows with
  | [] => ([], None)
  | row :: rest =>
      match row_result row with
      | inl b => (b :: fst (load_rows rest), snd (load_rows rest))
      | inr e => ([], Some e)
      end
  end.

(** The sequence [load_books] leaves in memory for what the path holds, or
    the exception it lets through. *)
Definition load_result (file : option content) : outcome (list Book) :=
  match file with
  | None => Ok []
  | Some Undecodable => Raise UnicodeDecodeError
  | Some Malformed => Ok []
  | Some (Document data) =>
      match iter_items data with
      | None => Raise TypeError
      | Some rows =>
          match load_rows rows with
          | (bs, None) => Ok bs
          | (_, Some e) =>
              match e with
              | JSONDecodeError | KeyError _ | FileNotFoundError => Ok []
              | _ => Raise e
              end
          end
      end
  end.

(** A row is a JSON object; a JSON object lacks one of the three keys. *)
Definition is_object (row : value) : Prop :=
  match row with VDict _ => True | _ => False end.

Definition lacks_field (row : value) : Prop :=
  match row with
  | VDict d =>
      assoc_get "title" d = None \/ assoc_get "author" d = None \/
      assoc_get "isbn" d = None
  | _ => False
  end.

(** Content that is not loaded: text that is not JSON, or a JSON array of
    objects one of which lacks a key. *)
Definition unloadable (c : content) : Prop :=
  c = Malformed \/
  exists rows, c = Document (VList rows) /\ Forall is_object rows /\
               Exists lacks_field rows.

(** A JSON object that carries the three keys, with the values of [b]. *)
Definition row_of (row : value) (b : Book) : Prop :=
  exists d, row = VDict d /\ assoc_get "title" d = Some (title b) /\
            assoc_get "author" d = Some (author b) /\
            assoc_get "isbn" d = Some (isbn b).

(** ** What a lookup resolves

    The part of the [try] block of [add_book_by_isbn] that comes before the
    record is created: the title and the author string it resolves. *)
Definition lookup_fields (isbn : value) : M (value * value) :=
  let* response := client_get (IsbnUrl isbn) in
  if (fst response =? 404)%Z then raise (ValueError (NotFound isbn))
  else
    let* _ := raise_for_status response in
    let* book_data := response_json response in
    let* title := py_get book_data "title" (VStr "Unknown Title") in
    let* authors :=
      (if has_key "authors" book_data then
         let* refs0 := py_subscript book_data "authors" in
         let* refs := py_iter refs0 in
         fetch_authors refs []
       else ret []) in
    let authors :=
      match authors with
      | [] => [VStr "Unknown Author"]
      | _ => authors
      end in
    let* author := py_join ", " authors in
    ret (title, author).

(** The display name an author entry contributes: the entry is an object
    with a [key], the follow-up request is answered with status 200 and an
    object, and the name is its [name] or the placeholder. *)
Definition author_name (net : url -> reply) (author_ref : value) : option value :=
  match author_ref with
  | VDict d =>
      match assoc_get "key" d with
      | Some key =>
          match net (AuthorUrl key) with
          | Response st (Some (VDict author_data)) =>
              if (st =? 200)%Z then
                match assoc_get "name" author_data with
                | Some name => Some name
                | None => Some (VStr "Unknown Author")
                end
              else None
          | _ => None
          end
      | None => None
      end
  | _ => None
  end.

(** The display names collected over the author entries, in order. *)
Fixpoint collected_names (net : url -> reply) (refs : list value) : list value :=
  match refs with
  | [] => []
  | author_ref :: rest =>
      match author_name net author_ref with
      | Some name => name :: collected_names net rest
      | None => collected_names net rest
      end
  end.

(** The author entries of a book response. *)
Definition author_refs (book_data : list (string * value)) : list value :=
  match assoc_get "authors" book_data with
  | Some refs0 =>
      match iter_items refs0 with
      | Some refs => refs
      | None => []
      end
  | None => []
  end.

(** The title a book response resolves to. *)
Definition resolved_title (book_data : list (string * value)) : value :=
  match assoc_get "title" book_data with
  | Some t => t
  | None => VStr "Unknown Title"
  end.

(** The author string a list of collected names resolves to. *)
Definition resolved_author (names : list string) : string :=
  match names with
  | [] => "Unknown Author"
  | _ => String.concat ", " names
  end.

(** A computation that leaves the world as it is, and one that leaves
    every [Book] object as it is. *)
Definition read_only {A} (m : M A) : Prop := forall w, snd (m w) = w.

Definition keeps_books {A} (m : M A) : Prop :=
  forall w l b, book_at (heap w) l = Some b -> book_at (heap (snd (m w))) l = Some b.

(** An author entry whose follow-up request, if it makes one, is answered:
    with a status other than 200, or with status 200 and a JSON object. *)
Definition answered (net : url -> reply) (author_ref : value) : Prop :=
  match author_ref with
  | VDict d =>
      match assoc_get "key" d with
      | Some key =>
          match net (AuthorUrl key) with
          | Response st body =>
              st = 200%Z -> exists author_data, body = Some (VDict author_data)
          | _ => False
          end
      | None => True
      end
  | _ => True
  end.

(** ** What a caller can do to what it is handed

    Any in-place mutation of a list object (append, pop, clear, item or
    slice assignment, sort) replaces its items by some others; [l[i]] reads
    an item; [book.isbn = v] rebinds an attribute of a record. *)
Definition list_assign (l : loc) (items' : list loc) : M unit :=
  let* _ := list_items l in
  store l (OList items').

Definition list_getitem (l : loc) (i : nat) : M loc :=
  let* items := list_items l in
  match items !! i with
  | Some x => ret x
  | None => raise IndexError
  end.

Definition set_attr_isbn (book : loc) (v : value) : M unit :=
  let* b := book_of book in
  store book (OBook (mkBook (title b) (author b) v)).

(** A caller mutates the list it was handed again and again. *)
Fixpoint list_mutations (l : loc) (steps : list (list loc)) : M unit :=
  match steps with
  | [] => ret tt
  | items' :: steps' =>
      let* _ := list_assign l items' in
      list_mutations l steps'
  end.

(** ** Sequences of operations

    What the front ends ask of a catalogue: each request constructs its
    arguments from the strings it was given and calls one method; an
    exception ends the request, not the session, and the next request
    finds the world the failed one left. *)
Inductive request : Type :=
| ReqAdd (title author isbn : string)
| ReqRemove (isbn : string)
| ReqLookup (isbn : string)
| ReqFind (isbn : string)
| ReqList.

Definition serve (self : loc) (r : request) : M unit :=
  match r with
  | ReqAdd t a i =>
      let* book := Book_init (VStr t) (VStr a) (VStr i) in
      add_book self book
  | ReqRemove i =>
      let* _ := remove_book self (VStr i) in
      ret tt
  | ReqLookup i =>
      let* _ := add_book_by_isbn self (VStr i) in
      ret tt
  | ReqFind i =>
      let* _ := find_book self (VStr i) in
      ret tt
  | ReqList =>
      let* _ := list_books self in
      ret tt
  end.

Fixpoint serve_all (self : loc) (rs : list request) (w : World) : World :=
  match rs with
  | [] => w
  | r :: rs' => serve_all self rs' (snd (serve self r w))
  end.

(** ** Sample worlds *)

Definition moby : Book :=
  mkBook (VStr "Moby Dick") (VStr "Herman Melville") (VStr "9780142437247").

Definition gatsby : Book :=
  mkBook (VStr "The Great Gatsby") (VStr "F. Scott Fitzgerald")
    (VStr "9780743273565").

Definition dune : Book :=
  mkBook (VStr "Dune") (VStr "Frank Herbert") (VStr "9780441172719").

Definition dune_messiah : Book :=
  mkBook (VStr "Dune Messiah") (VStr "Frank Herbert") (VStr "9780441172719").

(** A service that knows one book and its author. *)
Definition gatsby_data : value :=
  VDict [("title", VStr "The Great Gatsby");
         ("authors", VList [VDict [("key", VStr "/authors/OL123A")]])].

Definition open_library (u : url) : reply :=
  match u with
  | IsbnUrl i =>
      if py_eq i (VStr "9780743273565") then Response 200 (Some gatsby_data)
      else Response 404 None
  | AuthorUrl k =>
      if py_eq k (VStr "/authors/OL123A")
      then Response 200 (Some (VDict [("name", VStr "F. Scott Fitzgerald")]))
      else Response 404 None
  end.

(** The same service when the author resource is gone, and when the author
    request times out. *)
Definition open_library_no_author (u : url) : reply :=
  match u with
  | IsbnUrl _ => open_library u
  | AuthorUrl _ => Response 404 None
  end.

Definition open_library_slow_author (u : url) : reply :=
  match u with
  | IsbnUrl _ => open_library u
  | AuthorUrl _ => Timeout
  end.

(** A catalogue of two records at location 1, persisted in
    [library.json], and a third [Book] object the caller has made. *)
Definition shelf_heap : list obj :=
  [OList [2%nat; 3%nat]; OLibrary "library.json" 0%nat;
   OBook moby; OBook dune; OBook dune_messiah; OBook gatsby].

Definition shelf : World :=
  mkWorld shelf_heap {["library.json" := Document (to_json [moby; dune])]} ∅
    open_library.

(** The same catalogue when its file cannot be written. *)
Definition locked_shelf : World :=
  mkWorld shelf_heap {["library.json" := Document (to_json [moby; dune])]}
    {["library.json"]} open_library.

(** The same catalogue in front of the two degraded services. *)
Definition shelf_no_author : World :=
  mkWorld shelf_heap {["library.json" := Document (to_json [moby; dune])]} ∅
    open_library_no_author.

Definition shelf_slow_author : World :=
  mkWorld shelf_heap {["library.json" := Document (to_json [moby; dune])]} ∅
    open_library_slow_author.

(** Worlds with no object yet and a file to construct a catalogue from:
    two records with one ISBN, a record whose values are numbers, a record
    without [isbn], text that is not JSON. *)
Definition on_disk (c : content) : World :=
  mkWorld [] {["library.json" := c]} ∅ open_library.

Definition twice_dune : content := Document (to_json [dune; dune_messiah]).

Definition numbers : content :=
  Document (VList [VDict [("title", VInt 1); ("author", VInt 2); ("isbn", VInt 3)]]).

Definition no_isbn : content :=
  Document (VList [VDict [("title", VStr "Test"); ("author", VStr "Test")]]).

(** The caller lists the catalogue and rebinds the [isbn] of the first
    record of the list it was handed, then asks the catalogue for the
    ISBN the record had. *)
Definition relabel_listed (self : loc) (old new : value) : M (option loc) :=
  let* books := list_books self in
  let* first := list_getitem books 0%nat in
  let* _ := set_attr_isbn first new in
  find_book self old.

(** Construct a catalogue, remove an ISBN and look it up again. *)
Definition remove_then_find (fn : string) (isbn : value) : M (bool * option loc) :=
  let* self := Library_init fn in
  let* removed := remove_book self isbn in
  let* again := find_book self isbn in
  ret (removed, again).

(** The world after a catalogue has been constructed from the file of
    [shelf]. *)
Definition loaded_shelf : World :=
  snd (Library_init "library.json" (on_disk (Document (to_json [moby; dune])))).

(** A session on a catalogue constructed from the file of [shelf]: a
    duplicate add, a lookup, a removal, a listing and a new add. *)
Definition session : list request :=
  [ReqAdd "Dune Messiah" "Frank Herbert" "9780441172719";
   ReqLookup "9780743273565";
   ReqRemove "9780142437247";
   ReqList;
   ReqAdd "Brave New World" "Aldous Huxley" "9780060850524"].

(** ** What an operation leaves alone *)

(** A computation that leaves a component [f] of the world as it is. *)
Definition preserves {A X : Type} (f : World -> X) (m : M A) : Prop :=
  forall w, f (snd (m w)) = f w.

(** The ISBN a request is about. *)
Definition request_isbn (r : request) : option string :=
  match r with
  | ReqAdd _ _ i | ReqRemove i | ReqLookup i | ReqFind i => Some i
  | ReqList => None
  end.

(** The requests that add the given (title, author, isbn) triples one by
    one, and the records they carry. *)
Definition add_requests (news : list (string * string * string)) : list request :=
  map (fun n => ReqAdd (fst (fst n)) (snd (fst n)) (snd n)) news.

Definition new_records (news : list (string * string * string)) : list Book :=
  map (fun n => mkBook (VStr (fst (fst n))) (VStr (snd (fst n))) (VStr (snd n))) news.

(** The catalogue of [shelf] in front of a service [net]. *)
Definition shelf_with (net : url -> reply) : World :=
  mkWorld shelf_heap {["library.json" := Document (to_json [moby; dune])]} ∅ net.

(** The same service when the author resource carries no usable name:
    [{"name": null}]. *)
Definition open_library_null_name (u : url) : reply :=
  match u with
  | IsbnUrl _ => open_library u
  | AuthorUrl _ => Response 200 (Some (VDict [("name", VNone)]))
  end.

(** Two catalogues constructed one after the other from the file of
    [shelf], at locations 1 and 6. *)
Definition two_shelves : World :=
  snd (Library_init "library.json" loaded_shelf).

(** ** The other attributes of a record *)

(** [book.title] and [book.author]. *)
Definition attr_title (book : loc) : M value :=
  let* b := book_of book in
  ret (title b).

Definition attr_author (book : loc) : M value :=
  let* b := book_of book in
  ret (author b).

(** * The HTTP front end ([api.py])

    Each endpoint calls one method of the module-level [library] inside a
    [try] block and turns what it raises into an [HTTPException].  An
    endpoint is a computation over the same world; what it can raise is
    an exception of the catalogue, pydantic's [ValidationError] or an
    [HTTPException]. *)

Module Api.

(** [class BookResponse(BaseModel)]: three fields declared [str]. *)
Record BookResponse : Type :=
  mkBookResponse { title : string; author : string; isbn : string }.

(** The body of [health_check]'s answer. *)
Record Health : Type :=
  mkHealth { status : string; message : string; book_count : nat }.

(** The body of [delete_book]'s answer:
    [{"message": f"Book with ISBN {isbn} deleted successfully"}]. *)
Inductive Deleted : Type :=
| DeletedSuccessfully (isbn : string).

(** A [detail] is kept as its template and the exception whose [str] it
    embeds. *)
Inductive error : Type :=
| Py (e : exn)
| ValidationError
| HTTPException (status_code : Z) (detail : detail)
with detail : Type :=
| Str (e : error)
| ServiceUnavailable (e : error)
| InternalServerError (e : error)
| HealthCheckFailed (e : error)
| BookNotFound (isbn : string).

(** [isinstance(e, ValueError)]: [json.JSONDecodeError],
    [UnicodeDecodeError] and pydantic's [ValidationError] are subclasses
    of [ValueError]; [isinstance(e, ConnectionError)]. *)
Definition is_ValueError (e : error) : bool :=
  match e with
  | Py (ValueError _) | Py JSONDecodeError | Py UnicodeDecodeError
  | ValidationError => true
  | _ => false
  end.

Definition is_ConnectionError (e : error) : bool :=
  match e with
  | Py (ConnectionError _) => true
  | _ => false
  end.

Inductive result (A : Type) : Type :=
| Return (a : A)
| Raised (e : error).
Arguments Return {A} a.
Arguments Raised {A} e.

Definition endpoint (A : Type) : Type := World -> result A * World.

Definition ret {A} (a : A) : endpoint A := fun w => (Return a, w).

Definition raise {A} (e : error) : endpoint A := fun w => (Raised e, w).

Definition bind {A B} (m : endpoint A) (k : A -> endpoint B) : endpoint B :=
  fun w =>
    match m w with
    | (Return a, w') => k a w'
    | (Raised e, w') => (Raised e, w')
    end.

Definition try_except {A} (m : endpoint A) (h : error -> endpoint A) : endpoint A :=
  fun w =>
    match m w with
    | (Return a, w') => (Return a, w')
    | (Raised e, w') => h e w'
    end.

(** A call into [models.py]. *)
Definition call {A} (m : M A) : endpoint A :=
  fun w =>
    match m w with
    | (Ok a, w') => (Return a, w')
    | (Raise e, w') => (Raised (Py e), w')
    end.

Declare Scope api_scope.
Delimit Scope api_scope with api.
Notation "'let*' x ':=' m 'in' k" := (bind m (fun x => k))
  (at level 10, x name, m at level 100, k at level 200) : api_scope.
Local Open Scope api_scope.

Fixpoint comprehension {A B} (f : A -> endpoint B) (l : list A) : endpoint (list B) :=
  match l with
  | [] => ret []
  | x :: l' =>
      let* y := f x in
      let* ys := comprehension f l' in
      ret (y :: ys)
  end.

Section endpoints.

(** pydantic's validation of a field declared [str]: the string a value
    is accepted as, if it is accepted.  A string is accepted as it is;
    which other values are (pydantic 1 coerces numbers, pydantic 2
    refuses them) is left open. *)
Variable str_validator : value -> option string.

(** The module-level [library]. *)
Variable library : loc.

(** [BookResponse(title=..., author=..., isbn=...)]. *)
Definition BookResponse_init (title author isbn : value) : endpoint BookResponse :=
  match str_validator title, str_validator author, str_validator isbn with
  | Some t, Some a, Some i => ret (mkBookResponse t a i)
  | _, _, _ => raise ValidationError
  end.

(** [BookResponse(title=book.title, author=book.author, isbn=book.isbn)]. *)
Definition response_of (book : loc) : endpoint BookResponse :=
  let* t := call (attr_title book) in
  let* a := call (attr_author book) in
  let* i := call (attr_isbn book) in
  BookResponse_init t a i.

(** [GET /books]. *)
Definition get_all_books : endpoint (list BookResponse) :=
  try_except
    (let* books := call (list_books library) in
     let* items := call (list_items books) in
     comprehension response_of items)
    (fun e => raise (HTTPException 500 (InternalServerError e))).

(** [POST /books]. *)
Definition add_book_by_isbn (isbn : string) : endpoint BookResponse :=
  try_except
    (let* book := call (add_book_by_isbn library (VStr isbn)) in
     response_of book)
    (fun e =>
       if is_ValueError e then raise (HTTPException 400 (Str e))
       else if is_ConnectionError e
            then raise (HTTPException 503 (ServiceUnavailable e))
            else raise (HTTPException 500 (InternalServerError e))).

(** The handlers shared by [get_book_by_isbn] and [delete_book]:
    [except HTTPException: raise] and [except Exception as e]. *)
Definition reraise_http {A} (e : error) : endpoint A :=
  match e with
  | HTTPException _ _ => raise e
  | _ => raise (HTTPException 500 (InternalServerError e))
  end.

(** [GET /books/{isbn}]. *)
Definition get_book_by_isbn (isbn : string) : endpoint BookResponse :=
  try_except
    (let* book := call (find_book library (VStr isbn)) in
     match book with
     | None => raise (HTTPException 404 (BookNotFound isbn))
     | Some book => response_of book
     end)
    reraise_http.

(** [DELETE /books/{isbn}]. *)
Definition delete_book (isbn : string) : endpoint Deleted :=
  try_except
    (let* success := call (remove_book library (VStr isbn)) in
     if negb success then raise (HTTPException 404 (BookNotFound isbn))
     else ret (DeletedSuccessfully isbn))
    reraise_http.

(** [GET /health]. *)
Definition health_check : endpoint Health :=
  try_except
    (let* books := call (list_books library) in
     let* items := call (list_items books) in
     ret (mkHealth "healthy" "Library Management System is running" (length items)))
    (fun e => raise (HTTPException 500 (HealthCheckFailed e))).

End endpoints.

End Api.

(** The response a record is answered as, when its three fields are
    accepted. *)
Definition response_for (str_validator : value -> option string) (b : Book)
  : option Api.BookResponse :=
  match str_validator (title b), str_validator (author b), str_validator (isbn b) with
  | Some t, Some a, Some i => Some (Api.mkBookResponse t a i)
  | _, _, _ => None
  end.

(** A validator that accepts strings only. *)
Definition strict_str (v : value) : option string :=
  match v with
  | VStr s => Some s
  | _ => None
  end.

(** The catalogue of [shelf] with a third record whose title is a
    number, as a file can hold it. *)
Definition odd_shelf : World :=
  mkWorld
    [OList [2%nat; 3%nat; 4%nat]; OLibrary "library.json" 0%nat;
     OBook moby; OBook dune;
     OBook (mkBook (VInt 1984) (VStr "George Orwell") (VStr "9780451524935"))]
    {["library.json" :=
        Document (to_json [moby; dune;
                           mkBook (VInt 1984) (VStr "George Orwell")
                             (VStr "9780451524935")])]}
    ∅ open_library.


(** A service whose book resource carries a number as title. *)
Definition open_library_numeric_title (u : url) : reply :=
  match u with
  | IsbnUrl _ => Response 200 (Some (VDict [("title", VInt 1984)]))
  | AuthorUrl _ => Response 404 None
  end.

(** ** Sessions of the HTTP front end

    The requests a client can send, the catalogue request each one comes
    down to, and the world a sequence of them leaves. *)
Inductive http_request : Type :=
| GetBooks
| PostBook (isbn : string)
| GetBook (isbn : string)
| DeleteBook (isbn : string)
| GetHealth.

Definition request_of (r : http_request) : request :=
  match r with
  | GetBooks | GetHealth => ReqList
  | PostBook i => ReqLookup i
  | GetBook i => ReqFind i
  | DeleteBook i => ReqRemove i
  end.

Definition handle (str_validator : value -> option string) (library : loc)
  (r : http_request) (w : World) : World :=
  match r with
  | GetBooks => snd (Api.get_all_books str_validator library w)
  | PostBook i => snd (Api.add_book_by_isbn str_validator library i w)
  | GetBook i => snd (Api.get_book_by_isbn str_validator library i w)
  | DeleteBook i => snd (Api.delete_book library i w)
  | GetHealth => snd (Api.health_check library w)
  end.

Fixpoint handle_all (str_validator : value -> option string) (library : loc)
  (rs : list http_request) (w : World) : World :=
  match rs with
  | [] => w
  | r :: rs' =>
      handle_all str_validator library rs' (handle str_validator library r w)
  end.

(** What a client sends in one run: a lookup, the same lookup again, a
    deletion, a listing. *)
Definition http_session : list http_request :=
  [PostBook "9780743273565"; PostBook "9780743273565";
   DeleteBook "9780142437247"; GetBooks; GetHealth; GetBook "9780441172719"].

(** * The console front end ([main.py])

    The menu loop reads lines from standard input and prints to standard
    output.  A program is a computation over the world and the console;
    besides the exceptions of the catalogue it can meet the [EOFError] of
    [input] at the end of the input.  What is printed is kept as its
    template and arguments. *)

Module Main.

Inductive error : Type :=
| Py (e : exn)
| EOFError.

(** [isinstance(e, ValueError)] and [isinstance(e, ConnectionError)]. *)
Definition is_ValueError (e : error) : bool :=
  match e with
  | Py (ValueError _) | Py JSONDecodeError | Py UnicodeDecodeError => true
  | _ => false
  end.

Definition is_ConnectionError (e : error) : bool :=
  match e with
  | Py (ConnectionError _) => true
  | _ => false
  end.

(** A line of output: a constant text, the prompt of an [input], or one of
    the formatted messages.  A record stands for its [__str__],
    [f"{title} by {author} (ISBN: {isbn})"]. *)
Inductive line : Type :=
| Text (s : string)
| Prompt (s : string)
| ErrorLine (e : error)
| NetworkError (e : error)
| UnexpectedError (e : error)
| InitError (e : error)
| AddedManually (title : string)
| AddedByLookup (title author : value)
| Removed (isbn : string)
| NothingToRemove (isbn : string)
| TotalBooks (n : nat)
| Numbered (i : nat) (book : Book)
| Found (book : Book)
| NothingFound (isbn : string).

Record console : Type := mkConsole { stdin : list string; stdout : list line }.

Inductive result (A : Type) : Type :=
| Done (a : A)
| Raised (e : error).
Arguments Done {A} a.
Arguments Raised {A} e.

Definition prog (A : Type) : Type := World * console -> result A * (World * console).

Definition ret {A} (a : A) : prog A := fun st => (Done a, st).

Definition raise {A} (e : error) : prog A := fun st => (Raised e, st).

Definition bind {A B} (m : prog A) (k : A -> prog B) : prog B :=
  fun st =>
    match m st with
    | (Done a, st') => k a st'
    | (Raised e, st') => (Raised e, st')
    end.

Definition try_except {A} (m : prog A) (h : error -> prog A) : prog A :=
  fun st =>
    match m st with
    | (Done a, st') => (Done a, st')
    | (Raised e, st') => h e st'
    end.

(** A call into [models.py]. *)
Definition call {A} (m : M A) : prog A :=
  fun st =>
    match m (fst st) with
    | (Ok a, w') => (Done a, (w', snd st))
    | (Raise e, w') => (Raised (Py e), (w', snd st))
    end.

(** [print(l)]. *)
Definition print (l : line) : prog unit :=
  fun st =>
    (Done tt, (fst st, mkConsole (stdin (snd st)) (stdout (snd st) ++ [l]))).

(** [input(prompt)]: the prompt is written, then a line is read;
    [EOFError] at the end of the input. *)
Definition input (prompt : string) : prog string :=
  fun st =>
    let out := stdout (snd st) ++ [Prompt prompt] in
    match stdin (snd st) with
    | s :: rest => (Done s, (fst st, mkConsole rest out))
    | [] => (Raised EOFError, (fst st, mkConsole [] out))
    end.

Declare Scope main_scope.
Delimit Scope main_scope with main.
Notation "'let*' x ':=' m 'in' k" := (bind m (fun x => k))
  (at level 10, x name, m at level 100, k at level 200) : main_scope.
Local Open Scope main_scope.

(** ["\n"] and [s * n]. *)
Definition nl : string := String (Ascii.ascii_of_nat 10) EmptyString.

Fixpoint times (s : string) (n : nat) : string :=
  match n with
  | O => EmptyString
  | S n' => s ++ times s n'
  end.

Section menu.

(** [str.strip]. *)
Variable strip : string -> string.

(** [input(prompt).strip()]. *)
Definition read (prompt : string) : prog string :=
  let* s := input prompt in
  ret (strip s).

Definition display_menu : prog unit :=
  let* _ := print (Text (nl ++ times "=" 50)) in
  let* _ := print (Text "        LIBRARY MANAGEMENT SYSTEM") in
  let* _ := print (Text (times "=" 50)) in
  let* _ := print (Text "1. Add Book") in
  let* _ := print (Text "2. Remove Book") in
  let* _ := print (Text "3. List All Books") in
  let* _ := print (Text "4. Search Book") in
  let* _ := print (Text "5. Exit") in
  print (Text (times "=" 50)).

(** The [except] clauses of [add_book]. *)
Definition report (e : error) : prog unit :=
  if is_ValueError e then print (ErrorLine e)
  else if is_ConnectionError e then
    let* _ := print (NetworkError e) in
    print (Text "Please check your internet connection or try again later.")
  else print (UnexpectedError e).

Definition add_book (library : loc) : prog unit :=
  let* _ := print (Text (nl ++ "--- Add New Book ---")) in
  let* _ := print (Text "Choose an option:") in
  let* _ := print (Text "1. Manual entry") in
  let* _ := print (Text "2. ISBN lookup (automatic)") in
  try_except
    (let* choice := read "Enter your choice (1-2): " in
     if String.eqb choice "1" then
       let* title := read "Enter book title: " in
       if String.eqb title EmptyString then
         print (Text "Error: Title cannot be empty")
       else
         let* author := read "Enter book author: " in
         if String.eqb author EmptyString then
           print (Text "Error: Author cannot be empty")
         else
           let* isbn := read "Enter book ISBN: " in
           if String.eqb isbn EmptyString then
             print (Text "Error: ISBN cannot be empty")
           else
             let* book := call (Book_init (VStr title) (VStr author) (VStr isbn)) in
             let* _ := call (add_book library book) in
             print (AddedManually title)
     else if String.eqb choice "2" then
       let* isbn := read "Enter book ISBN: " in
       if String.eqb isbn EmptyString then
         print (Text "Error: ISBN cannot be empty")
       else
         let* _ := print (Text "Looking up book information...") in
         let* book := call (add_book_by_isbn library (VStr isbn)) in
         let* t := call (attr_title book) in
         let* a := call (attr_author book) in
         print (AddedByLookup t a)
     else print (Text "Invalid choice! Please enter 1 or 2."))
    report.

Definition remove_book (library : loc) : prog unit :=
  let* _ := print (Text (nl ++ "--- Remove Book ---")) in
  try_except
    (let* isbn := read "Enter ISBN of book to remove: " in
     if String.eqb isbn EmptyString then
       print (Text "Error: ISBN cannot be empty")
     else
       let* removed := call (remove_book library (VStr isbn)) in
       if removed then print (Removed isbn) else print (NothingToRemove isbn))
    (fun e => print (UnexpectedError e)).

(** The loop over [enumerate(books, 1)]. *)
Fixpoint print_books (i : nat) (books : list loc) : prog unit :=
  match books with
  | [] => ret tt
  | book :: rest =>
      let* b := call (book_of book) in
      let* _ := print (Numbered i b) in
      print_books (S i) rest
  end.

Definition list_books (library : loc) : prog unit :=
  let* _ := print (Text (nl ++ "--- All Books ---")) in
  try_except
    (let* books := call (list_books library) in
     let* items := call (list_items books) in
     match items with
     | [] => print (Text "No books in the library.")
     | _ =>
         let* _ := print (TotalBooks (length items)) in
         let* _ := print (Text (times "-" 60)) in
         print_books 1 items
     end)
    (fun e => print (UnexpectedError e)).

Definition search_book (library : loc) : prog unit :=
  let* _ := print (Text (nl ++ "--- Search Book ---")) in
  try_except
    (let* isbn := read "Enter ISBN to search: " in
     if String.eqb isbn EmptyString then
       print (Text "Error: ISBN cannot be empty")
     else
       let* book := call (find_book library (VStr isbn)) in
       match book with
       | Some book =>
           let* b := call (book_of book) in
           print (Found b)
       | None => print (NothingFound isbn)
       end)
    (fun e => print (UnexpectedError e)).

(** One turn of the [while True] loop of [main]: [true] when the loop
    goes on, [false] on [break]. *)
Definition turn (library : loc) : prog bool :=
  try_except
    (let* _ := display_menu in
     let* choice := read "Enter your choice (1-5): " in
     if String.eqb choice "1" then
       let* _ := add_book library in ret true
     else if String.eqb choice "2" then
       let* _ := remove_book library in ret true
     else if String.eqb choice "3" then
       let* _ := list_books library in ret true
     else if String.eqb choice "4" then
       let* _ := search_book library in ret true
     else if String.eqb choice "5" then
       let* _ := print (Text "Thank you for using Library Management System!") in
       ret false
     else
       let* _ := print (Text "Invalid choice! Please enter a number between 1-5.") in
       ret true)
    (fun e =>
       match e with
       | EOFError =>
           let* _ := print (Text (nl ++ nl ++ "Exiting Library Management System...")) in
           ret false
       | _ =>
           let* _ := print (UnexpectedError e) in
           ret true
       end).

(** The loop, run for at most [fuel] turns: [true] when it has ended. *)
Fixpoint loop (fuel : nat) (library : loc) : prog bool :=
  match fuel with
  | O => ret false
  | S fuel' =>
      let* again := turn library in
      if again then loop fuel' library else ret true
  end.

(** [main()]. *)
Definition main (fuel : nat) : prog bool :=
  let* _ := print (Text "Initializing Library Management System...") in
  let* library :=
    try_except
      (let* library := call (Library_init "library.json") in
       let* _ := print (Text "Library loaded successfully!") in
       ret (Some library))
      (fun e =>
         let* _ := print (InitError e) in
         ret None) in
  match library with
  | Some library => loop fuel library
  | None => ret true
  end.

End menu.

End Main.

(** What is typed in one run of the program: a manual add, the same add
    again, a removal with a blank ISBN, a listing, a search, and exit. *)
Definition typed : list string :=
  ["1"; "1"; "The Great Gatsby"; "F. Scott Fitzgerald"; "9780743273565";
   "1"; "1"; "The Great Gatsby"; "F. Scott Fitzgerald"; "9780743273565";
   "2"; ""; "3"; "4"; "9780441172719"; "5"].

(** A program that never puts a line back on its input; one that ends
    normally whatever the state; one whose effect on the world is that of
    a sequence of requests to the catalogue [library]. *)
Definition consumes {A} (m : Main.prog A) : Prop :=
  forall st,
    (length (Main.stdin (snd (snd (m st)))) <= length (Main.stdin (snd st)))%nat.

Definition total {A} (m : Main.prog A) : Prop :=
  forall st, exists a, fst (m st) = Main.Done a.

Definition requests_only (library : loc) {A} (m : Main.prog A) : Prop :=
  forall st, exists rs, fst (snd (m st)) = serve_all library rs (fst st).

(** What the listing of the console prints for a sequence of records:
    the numbered records, and the whole body of the listing. *)
Fixpoint numbered (i : nat) (bs : list Book) : list Main.line :=
  match bs with
  | [] => []
  | b :: bs' => Main.Numbered i b :: numbered (S i) bs'
  end.

Definition listing (bs : list Book) : list Main.line :=
  match bs with
  | [] => [Main.Text "No books in the library."]
  | _ =>
      Main.TotalBooks (length bs) :: Main.Text (Main.times "-" 60) :: numbered 1 bs
  end.

(** * Properties *)

(** Case analysis on a scrutinee that has no case analysis inside. *)
Ltac break_inner :=
  match goal with
  | |- context [match ?x with _ => _ end] =>
      lazymatch x with
      | context [match _ with _ => _ end] => fail
      | _ => destruct x
      end
  end.

(** ** Running computations *)

Lemma bind_ok {A B} (m : M A) (k : A -> M B) w a w' :
  m w = (Ok a, w') -> bind m k w = k a w'.
Proof. unfold bind. intros ->. reflexivity. Qed.

Lemma bind_raise {A B} (m : M A) (k : A -> M B) w e w' :
  m w = (Raise e, w') -> bind m k w = (Raise e, w').
Proof. unfold bind. intros ->. reflexivity. Qed.

Lemma try_ok {A} (m : M A) h w a w' :
  m w = (Ok a, w') -> try_except m h w = (Ok a, w').
Proof. unfold try_except. intros ->. reflexivity. Qed.

Lemma try_raise {A} (m : M A) h w e w' :
  m w = (Raise e, w') -> try_except m h w = h e w'.
Proof. unfold try_except. intros ->. reflexivity. Qed.

(** ** Reading objects *)

Lemma library_at_Some h self fn bl :
  library_at h self = Some (fn, bl) <-> h !! self = Some (OLibrary fn bl).
Proof.
  unfold library_at. split.
  - destruct (h !! self) as [[| |fn' bl']|]; intros E; inversion E; reflexivity.
  - intros ->. reflexivity.
Qed.

Lemma items_at_Some h l items :
  items_at h l = Some items <-> h !! l = Some (OList items).
Proof.
  unfold items_at. split.
  - destruct (h !! l) as [[| |]|]; intros E; inversion E; reflexivity.
  - intros ->. reflexivity.
Qed.

Lemma book_at_Some h l b :
  book_at h l = Some b <-> h !! l = Some (OBook b).
Proof.
  unfold book_at. split.
  - destruct (h !! l) as [[| |]|]; intros E; inversion E; reflexivity.
  - intros ->. reflexivity.
Qed.

Lemma records_Some h l bs :
  records h l = Some bs <->
  exists items, items_at h l = Some items /\ mapM (book_at h) items = Some bs.
Proof.
  unfold records. split.
  - destruct (items_at h l) as [items|]; [|discriminate]. eauto.
  - intros (items & -> & E). exact E.
Qed.

Lemma self_filename_run w self fn bl :
  library_at (heap w) self = Some (fn, bl) -> self_filename self w = (Ok fn, w).
Proof.
  rewrite library_at_Some. intros E.
  unfold self_filename, bind, deref. rewrite E. reflexivity.
Qed.

Lemma self_books_run w self fn bl :
  library_at (heap w) self = Some (fn, bl) -> self_books self w = (Ok bl, w).
Proof.
  rewrite library_at_Some. intros E.
  unfold self_books, bind, deref. rewrite E. reflexivity.
Qed.

Lemma list_items_run w l items :
  items_at (heap w) l = Some items -> list_items l w = (Ok items, w).
Proof.
  rewrite items_at_Some. intros E.
  unfold list_items, bind, deref. rewrite E. reflexivity.
Qed.

Lemma book_of_run w l b :
  book_at (heap w) l = Some b -> book_of l w = (Ok b, w).
Proof.
  rewrite book_at_Some. intros E.
  unfold book_of, bind, deref. rewrite E. reflexivity.
Qed.

Lemma attr_isbn_run w l b :
  book_at (heap w) l = Some b -> attr_isbn l w = (Ok (isbn b), w).
Proof.
  intros E. unfold attr_isbn. rewrite (bind_ok _ _ _ _ _ (book_of_run _ _ _ E)).
  reflexivity.
Qed.

(** ** Equality with a string *)

Lemma py_eq_str v s : py_eq v (VStr s) = true <-> v = VStr s.
Proof.
  destruct v; simpl; try (split; [discriminate|intros E; inversion E]).
  rewrite String.eqb_eq. split; [intros ->; reflexivity|intros E; inversion E; reflexivity].
  all: destruct l; split; try discriminate.
Qed.

(** ** The first record with a given ISBN *)

Lemma position_spec i bs :
  match position i bs with
  | Some n =>
      exists b, bs !! n = Some b /\ py_eq (isbn b) i = true /\
                Forall (fun b' => py_eq (isbn b') i = false) (take n bs)
  | None => Forall (fun b => py_eq (isbn b) i = false) bs
  end.
Proof.
  induction bs as [|b bs IH]; simpl.
  - constructor.
  - destruct (py_eq (isbn b) i) eqn:E.
    + exists b. repeat split; [exact E|constructor].
    + destruct (position i bs) as [n|].
      * destruct IH as (b' & Hb' & Heq & Hbefore).
        exists b'. repeat split; [exact Hb'|exact Heq|].
        simpl. constructor; assumption.
      * constructor; assumption.
Qed.

Lemma no_match_not_In s bs :
  Forall (fun b => py_eq (isbn b) (VStr s) = false) bs <-> ~ In (VStr s) (isbns bs).
Proof.
  induction bs as [|b bs IH]; simpl.
  - split; [intros _ []|constructor].
  - split.
    + intros H. inversion H as [|? ? Hb Hbs]; subst. intros [E|HIn].
      * apply py_eq_str in E. congruence.
      * apply IH in Hbs. contradiction.
    + intros H. constructor.
      * destruct (py_eq (isbn b) (VStr s)) eqn:E; [|reflexivity].
        apply py_eq_str in E. exfalso. apply H. left. exact E.
      * apply IH. intros HIn. apply H. right. exact HIn.
Qed.

Lemma position_None s bs :
  position (VStr s) bs = None <-> ~ In (VStr s) (isbns bs).
Proof.
  rewrite <- no_match_not_In. split.
  - intros E. pose proof (position_spec (VStr s) bs) as H. rewrite E in H. exact H.
  - intros H. pose proof (position_spec (VStr s) bs) as P.
    destruct (position (VStr s) bs) as [n|]; [|reflexivity].
    destruct P as (b & Hb & Heq & _).
    rewrite Forall_lookup in H. rewrite (H _ _ Hb) in Heq. discriminate.
Qed.

Lemma position_lt i bs n : position i bs = Some n -> (n < length bs)%nat.
Proof.
  intros E. pose proof (position_spec i bs) as P. rewrite E in P.
  destruct P as (b & Hb & _). eapply lookup_lt_Some. exact Hb.
Qed.

Lemma find_loop_run w items bs i :
  mapM (book_at (heap w)) items = Some bs ->
  find_loop items i w =
    (Ok (match position i bs with Some n => items !! n | None => None end), w).
Proof.
  rewrite mapM_Some. intros F. induction F as [|l b items bs Hl F IH]; simpl.
  - reflexivity.
  - rewrite (bind_ok _ _ _ _ _ (attr_isbn_run _ _ _ Hl)).
    destruct (py_eq (isbn b) i); [reflexivity|].
    rewrite IH. destruct (position i bs); reflexivity.
Qed.

Lemma find_book_run w self fn bl items bs i :
  library_at (heap w) self = Some (fn, bl) ->
  items_at (heap w) bl = Some items ->
  mapM (book_at (heap w)) items = Some bs ->
  find_book self i w =
    (Ok (match position i bs with Some n => items !! n | None => None end), w).
Proof.
  intros Hself Hbl Hbs. unfold find_book.
  rewrite (bind_ok _ _ _ _ _ (self_books_run _ _ _ _ Hself)).
  rewrite (bind_ok _ _ _ _ _ (list_items_run _ _ _ Hbl)).
  apply find_loop_run. exact Hbs.
Qed.

(** ** Persisting *)

Lemma dump_rows_run w items bs :
  mapM (book_at (heap w)) items = Some bs ->
  comprehension (fun book => let* b := book_of book in ret (VDict (to_dict b)))
    items w = (Ok (map (fun b => VDict (to_dict b)) bs), w).
Proof.
  rewrite mapM_Some. intros F. induction F as [|l b items bs Hl F IH]; simpl.
  - reflexivity.
  - erewrite bind_ok; [|erewrite bind_ok; [reflexivity|apply book_of_run; exact Hl]].
    rewrite (bind_ok _ _ _ _ _ IH). reflexivity.
Qed.

Lemma set_files_set_files w a b : set_files (set_files w a) b = set_files w b.
Proof. reflexivity. Qed.

Lemma save_books_ok w self fn bl bs :
  library_at (heap w) self = Some (fn, bl) ->
  records (heap w) bl = Some bs ->
  ~ fn ∈ unwritable w ->
  save_books self w =
    (Ok tt, set_files w (<[fn := Document (to_json bs)]> (files w))).
Proof.
  intros Hself Hrec Hw. apply records_Some in Hrec as (items & Hbl & Hbs).
  unfold save_books.
  rewrite (bind_ok _ _ _ _ _ (self_filename_run _ _ _ _ Hself)).
  apply try_ok.
  erewrite bind_ok; cycle 1.
  { unfold open_write. rewrite decide_False by exact Hw. reflexivity. }
  erewrite bind_ok; [|apply (self_books_run _ self fn bl); exact Hself].
  erewrite bind_ok; [|apply list_items_run; exact Hbl].
  erewrite bind_ok; [|apply dump_rows_run; exact Hbs].
  unfold json_dump, set_files, to_json. simpl. rewrite insert_insert_eq. reflexivity.
Qed.

Lemma save_books_fail w self fn bl :
  library_at (heap w) self = Some (fn, bl) ->
  fn ∈ unwritable w ->
  save_books self w =
    (Raise (IOError (SaveFailed fn (IOError (CannotOpen fn)))), w).
Proof.
  intros Hself Hw. unfold save_books.
  rewrite (bind_ok _ _ _ _ _ (self_filename_run _ _ _ _ Hself)).
  erewrite try_raise; cycle 1.
  { apply bind_raise. unfold open_write. rewrite decide_True by exact Hw. reflexivity. }
  reflexivity.
Qed.

(** ** Updating a list object

    Replacing the items of a list object changes no [Book] and no
    [Library] object. *)

Section store_list.
Context (h : list obj) (bl : loc) (items items' : list loc).
Hypothesis Hbl : items_at h bl = Some items.

Lemma store_list_book_at l :
  book_at (<[bl := OList items']> h) l = book_at h l.
Proof using Hbl.
  apply items_at_Some in Hbl. unfold book_at.
  destruct (decide (l = bl)) as [->|Hne].
  - rewrite list_lookup_insert_eq by (eapply lookup_lt_Some; exact Hbl).
    rewrite Hbl. reflexivity.
  - rewrite list_lookup_insert_ne by congruence. reflexivity.
Qed.

Lemma store_list_library_at l :
  library_at (<[bl := OList items']> h) l = library_at h l.
Proof using Hbl.
  apply items_at_Some in Hbl. unfold library_at.
  destruct (decide (l = bl)) as [->|Hne].
  - rewrite list_lookup_insert_eq by (eapply lookup_lt_Some; exact Hbl).
    rewrite Hbl. reflexivity.
  - rewrite list_lookup_insert_ne by congruence. reflexivity.
Qed.

Lemma store_list_items_at :
  items_at (<[bl := OList items']> h) bl = Some items'.
Proof using Hbl.
  apply items_at_Some in Hbl. unfold items_at.
  rewrite list_lookup_insert_eq by (eapply lookup_lt_Some; exact Hbl).
  reflexivity.
Qed.

Lemma store_list_items_at_ne l :
  l <> bl -> items_at (<[bl := OList items']> h) l = items_at h l.
Proof.
  intros Hne. unfold items_at. rewrite list_lookup_insert_ne by congruence.
  reflexivity.
Qed.

Lemma store_list_records bs' :
  mapM (book_at h) items' = Some bs' ->
  records (<[bl := OList items']> h) bl = Some bs'.
Proof using Hbl.
  intros E. unfold records. rewrite store_list_items_at.
  rewrite <- E. apply mapM_ext. apply store_list_book_at.
Qed.
End store_list.

Lemma mapM_snoc {A B} (f : A -> option B) l k x y :
  mapM f l = Some k -> f x = Some y -> mapM f (l ++ [x]) = Some (k ++ [y]).
Proof.
  rewrite !mapM_Some. intros F E. apply Forall2_app; [exact F|].
  constructor; [exact E|constructor].
Qed.

Lemma mapM_delete {A B} (f : A -> option B) l k n :
  mapM f l = Some k -> mapM f (delete n l) = Some (delete n k).
Proof.
  rewrite !mapM_Some. intros F. apply Forall2_delete. exact F.
Qed.

Lemma list_append_run w l items x :
  items_at (heap w) l = Some items ->
  list_append l x w = (Ok tt, set_heap w (<[l := OList (items ++ [x])]> (heap w))).
Proof.
  intros E. unfold list_append.
  rewrite (bind_ok _ _ _ _ _ (list_items_run _ _ _ E)). reflexivity.
Qed.

Lemma list_pop_run w l items n :
  items_at (heap w) l = Some items -> (n < length items)%nat ->
  list_pop l n w = (Ok tt, set_heap w (<[l := OList (delete n items)]> (heap w))).
Proof.
  intros E Hn. unfold list_pop.
  rewrite (bind_ok _ _ _ _ _ (list_items_run _ _ _ E)).
  apply Nat.ltb_lt in Hn. rewrite Hn. reflexivity.
Qed.

(** ** [add_book] *)

Lemma add_book_duplicate w self fn bl items bs book b n :
  library_at (heap w) self = Some (fn, bl) ->
  items_at (heap w) bl = Some items ->
  mapM (book_at (heap w)) items = Some bs ->
  book_at (heap w) book = Some b ->
  position (isbn b) bs = Some n ->
  add_book self book w = (Raise (ValueError (AlreadyExists (isbn b))), w).
Proof.
  intros Hself Hbl Hbs Hb Hpos. unfold add_book.
  rewrite (bind_ok _ _ _ _ _ (attr_isbn_run _ _ _ Hb)).
  rewrite (bind_ok _ _ _ _ _ (find_book_run _ _ _ _ _ _ _ Hself Hbl Hbs)).
  rewrite Hpos.
  destruct (lookup_lt_is_Some_2 items n) as [l Hl].
  { rewrite (length_mapM _ _ _ Hbs). eapply position_lt. exact Hpos. }
  rewrite Hl. reflexivity.
Qed.

Lemma add_book_fresh w self fn bl items bs book b :
  library_at (heap w) self = Some (fn, bl) ->
  items_at (heap w) bl = Some items ->
  mapM (book_at (heap w)) items = Some bs ->
  book_at (heap w) book = Some b ->
  position (isbn b) bs = None ->
  add_book self book w = save_books self (appended w bl items book).
Proof.
  intros Hself Hbl Hbs Hb Hpos. unfold add_book.
  rewrite (bind_ok _ _ _ _ _ (attr_isbn_run _ _ _ Hb)).
  rewrite (bind_ok _ _ _ _ _ (find_book_run _ _ _ _ _ _ _ Hself Hbl Hbs)).
  rewrite Hpos.
  rewrite (bind_ok _ _ _ _ _ (self_books_run _ _ _ _ Hself)).
  rewrite (bind_ok _ _ _ _ _ (list_append_run _ _ _ _ Hbl)).
  reflexivity.
Qed.

Lemma appended_state w self fn bl items bs book b :
  library_at (heap w) self = Some (fn, bl) ->
  items_at (heap w) bl = Some items ->
  mapM (book_at (heap w)) items = Some bs ->
  book_at (heap w) book = Some b ->
  library_at (heap (appended w bl items book)) self = Some (fn, bl) /\
  records (heap (appended w bl items book)) bl = Some (bs ++ [b]).
Proof.
  intros Hself Hbl Hbs Hb. unfold appended. simpl. split.
  - rewrite (store_list_library_at _ _ _ _ Hbl). exact Hself.
  - apply (store_list_records _ _ _ _ Hbl). apply mapM_snoc; assumption.
Qed.

(** A catalogue is a [Library] object and the records of its list object. *)
Lemma catalog_Some h self fn bs :
  file_of h self = Some fn /\ catalog h self = Some bs <->
  exists bl, library_at h self = Some (fn, bl) /\ records h bl = Some bs.
Proof.
  unfold file_of, catalog. split.
  - destruct (library_at h self) as [[fn' bl]|]; [|intros [? _]; discriminate].
    intros [E Hrec]. inversion E; subst. eauto.
  - intros (bl & -> & Hrec). split; [reflexivity|exact Hrec].
Qed.

Lemma catalog_inv h self bs :
  catalog h self = Some bs ->
  exists fn bl items,
    library_at h self = Some (fn, bl) /\ items_at h bl = Some items /\
    mapM (book_at h) items = Some bs.
Proof.
  unfold catalog. destruct (library_at h self) as [[fn bl]|]; [|discriminate].
  intros Hrec. apply records_Some in Hrec as (items & Hbl & Hbs). eauto 10.
Qed.

Lemma add_book_rejects w self fn bs book b s :
  file_of (heap w) self = Some fn ->
  catalog (heap w) self = Some bs ->
  book_at (heap w) book = Some b ->
  isbn b = VStr s ->
  In (VStr s) (isbns bs) ->
  add_book self book w = (Raise (ValueError (AlreadyExists (VStr s))), w).
Proof.
  intros Hfile Hcat Hb Hs HIn.
  destruct (proj1 (catalog_Some _ _ _ _) (conj Hfile Hcat)) as (bl & Hself & Hrec).
  destruct (proj1 (records_Some _ _ _) Hrec) as (items & Hbl & Hbs).
  rewrite <- Hs.
  destruct (position (isbn b) bs) as [n|] eqn:Hpos.
  - eapply add_book_duplicate; eassumption.
  - rewrite Hs in Hpos. apply position_None in Hpos. contradiction.
Qed.

Lemma add_book_appends w self fn bs book b s :
  file_of (heap w) self = Some fn ->
  catalog (heap w) self = Some bs ->
  book_at (heap w) book = Some b ->
  isbn b = VStr s ->
  ~ In (VStr s) (isbns bs) ->
  exists w1,
    add_book self book w = save_books self w1 /\
    heap (snd (save_books self w1)) = heap w1 /\
    files w1 = files w /\ unwritable w1 = unwritable w /\
    library_at (heap w1) self = library_at (heap w) self /\
    file_of (heap w1) self = Some fn /\
    catalog (heap w1) self = Some (bs ++ [b]).
Proof.
  intros Hfile Hcat Hb Hs Hfresh.
  destruct (proj1 (catalog_Some _ _ _ _) (conj Hfile Hcat)) as (bl & Hself & Hrec).
  destruct (proj1 (records_Some _ _ _) Hrec) as (items & Hbl & Hbs).
  apply position_None in Hfresh. rewrite <- Hs in Hfresh.
  destruct (appended_state _ _ _ _ _ _ _ _ Hself Hbl Hbs Hb) as [Hself' Hrec'].
  exists (appended w bl items book).
  split; [eapply add_book_fresh; eassumption|].
  split.
  { destruct (decide (fn ∈ unwritable w)) as [Hro|Hrw].
    - rewrite (save_books_fail _ _ _ _ Hself') by exact Hro. reflexivity.
    - rewrite (save_books_ok _ _ _ _ _ Hself' Hrec') by exact Hrw. reflexivity. }
  split; [reflexivity|]. split; [reflexivity|].
  split; [rewrite Hself', Hself; reflexivity|].
  apply (catalog_Some _ _ fn (bs ++ [b])). eauto.
Qed.

(** What [save_books] does on a catalogue: the file holds the sequence when
    it can be written, and the write error is raised over untouched files
    otherwise. *)
Lemma save_books_cases w self fn bs :
  file_of (heap w) self = Some fn ->
  catalog (heap w) self = Some bs ->
  (~ fn ∈ unwritable w ->
     save_books self w =
       (Ok tt, set_files w (<[fn := Document (to_json bs)]> (files w)))) /\
  (fn ∈ unwritable w ->
     save_books self w =
       (Raise (IOError (SaveFailed fn (IOError (CannotOpen fn)))), w)).
Proof.
  intros Hfile Hcat.
  destruct (proj1 (catalog_Some _ _ _ _) (conj Hfile Hcat)) as (bl & Hself & Hrec).
  split; intros Hw.
  - eapply save_books_ok; eassumption.
  - eapply save_books_fail; eassumption.
Qed.

Lemma add_book_new w self fn bs book b s :
  file_of (heap w) self = Some fn ->
  catalog (heap w) self = Some bs ->
  book_at (heap w) book = Some b ->
  isbn b = VStr s ->
  ~ In (VStr s) (isbns bs) ->
  exists r w',
    add_book self book w = (r, w') /\
    file_of (heap w') self = Some fn /\
    catalog (heap w') self = Some (bs ++ [b]) /\
    (~ fn ∈ unwritable w ->
       r = Ok tt /\
       files w' = <[fn := Document (to_json (bs ++ [b]))]> (files w)) /\
    (fn ∈ unwritable w ->
       r = Raise (IOError (SaveFailed fn (IOError (CannotOpen fn)))) /\
       files w' = files w).
Proof.
  intros Hfile Hcat Hb Hs Hfresh.
  destruct (add_book_appends _ _ _ _ _ _ _ Hfile Hcat Hb Hs Hfresh)
    as (w1 & Hrun & _ & Hfiles & Hunw & _ & Hfile1 & Hcat1).
  destruct (save_books_cases _ _ _ _ Hfile1 Hcat1) as [Hok Hfail].
  rewrite Hunw in Hok, Hfail. rewrite Hrun.
  destruct (decide (fn ∈ unwritable w)) as [Hro|Hrw].
  - rewrite (Hfail Hro). eexists _, _. split; [reflexivity|].
    split; [exact Hfile1|]. split; [exact Hcat1|].
    split; [intros; contradiction|]. intros _. split; [reflexivity|exact Hfiles].
  - rewrite (Hok Hrw). eexists _, _. split; [reflexivity|].
    split; [exact Hfile1|]. split; [exact Hcat1|]. simpl.
    split; [|intros; contradiction]. intros _. rewrite Hfiles.
    split; reflexivity.
Qed.



(** ** Allocation

    A new object is placed after the existing ones, which are unchanged. *)

Lemma alloc_run w o :
  alloc o w = (Ok (length (heap w)), set_heap w (heap w ++ [o])).
Proof. reflexivity. Qed.

Lemma lookup_new (h : list obj) o : (h ++ [o]) !! length h = Some o.
Proof. rewrite lookup_app_r by lia. rewrite Nat.sub_diag. reflexivity. Qed.

Lemma book_at_extend h h' l b :
  book_at h l = Some b -> book_at (h ++ h') l = Some b.
Proof.
  rewrite !book_at_Some. intros E. rewrite lookup_app_l; [exact E|].
  eapply lookup_lt_Some. exact E.
Qed.

Lemma items_at_extend h h' l items :
  items_at h l = Some items -> items_at (h ++ h') l = Some items.
Proof.
  rewrite !items_at_Some. intros E. rewrite lookup_app_l; [exact E|].
  eapply lookup_lt_Some. exact E.
Qed.

Lemma library_at_extend h h' l fn bl :
  library_at h l = Some (fn, bl) -> library_at (h ++ h') l = Some (fn, bl).
Proof.
  rewrite !library_at_Some. intros E. rewrite lookup_app_l; [exact E|].
  eapply lookup_lt_Some. exact E.
Qed.

Lemma books_extend h h' items bs :
  mapM (book_at h) items = Some bs -> mapM (book_at (h ++ h')) items = Some bs.
Proof.
  rewrite !mapM_Some. intros F. eapply Forall2_impl; [exact F|].
  simpl. intros l b. apply book_at_extend.
Qed.

Lemma records_extend h h' l bs :
  records h l = Some bs -> records (h ++ h') l = Some bs.
Proof.
  rewrite !records_Some. intros (items & Hl & Hbs). exists items.
  split; [apply items_at_extend; exact Hl|apply books_extend; exact Hbs].
Qed.

Lemma items_at_new h items : items_at (h ++ [OList items]) (length h) = Some items.
Proof. apply items_at_Some. apply lookup_new. Qed.

Lemma book_at_new h b : book_at (h ++ [OBook b]) (length h) = Some b.
Proof. apply book_at_Some. apply lookup_new. Qed.

(** ** [remove_book] *)

Lemma popped_state w self fn bl items bs n :
  library_at (heap w) self = Some (fn, bl) ->
  items_at (heap w) bl = Some items ->
  mapM (book_at (heap w)) items = Some bs ->
  library_at (heap (popped w bl items n)) self = Some (fn, bl) /\
  records (heap (popped w bl items n)) bl = Some (delete n bs).
Proof.
  intros Hself Hbl Hbs. unfold popped. simpl. split.
  - rewrite (store_list_library_at _ _ _ _ Hbl). exact Hself.
  - apply (store_list_records _ _ _ _ Hbl). apply mapM_delete. exact Hbs.
Qed.

Lemma remove_loop_run w self fn bl items k rest bs i :
  library_at (heap w) self = Some (fn, bl) ->
  items_at (heap w) bl = Some items ->
  (k + length rest = length items)%nat ->
  mapM (book_at (heap w)) rest = Some bs ->
  remove_loop self k rest i w =
    match position i bs with
    | Some n => (let* _ := save_books self in ret true) (popped w bl items (k + n))
    | None => (Ok false, w)
    end.
Proof.
  intros Hself Hbl Hlen Hbs. revert k Hlen.
  apply mapM_Some in Hbs.
  induction Hbs as [|l b rest bs Hl F IH]; intros k Hlen; simpl.
  - reflexivity.
  - rewrite (bind_ok _ _ _ _ _ (attr_isbn_run _ _ _ Hl)).
    destruct (py_eq (isbn b) i).
    + rewrite (bind_ok _ _ _ _ _ (self_books_run _ _ _ _ Hself)).
      erewrite bind_ok; [|apply (list_pop_run _ _ items); [exact Hbl|simpl in Hlen; lia]].
      rewrite Nat.add_0_r. reflexivity.
    + rewrite IH by (simpl in Hlen; lia).
      destruct (position i bs) as [n|]; [|reflexivity].
      replace (S k + n)%nat with (k + S n)%nat by lia. reflexivity.
Qed.

Lemma remove_book_run w self fn bl items bs i :
  library_at (heap w) self = Some (fn, bl) ->
  items_at (heap w) bl = Some items ->
  mapM (book_at (heap w)) items = Some bs ->
  remove_book self i w =
    match position i bs with
    | Some n => (let* _ := save_books self in ret true) (popped w bl items n)
    | None => (Ok false, w)
    end.
Proof.
  intros Hself Hbl Hbs. unfold remove_book.
  rewrite (bind_ok _ _ _ _ _ (self_books_run _ _ _ _ Hself)).
  rewrite (bind_ok _ _ _ _ _ (list_items_run _ _ _ Hbl)).
  apply (remove_loop_run _ _ _ _ _ 0%nat _ _ _ Hself Hbl); [reflexivity|exact Hbs].
Qed.

Lemma position_Some_In s bs n :
  position (VStr s) bs = Some n -> In (VStr s) (isbns bs).
Proof.
  intros Hpos. pose proof (position_spec (VStr s) bs) as P. rewrite Hpos in P.
  destruct P as (b & Hb & Heq & _). apply py_eq_str in Heq. rewrite <- Heq.
  unfold isbns. apply in_map. apply list_elem_of_In.
  eapply list_elem_of_lookup_2. exact Hb.
Qed.

Lemma remove_first_split s bs :
  In (VStr s) (isbns bs) ->
  exists pre b post,
    bs = pre ++ b :: post /\ isbn b = VStr s /\ ~ In (VStr s) (isbns pre) /\
    remove_first (VStr s) bs = pre ++ post.
Proof.
  intros HIn. unfold remove_first.
  pose proof (position_spec (VStr s) bs) as P.
  destruct (position (VStr s) bs) as [n|] eqn:Hpos.
  - destruct P as (b & Hb & Heq & Hbefore).
    exists (take n bs), b, (drop (S n) bs).
    split; [symmetry; apply take_drop_middle; exact Hb|].
    split; [apply py_eq_str; exact Heq|].
    split; [apply no_match_not_In; exact Hbefore|].
    apply delete_take_drop.
  - apply position_None in Hpos. contradiction.
Qed.

Lemma remove_first_NoDup s bs :
  List.NoDup (isbns bs) -> ~ In (VStr s) (isbns (remove_first (VStr s) bs)).
Proof.
  intros Hnd. destruct (position (VStr s) bs) as [n|] eqn:Hpos.
  - assert (In (VStr s) (isbns bs)) as HIn.
    { eapply position_Some_In. exact Hpos. }
    destruct (remove_first_split _ _ HIn) as (pre & b & post & -> & Hb & _ & ->).
    unfold isbns in *. rewrite map_app in *. simpl in Hnd. rewrite Hb in Hnd.
    apply NoDup_remove_2 in Hnd. exact Hnd.
  - unfold remove_first. rewrite Hpos. apply position_None. exact Hpos.
Qed.

Lemma save_then_true w self fn bl bs :
  library_at (heap w) self = Some (fn, bl) ->
  records (heap w) bl = Some bs ->
  (let* _ := save_books self in ret true) w =
    if decide (fn ∈ unwritable w)
    then (Raise (IOError (SaveFailed fn (IOError (CannotOpen fn)))), w)
    else (Ok true, set_files w (<[fn := Document (to_json bs)]> (files w))).
Proof.
  intros Hself Hrec. destruct (decide (fn ∈ unwritable w)) as [Hro|Hrw].
  - apply bind_raise. eapply save_books_fail; eassumption.
  - erewrite bind_ok; [reflexivity|]. eapply save_books_ok; eassumption.
Qed.

Lemma remove_book_present w self fn bs s :
  file_of (heap w) self = Some fn ->
  catalog (heap w) self = Some bs ->
  In (VStr s) (isbns bs) ->
  exists r w',
    remove_book self (VStr s) w = (r, w') /\
    file_of (heap w') self = Some fn /\
    catalog (heap w') self = Some (remove_first (VStr s) bs) /\
    S (length (remove_first (VStr s) bs)) = length bs /\
    (~ fn ∈ unwritable w ->
       r = Ok true /\
       files w' =
         <[fn := Document (to_json (remove_first (VStr s) bs))]> (files w)) /\
    (fn ∈ unwritable w ->
       r = Raise (IOError (SaveFailed fn (IOError (CannotOpen fn)))) /\
       files w' = files w) /\
    (~ In (VStr s) (isbns (remove_first (VStr s) bs)) ->
       find_book self (VStr s) w' = (Ok None, w')).
Proof.
  intros Hfile Hcat HIn.
  destruct (proj1 (catalog_Some _ _ _ _) (conj Hfile Hcat)) as (bl & Hself & Hrec).
  destruct (proj1 (records_Some _ _ _) Hrec) as (items & Hbl & Hbs).
  rewrite (remove_book_run _ _ _ _ _ _ _ Hself Hbl Hbs).
  unfold remove_first.
  destruct (position (VStr s) bs) as [n|] eqn:Hpos;
    [|apply position_None in Hpos; contradiction].
  destruct (popped_state _ _ _ _ _ _ n Hself Hbl Hbs) as [Hself' Hrec'].
  rewrite (save_then_true _ _ _ _ _ Hself' Hrec').
  assert (S (length (delete n bs)) = length bs) as Hlen.
  { pose proof (position_lt _ _ _ Hpos) as Hn.
    pose proof (length_delete bs n) as Hd.
    specialize (Hd (lookup_lt_is_Some_2 bs n Hn)). lia. }
  assert (forall w1, heap w1 = heap (popped w bl items n) ->
            ~ In (VStr s) (isbns (delete n bs)) ->
            find_book self (VStr s) w1 = (Ok None, w1)) as Hfind.
  { intros w1 Hw1 Hgone. apply records_Some in Hrec' as (items' & Hbl' & Hbs').
    rewrite <- Hw1 in Hself', Hbl', Hbs'.
    rewrite (find_book_run _ _ _ _ _ _ _ Hself' Hbl' Hbs').
    apply position_None in Hgone. rewrite Hgone. reflexivity. }
  apply records_Some in Hrec' as Hrec''.
  destruct (decide (fn ∈ unwritable (popped w bl items n))) as [Hro|Hrw].
  - eexists _, _. split; [reflexivity|].
    split; [apply (catalog_Some _ _ _ (delete n bs)); eauto|].
    split; [apply (catalog_Some _ _ fn); eauto|].
    split; [exact Hlen|].
    split; [intros Hrw; contradiction|].
    split; [intros _; split; reflexivity|].
    apply Hfind. reflexivity.
  - eexists _, _. split; [reflexivity|].
    split; [apply (catalog_Some _ _ _ (delete n bs)); simpl; eauto|].
    split; [apply (catalog_Some _ _ fn); simpl; eauto|].
    split; [exact Hlen|].
    split; [intros _; split; reflexivity|].
    split; [intros Hro; contradiction|].
    apply Hfind. reflexivity.
Qed.

Lemma remove_book_absent w self bs s :
  catalog (heap w) self = Some bs ->
  ~ In (VStr s) (isbns bs) ->
  remove_book self (VStr s) w = (Ok false, w).
Proof.
  intros Hcat Hfresh.
  destruct (catalog_inv _ _ _ Hcat) as (fn & bl & items & Hself & Hbl & Hbs).
  rewrite (remove_book_run _ _ _ _ _ _ _ Hself Hbl Hbs).
  apply position_None in Hfresh. rewrite Hfresh. reflexivity.
Qed.

(** C6, as the code has it: [remove] on an ISBN that some record carries
    deletes the first such record, persists and returns [True] (the write
    error is raised instead when the file cannot be written); when no
    other record carries that ISBN, a subsequent [find] returns [None].
    On an ISBN that no record carries, [remove] returns [False] and the
    world is unchanged. *)
Theorem remove_book_spec w self fn bs s :
  file_of (heap w) self = Some fn ->
  catalog (heap w) self = Some bs ->
  (In (VStr s) (isbns bs) ->
     exists r w',
       remove_book self (VStr s) w = (r, w') /\
       file_of (heap w') self = Some fn /\
       catalog (heap w') self = Some (remove_first (VStr s) bs) /\
       S (length (remove_first (VStr s) bs)) = length bs /\
       (~ fn ∈ unwritable w ->
          r = Ok true /\
          files w' =
            <[fn := Document (to_json (remove_first (VStr s) bs))]> (files w)) /\
       (~ In (VStr s) (isbns (remove_first (VStr s) bs)) ->
          find_book self (VStr s) w' = (Ok None, w'))) /\
  (~ In (VStr s) (isbns bs) -> remove_book self (VStr s) w = (Ok false, w)).
Proof.
  intros Hfile Hcat. split.
  - intros HIn.
    destruct (remove_book_present _ _ _ _ _ Hfile Hcat HIn)
      as (r & w' & Hrun & Hfile' & Hcat' & Hlen & Hrw & _ & Hfind).
    exists r, w'. auto 10.
  - intros Hfresh. eapply remove_book_absent; eassumption.
Qed.


(** ** [load_books] *)

Lemma set_heap_id w : set_heap w (heap w) = w.
Proof. destruct w. reflexivity. Qed.

Lemma book_from_run w row :
  book_from row w =
    match row_result row with
    | inl b => (Ok (length (heap w)), set_heap w (heap w ++ [OBook b]))
    | inr e => (Raise e, w)
    end.
Proof.
  destruct row as [| | | | |d]; try reflexivity.
  unfold book_from, row_result, py_subscript.
  destruct (assoc_get "title" d) as [t|]; [|reflexivity].
  destruct (assoc_get "author" d) as [a|]; [|reflexivity].
  destruct (assoc_get "isbn" d) as [i|]; reflexivity.
Qed.

Lemma load_rows_run rows : forall w,
  comprehension book_from rows w =
    (match snd (load_rows rows) with
     | None => Ok (seq (length (heap w)) (length (fst (load_rows rows))))
     | Some e => Raise e
     end,
     set_heap w (heap w ++ map OBook (fst (load_rows rows)))).
Proof.
  induction rows as [|row rows IH]; intros w; simpl.
  - rewrite app_nil_r, set_heap_id. reflexivity.
  - unfold bind at 1. rewrite book_from_run.
    destruct (row_result row) as [b|e]; simpl.
    + unfold bind at 1. rewrite IH. simpl. rewrite length_app. simpl.
      rewrite <- app_assoc. simpl. rewrite Nat.add_1_r.
      destruct (snd (load_rows rows)); reflexivity.
    + rewrite app_nil_r, set_heap_id. reflexivity.
Qed.

Lemma books_at_seq bs : forall h h',
  mapM (book_at (h ++ map OBook bs ++ h')) (seq (length h) (length bs)) = Some bs.
Proof.
  induction bs as [|b bs IH]; intros h h'; [reflexivity|].
  apply mapM_Some. simpl. constructor.
  - apply book_at_Some. rewrite lookup_app_r by lia. rewrite Nat.sub_diag. reflexivity.
  - apply mapM_Some. specialize (IH (h ++ [OBook b]) h').
    rewrite length_app in IH. simpl in IH. rewrite Nat.add_1_r in IH.
    rewrite <- app_assoc in IH. exact IH.
Qed.

(** Rebinding [self.books] changes no [Book] and no list object. *)
Section store_library.
Context (h : list obj) (self : loc) (fn fn' : string) (bl bl' : loc).
Hypothesis Hself : library_at h self = Some (fn, bl).

Lemma store_library_book_at l :
  book_at (<[self := OLibrary fn' bl']> h) l = book_at h l.
Proof using Hself.
  apply library_at_Some in Hself. unfold book_at.
  destruct (decide (l = self)) as [->|Hne].
  - rewrite list_lookup_insert_eq by (eapply lookup_lt_Some; exact Hself).
    rewrite Hself. reflexivity.
  - rewrite list_lookup_insert_ne by congruence. reflexivity.
Qed.

Lemma store_library_items_at l :
  items_at (<[self := OLibrary fn' bl']> h) l = items_at h l.
Proof using Hself.
  apply library_at_Some in Hself. unfold items_at.
  destruct (decide (l = self)) as [->|Hne].
  - rewrite list_lookup_insert_eq by (eapply lookup_lt_Some; exact Hself).
    rewrite Hself. reflexivity.
  - rewrite list_lookup_insert_ne by congruence. reflexivity.
Qed.

Lemma store_library_library_at :
  library_at (<[self := OLibrary fn' bl']> h) self = Some (fn', bl').
Proof using Hself.
  apply library_at_Some in Hself. apply library_at_Some.
  apply list_lookup_insert_eq. eapply lookup_lt_Some. exact Hself.
Qed.

Lemma store_library_records l :
  records (<[self := OLibrary fn' bl']> h) l = records h l.
Proof using Hself.
  unfold records. rewrite store_library_items_at.
  destruct (items_at h l); [|reflexivity].
  apply mapM_ext. apply store_library_book_at.
Qed.
End store_library.

Lemma set_self_books_run w self fn bl l :
  library_at (heap w) self = Some (fn, bl) ->
  set_self_books self l w =
    (Ok tt, set_heap w (<[self := OLibrary fn l]> (heap w))).
Proof.
  intros Hself. unfold set_self_books.
  rewrite (bind_ok _ _ _ _ _ (self_filename_run _ _ _ _ Hself)). reflexivity.
Qed.

(** The heap after [self.books] has been bound to a new list of new
    records [bs]. *)
Lemma rebound_state h self fn bl bs :
  library_at h self = Some (fn, bl) ->
  let h' := <[self := OLibrary fn (length h + length bs)%nat]>
              (h ++ map OBook bs ++ [OList (seq (length h) (length bs))]) in
  file_of h' self = Some fn /\ catalog h' self = Some bs.
Proof.
  intros Hself h'.
  assert (library_at (h ++ map OBook bs ++ [OList (seq (length h) (length bs))]) self
          = Some (fn, bl)) as Hself1.
  { apply library_at_extend. exact Hself. }
  apply catalog_Some. exists (length h + length bs)%nat. split.
  - unfold h'. eapply store_library_library_at. exact Hself1.
  - unfold h'. rewrite (store_library_records _ _ _ _ _ _ Hself1).
    apply records_Some. exists (seq (length h) (length bs)). split.
    + apply items_at_Some. rewrite app_assoc. rewrite lookup_app_r.
      * rewrite length_app, length_map. rewrite Nat.sub_diag. reflexivity.
      * rewrite length_app, length_map. lia.
    + apply books_at_seq.
Qed.

Lemma reset_books_run w self fn bl :
  library_at (heap w) self = Some (fn, bl) ->
  exists w',
    reset_books self w = (Ok tt, w') /\
    files w' = files w /\ unwritable w' = unwritable w /\ remote w' = remote w /\
    file_of (heap w') self = Some fn /\ catalog (heap w') self = Some [].
Proof.
  intros Hself. unfold reset_books. rewrite (bind_ok _ _ _ _ _ (alloc_run _ _)).
  erewrite set_self_books_run; cycle 1.
  { simpl. apply library_at_extend. exact Hself. }
  eexists. split; [reflexivity|]. simpl. repeat split.
  - pose proof (rebound_state _ _ _ _ [] Hself) as [H _]. simpl in H.
    rewrite Nat.add_0_r in H. exact H.
  - pose proof (rebound_state _ _ _ _ [] Hself) as [_ H]. simpl in H.
    rewrite Nat.add_0_r in H. exact H.
Qed.

Lemma load_books_run w self fn bl :
  library_at (heap w) self = Some (fn, bl) ->
  exists w',
    load_books self w =
      (match load_result (files w !! fn) with
       | Ok _ => Ok tt
       | Raise e => Raise e
       end, w') /\
    files w' = files w /\ unwritable w' = unwritable w /\ remote w' = remote w /\
    (forall bs, load_result (files w !! fn) = Ok bs ->
       file_of (heap w') self = Some fn /\ catalog (heap w') self = Some bs).
Proof.
  intros Hself. unfold load_books.
  rewrite (bind_ok _ _ _ _ _ (self_filename_run _ _ _ _ Hself)).
  unfold bind at 1, path_exists.
  destruct (files w !! fn) as [c|] eqn:Hfile; simpl.
  2:{ destruct (reset_books_run _ _ _ _ Hself) as (w' & -> & ? & ? & ? & ? & ?).
      exists w'. split; [reflexivity|]. do 3 (split; [assumption|]).
      intros bs E. inversion E; subst. split; assumption. }
  unfold try_except, bind, open_read, json_load, py_iter, ret, raise.
  rewrite Hfile.
  destruct c as [| |data].
  { exists w. split; [reflexivity|]. do 3 (split; [reflexivity|]). discriminate. }
  { destruct (reset_books_run _ _ _ _ Hself) as (w' & -> & ? & ? & ? & ? & ?).
    exists w'. split; [reflexivity|]. do 3 (split; [assumption|]).
    intros bs E. inversion E; subst. split; assumption. }
  destruct (iter_items data) as [rows|].
  2:{ exists w. split; [reflexivity|]. do 3 (split; [reflexivity|]). discriminate. }
  rewrite load_rows_run.
  destruct (load_rows rows) as [bs [e|]] eqn:Hrows; simpl.
  - assert (library_at (heap (set_heap w (heap w ++ map OBook bs))) self = Some (fn, bl))
      as Hself1 by (simpl; apply library_at_extend; exact Hself).
    destruct (reset_books_run _ _ _ _ Hself1) as (w' & Hreset & ? & ? & ? & ? & ?).
    destruct e;
      try (exists (set_heap w (heap w ++ map OBook bs));
           split; [reflexivity|]; do 3 (split; [reflexivity|]); discriminate).
    all: rewrite Hreset; exists w'; split; [reflexivity|];
      do 3 (split; [assumption|]);
      intros bs' E; inversion E; subst; split; assumption.
  - erewrite set_self_books_run; cycle 1.
    { simpl. rewrite <- app_assoc. apply library_at_extend. exact Hself. }
    eexists. split; [reflexivity|]. simpl. do 3 (split; [reflexivity|]).
    intros bs' E. inversion E; subst bs'.
    pose proof (rebound_state _ _ _ _ bs Hself) as [H1 H2]; simpl in H1, H2.
    rewrite length_app, length_map, <- app_assoc.
    split; assumption.
Qed.

Lemma Library_init_run w fn :
  exists w',
    Library_init fn w =
      (match load_result (files w !! fn) with
       | Ok _ => Ok (S (length (heap w)))
       | Raise e => Raise e
       end, w') /\
    files w' = files w /\ unwritable w' = unwritable w /\ remote w' = remote w /\
    (forall bs, load_result (files w !! fn) = Ok bs ->
       file_of (heap w') (S (length (heap w))) = Some fn /\
       catalog (heap w') (S (length (heap w))) = Some bs).
Proof.
  unfold Library_init.
  rewrite (bind_ok _ _ _ _ _ (alloc_run _ _)).
  rewrite (bind_ok _ _ _ _ _ (alloc_run _ _)). simpl.
  rewrite length_app. simpl. rewrite Nat.add_1_r.
  set (w1 := set_heap _ _).
  assert (library_at (heap w1) (S (length (heap w))) = Some (fn, length (heap w)))
    as Hself.
  { apply library_at_Some. unfold w1. simpl.
    replace (S (length (heap w))) with (length (heap w ++ [OList []])).
    - apply lookup_new.
    - rewrite length_app. simpl. lia. }
  destruct (load_books_run _ _ _ _ Hself) as (w' & Hrun & Hf & Hu & Hr & Hcat).
  exists w'. unfold bind. rewrite Hrun. change (files w1) with (files w).
  split; [destruct (load_result (files w !! fn)); reflexivity|].
  repeat (split; [assumption|]). exact Hcat.
Qed.

Lemma load_rows_lacks rows :
  Forall is_object rows -> Exists lacks_field rows ->
  exists bs k, load_rows rows = (bs, Some (KeyError k)).
Proof.
  induction rows as [|row rows IH]; intros Hobj Hex.
  - inversion Hex.
  - inversion Hobj as [|? ? Hrow Hrows]; subst.
    destruct row as [| | | | |d]; try contradiction. simpl.
    destruct (assoc_get "title" d) as [t|] eqn:Ht; [|eauto].
    destruct (assoc_get "author" d) as [a|] eqn:Ha; [|eauto].
    destruct (assoc_get "isbn" d) as [i|] eqn:Hi; [|eauto].
    inversion Hex as [? ? Hl|? ? Hl]; subst.
    + simpl in Hl. rewrite Ht, Ha, Hi in Hl. destruct Hl as [|[|]]; discriminate.
    + destruct (IH Hrows Hl) as (bs & k & ->). simpl. eauto.
Qed.

Lemma load_rows_complete rows bs :
  Forall2 row_of rows bs -> load_rows rows = (bs, None).
Proof.
  induction 1 as [|row b rows bs (d & -> & Ht & Ha & Hi) F IH]; simpl.
  - reflexivity.
  - rewrite Ht, Ha, Hi, IH. simpl. destruct b. reflexivity.
Qed.

Lemma row_of_to_dict b : row_of (VDict (to_dict b)) b.
Proof. exists (to_dict b). repeat split. Qed.

Lemma load_result_unloadable c : unloadable c -> load_result (Some c) = Ok [].
Proof.
  intros [->|(rows & -> & Hobj & Hex)]; [reflexivity|]. simpl.
  destruct (load_rows_lacks _ Hobj Hex) as (bs & k & ->). reflexivity.
Qed.


Lemma rows_of_to_json bs :
  Forall2 row_of (map (fun b => VDict (to_dict b)) bs) bs.
Proof.
  induction bs as [|b bs IH]; simpl; constructor.
  - apply row_of_to_dict.
  - exact IH.
Qed.

Lemma load_result_to_json bs : load_result (Some (Document (to_json bs))) = Ok bs.
Proof.
  unfold to_json. simpl. rewrite (load_rows_complete _ _ (rows_of_to_json bs)).
  reflexivity.
Qed.

(** Every sequence of records is the sequence of some catalogue, on any
    file. *)
Lemma every_sequence_is_a_catalog bs fn net :
  exists w self,
    file_of (heap w) self = Some fn /\ catalog (heap w) self = Some bs /\
    ~ fn ∈ unwritable w /\ remote w = net.
Proof.
  exists (mkWorld ([OList (seq 2 (length bs)); OLibrary fn 0%nat] ++ map OBook bs)
            ∅ ∅ net), 1%nat.
  split; [reflexivity|]. split; [|split; [apply not_elem_of_empty|reflexivity]].
  unfold catalog. simpl. unfold records. simpl.
  pose proof (books_at_seq bs [OList (seq 2 (length bs)); OLibrary fn 0%nat] [])
    as H.
  rewrite app_nil_r in H. exact H.
Qed.


(** ** [add_book_by_isbn] *)

Lemma add_book_by_isbn_unfold self isbn w :
  add_book_by_isbn self isbn w =
    (let* existing_book := find_book self isbn in
     match existing_book with
     | Some _ => raise (ValueError (AlreadyExists isbn))
     | None =>
         try_except
           (let* fields := lookup_fields isbn in
            let* book := Book_init (fst fields) (snd fields) isbn in
            let* _ := add_book self book in
            ret book)
           (lookup_handler isbn)
     end) w.
Proof.
  unfold add_book_by_isbn, lookup_fields, try_except, bind.
  repeat first [ reflexivity | break_inner ].
Qed.

(** ** Computations that only read *)

Lemma read_only_ret {A} (a : A) : read_only (ret a).
Proof. intros w. reflexivity. Qed.

Lemma read_only_raise {A} e : read_only (@raise A e).
Proof. intros w. reflexivity. Qed.

Lemma read_only_bind {A B} (m : M A) (k : A -> M B) :
  read_only m -> (forall a, read_only (k a)) -> read_only (bind m k).
Proof.
  intros Hm Hk w. unfold bind. specialize (Hm w).
  destruct (m w) as [[a|e] w1]; simpl in Hm; subst w1; [apply Hk|reflexivity].
Qed.

Lemma read_only_try {A} (m : M A) h :
  read_only m -> (forall e, read_only (h e)) -> read_only (try_except m h).
Proof.
  intros Hm Hh w. unfold try_except. specialize (Hm w).
  destruct (m w) as [[a|e] w1]; simpl in Hm; subst w1; [reflexivity|apply Hh].
Qed.

Lemma read_only_deref l : read_only (deref l).
Proof. intros w. unfold deref. destruct (heap w !! l); reflexivity. Qed.

Lemma read_only_client_get u : read_only (client_get u).
Proof. intros w. unfold client_get. destruct (remote w u); reflexivity. Qed.

Lemma read_only_raise_for_status r : read_only (raise_for_status r).
Proof. intros w. unfold raise_for_status. destruct (_ && _); reflexivity. Qed.

Lemma read_only_response_json r : read_only (response_json r).
Proof. intros w. unfold response_json. destruct (snd r); reflexivity. Qed.

Lemma read_only_py_get v k d : read_only (py_get v k d).
Proof.
  intros w. destruct v as [| | | | |x]; try reflexivity.
  simpl. destruct (assoc_get k x); reflexivity.
Qed.

Lemma read_only_py_subscript v k : read_only (py_subscript v k).
Proof.
  intros w. destruct v as [| | | | |x]; try reflexivity.
  simpl. destruct (assoc_get k x); reflexivity.
Qed.

Lemma read_only_py_iter v : read_only (py_iter v).
Proof. intros w. unfold py_iter. destruct (iter_items v); reflexivity. Qed.

Lemma read_only_py_join sep l : read_only (py_join sep l).
Proof. intros w. unfold py_join. destruct (strings_of l); reflexivity. Qed.

Lemma read_only_comprehension {A B} (f : A -> M B) l :
  (forall x, read_only (f x)) -> read_only (comprehension f l).
Proof.
  intros Hf. induction l as [|x l IH]; simpl.
  - apply read_only_ret.
  - apply read_only_bind; [apply Hf|]. intros y.
    apply read_only_bind; [exact IH|]. intros ys. apply read_only_ret.
Qed.

Create HintDb reads.
#[local] Hint Resolve read_only_ret read_only_raise read_only_deref
  read_only_client_get read_only_raise_for_status read_only_response_json
  read_only_py_get read_only_py_subscript read_only_py_iter read_only_py_join
  : reads.

(** Decompose a computation along its binds and case analyses. *)
Ltac reads :=
  repeat first
    [ progress intros
    | apply read_only_bind
    | apply read_only_try
    | apply read_only_comprehension
    | solve [auto with reads]
    | match goal with
      | |- read_only (match ?x with _ => _ end) => destruct x
      end ].

Lemma read_only_book_of l : read_only (book_of l).
Proof. unfold book_of. reads. Qed.

Lemma read_only_attr_isbn l : read_only (attr_isbn l).
Proof. unfold attr_isbn. reads. Qed.

Lemma read_only_self_filename self : read_only (self_filename self).
Proof. unfold self_filename. reads. Qed.

Lemma read_only_self_books self : read_only (self_books self).
Proof. unfold self_books. reads. Qed.

Lemma read_only_list_items l : read_only (list_items l).
Proof. unfold list_items. reads. Qed.

#[local] Hint Resolve read_only_book_of read_only_attr_isbn
  read_only_self_filename read_only_self_books read_only_list_items : reads.

Lemma read_only_find_loop items isbn : read_only (find_loop items isbn).
Proof. induction items as [|l items IH]; simpl; reads. Qed.

Lemma read_only_find_book self isbn : read_only (find_book self isbn).
Proof. unfold find_book. reads; apply read_only_find_loop. Qed.

Lemma read_only_fetch_authors refs : forall authors,
  read_only (fetch_authors refs authors).
Proof.
  induction refs as [|r refs IH]; intros authors; simpl; reads; apply IH.
Qed.

Lemma read_only_lookup_fields isbn : read_only (lookup_fields isbn).
Proof. unfold lookup_fields. reads; apply read_only_fetch_authors. Qed.

Lemma read_only_lookup_handler {A} isbn e : read_only (@lookup_handler A isbn e).
Proof. unfold lookup_handler. reads. Qed.

(** ** What the lookup resolves *)

Lemma strings_of_Some l ss : strings_of l = Some ss -> l = map VStr ss.
Proof.
  revert ss. induction l as [|v l IH]; intros ss; simpl.
  - intros E. inversion E. reflexivity.
  - destruct v; try discriminate. destruct (strings_of l) as [ss'|]; [|discriminate].
    intros E. inversion E; subst. simpl. rewrite (IH ss' eq_refl). reflexivity.
Qed.

Lemma strings_of_map ss : strings_of (map VStr ss) = Some ss.
Proof. induction ss as [|s ss IH]; simpl; [|rewrite IH]; reflexivity. Qed.

Lemma fetch_authors_ok refs : forall authors w names w',
  fetch_authors refs authors w = (Ok names, w') ->
  names = authors ++ collected_names (remote w) refs.
Proof.
  induction refs as [|r refs IH]; intros authors w names w'.
  - simpl. intros E. inversion E. rewrite app_nil_r. reflexivity.
  - destruct r as [| | | | |d]; try apply IH.
    cbn [fetch_authors collected_names author_name].
    destruct (assoc_get "key" d) as [key|]; [|apply IH].
    unfold bind at 1, client_get.
    destruct (remote w (AuthorUrl key)) as [| | |st body]; try discriminate.
    cbn [fst snd]. destruct (st =? 200)%Z; [|destruct body as [[]|]; apply IH].
    unfold bind at 1, response_json. cbn [fst snd].
    destruct body as [author_data|]; [|discriminate].
    unfold ret at 1. unfold bind at 1.
    destruct author_data as [| | | | |ad]; try discriminate.
    unfold py_get. intros E. destruct (assoc_get "name" ad) as [name|].
    all: unfold ret at 1 in E; apply IH in E; rewrite <- app_assoc in E; exact E.
Qed.

Lemma client_get_ok u w r w' :
  client_get u w = (Ok r, w') -> w' = w /\ remote w u = Response (fst r) (snd r).
Proof.
  unfold client_get. destruct (remote w u); try discriminate.
  intros E. inversion E. auto.
Qed.

Lemma response_json_ok r w v w' :
  response_json r w = (Ok v, w') -> w' = w /\ snd r = Some v.
Proof.
  unfold response_json. destruct (snd r); [|discriminate].
  intros E. inversion E. auto.
Qed.

Lemma py_get_ok v k d w x w' :
  py_get v k d w = (Ok x, w') ->
  w' = w /\ exists dict, v = VDict dict /\
                         x = match assoc_get k dict with Some y => y | None => d end.
Proof.
  destruct v as [| | | | |dict]; try discriminate. simpl.
  destruct (assoc_get k dict) eqn:Hk; intros E; inversion E; subst;
    (split; [reflexivity|]); exists dict; rewrite Hk; auto.
Qed.

Lemma py_subscript_ok v k w x w' :
  py_subscript v k w = (Ok x, w') ->
  w' = w /\ exists dict, v = VDict dict /\ assoc_get k dict = Some x.
Proof.
  destruct v as [| | | | |dict]; try discriminate. simpl.
  destruct (assoc_get k dict) eqn:Hk; [|discriminate]. intros E; inversion E; subst; eauto.
Qed.

Lemma py_iter_ok v w l w' :
  py_iter v w = (Ok l, w') -> w' = w /\ iter_items v = Some l.
Proof.
  unfold py_iter. destruct (iter_items v); [|discriminate].
  intros E. inversion E. auto.
Qed.

Lemma py_join_ok sep l w x w' :
  py_join sep l w = (Ok x, w') ->
  w' = w /\ exists ss, l = map VStr ss /\ x = VStr (String.concat sep ss).
Proof.
  unfold py_join. destruct (strings_of l) as [ss|] eqn:Hss; [|discriminate].
  intros E. inversion E. apply strings_of_Some in Hss. eauto.
Qed.

Lemma join_resolved authors ss :
  match authors with [] => [VStr "Unknown Author"] | _ => authors end = map VStr ss ->
  exists names, authors = map VStr names /\
                String.concat ", " ss = resolved_author names.
Proof.
  destruct authors as [|x authors].
  - intros E. exists []. split; [reflexivity|].
    destruct ss as [|s [|s' ss]]; inversion E. reflexivity.
  - intros E. exists ss. split; [exact E|]. destruct ss; [discriminate|reflexivity].
Qed.

Lemma lookup_fields_ok isbn w t a w' :
  lookup_fields isbn w = (Ok (t, a), w') ->
  exists st d names,
    remote w (IsbnUrl isbn) = Response st (Some (VDict d)) /\
    collected_names (remote w) (author_refs d) = map VStr names /\
    t = resolved_title d /\ a = VStr (resolved_author names).
Proof.
  unfold lookup_fields, bind.
  destruct (client_get (IsbnUrl isbn) w) as [[response|e] w1] eqn:H1; [|discriminate].
  apply client_get_ok in H1 as [-> Hnet].
  destruct (fst response =? 404)%Z; [discriminate|].
  destruct (raise_for_status response w) as [[[]|e] w2] eqn:H2; [|discriminate].
  pose proof (read_only_raise_for_status response w) as Hw2.
  rewrite H2 in Hw2. simpl in Hw2. subst w2.
  destruct (response_json response w) as [[book_data|e] w3] eqn:H3; [|discriminate].
  apply response_json_ok in H3 as [-> Hbody].
  destruct (py_get book_data "title" _ w) as [[title0|e] w4] eqn:H4; [|discriminate].
  apply py_get_ok in H4 as [-> (d & -> & ->)].
  rewrite Hbody in Hnet. unfold has_key.
  destruct (assoc_get "authors" d) as [refs0|] eqn:Hauthors.
  - destruct (py_subscript (VDict d) "authors" w) as [[refs0'|e] w5] eqn:H6;
      [|discriminate].
    apply py_subscript_ok in H6 as [-> (d' & Hd' & Hrefs0)].
    inversion Hd'; subst d'. rewrite Hauthors in Hrefs0. inversion Hrefs0; subst refs0'.
    destruct (py_iter refs0 w) as [[refs|e] w6] eqn:H7; [|discriminate].
    apply py_iter_ok in H7 as [-> Hiter].
    destruct (fetch_authors refs [] w) as [[authors|e] w7] eqn:H8; [|discriminate].
    pose proof (read_only_fetch_authors refs [] w) as Hw7.
    rewrite H8 in Hw7. simpl in Hw7. subst w7.
    apply fetch_authors_ok in H8. simpl in H8. subst authors.
    destruct (py_join ", " _ w) as [[author0|e] w8] eqn:H9; [|discriminate].
    apply py_join_ok in H9 as [-> (ss & Hss & ->)].
    apply join_resolved in Hss as (names & Hn & ->).
    intros E. inversion E; subst. exists (fst response), d, names.
    unfold author_refs. rewrite Hauthors, Hiter. auto.
  - unfold ret at 1.
    destruct (py_join ", " _ w) as [[author0|e] w8] eqn:H9; [|discriminate].
    apply py_join_ok in H9 as [-> (ss & Hss & ->)].
    apply (join_resolved []) in Hss as (names & Hn & ->).
    intros E. inversion E; subst. exists (fst response), d, names.
    unfold author_refs. rewrite Hauthors. auto.
Qed.

(** ** Computations that leave the records alone *)

Lemma keeps_books_read_only {A} (m : M A) : read_only m -> keeps_books m.
Proof. intros Hm w l b Hb. rewrite Hm. exact Hb. Qed.

Lemma keeps_books_bind {A B} (m : M A) (k : A -> M B) :
  keeps_books m -> (forall a, keeps_books (k a)) -> keeps_books (bind m k).
Proof.
  intros Hm Hk w l b Hb. unfold bind. specialize (Hm w l b Hb).
  destruct (m w) as [[a|e] w1]; simpl in Hm; [apply Hk|]; exact Hm.
Qed.

Lemma keeps_books_try {A} (m : M A) h :
  keeps_books m -> (forall e, keeps_books (h e)) -> keeps_books (try_except m h).
Proof.
  intros Hm Hh w l b Hb. unfold try_except. specialize (Hm w l b Hb).
  destruct (m w) as [[a|e] w1]; simpl in Hm; [|apply Hh]; exact Hm.
Qed.

Lemma keeps_books_open_write p : keeps_books (open_write p).
Proof.
  intros w l b Hb. unfold open_write. destruct (decide _); exact Hb.
Qed.

Lemma keeps_books_json_dump v p : keeps_books (json_dump v p).
Proof. intros w l b Hb. exact Hb. Qed.

Lemma keeps_books_list_append bl x : keeps_books (list_append bl x).
Proof.
  intros w l b Hb. unfold list_append, bind.
  destruct (list_items bl w) as [[items|e] w1] eqn:Hitems.
  - pose proof (read_only_list_items bl w) as Hw. rewrite Hitems in Hw.
    simpl in Hw. subst w1. simpl.
    assert (items_at (heap w) bl = Some items) as Hbl.
    { unfold list_items, bind, deref in Hitems. unfold items_at.
      destruct (heap w !! bl) as [[| |]|]; inversion Hitems; reflexivity. }
    rewrite (store_list_book_at _ _ _ _ Hbl). exact Hb.
  - pose proof (read_only_list_items bl w) as Hw. rewrite Hitems in Hw.
    simpl in Hw. subst w1. exact Hb.
Qed.

Lemma keeps_books_save_books self : keeps_books (save_books self).
Proof.
  unfold save_books.
  apply keeps_books_bind; [apply keeps_books_read_only; auto with reads|].
  intros fn. apply keeps_books_try.
  - apply keeps_books_bind; [apply keeps_books_open_write|]. intros _.
    apply keeps_books_bind; [apply keeps_books_read_only; auto with reads|].
    intros bl.
    apply keeps_books_bind; [apply keeps_books_read_only; auto with reads|].
    intros items.
    apply keeps_books_bind; [|intros dicts; apply keeps_books_json_dump].
    apply keeps_books_read_only. reads.
  - intros e. apply keeps_books_read_only. reads.
Qed.

Lemma keeps_books_add_book self book : keeps_books (add_book self book).
Proof.
  unfold add_book.
  apply keeps_books_bind; [apply keeps_books_read_only; auto with reads|].
  intros isbn.
  apply keeps_books_bind; [apply keeps_books_read_only, read_only_find_book|].
  intros [l|]; [apply keeps_books_read_only; auto with reads|].
  apply keeps_books_bind; [apply keeps_books_read_only; auto with reads|].
  intros bl.
  apply keeps_books_bind; [apply keeps_books_list_append|]. intros _.
  apply keeps_books_save_books.
Qed.

Lemma lookup_handler_raises {A} isbn e w :
  exists e', @lookup_handler A isbn e w = (Raise e', w).
Proof.
  destruct e; simpl; eauto. destruct (status_code =? 404)%Z; eauto.
Qed.



Lemma find_book_absent w self bs s :
  catalog (heap w) self = Some bs -> ~ In (VStr s) (isbns bs) ->
  find_book self (VStr s) w = (Ok None, w).
Proof.
  intros Hcat Hfresh. apply catalog_inv in Hcat as (fn & bl & items & Hself & Hbl & Hbs).
  rewrite (find_book_run _ _ _ _ _ _ _ Hself Hbl Hbs).
  apply position_None in Hfresh. rewrite Hfresh. reflexivity.
Qed.

(** C7: when the book request is answered with status 404, the lookup
    raises the not-found error that carries the requested ISBN and the
    world, catalogue and files alike, is as it was. *)
Theorem lookup_not_found w self bs s body :
  catalog (heap w) self = Some bs ->
  ~ In (VStr s) (isbns bs) ->
  remote w (IsbnUrl (VStr s)) = Response 404 body ->
  add_book_by_isbn self (VStr s) w = (Raise (ValueError (NotFound (VStr s))), w).
Proof.
  intros Hcat Hfresh Hnet. unfold add_book_by_isbn.
  rewrite (bind_ok _ _ _ _ _ (find_book_absent _ _ _ _ Hcat Hfresh)).
  erewrite try_raise; cycle 1.
  { erewrite bind_ok; [|unfold client_get; rewrite Hnet; reflexivity].
    reflexivity. }
  reflexivity.
Qed.

(** ** Author requests *)

Lemma fetch_authors_skip w d key st body rest authors :
  assoc_get "key" d = Some key ->
  remote w (AuthorUrl key) = Response st body -> st <> 200%Z ->
  fetch_authors (VDict d :: rest) authors w = fetch_authors rest authors w.
Proof.
  intros Hkey Hnet Hst. simpl. rewrite Hkey.
  erewrite bind_ok; [|unfold client_get; rewrite Hnet; reflexivity].
  simpl. apply Z.eqb_neq in Hst. rewrite Hst. reflexivity.
Qed.

Lemma author_name_skip net d key st body :
  assoc_get "key" d = Some key ->
  net (AuthorUrl key) = Response st body -> st <> 200%Z ->
  author_name net (VDict d) = None.
Proof.
  intros Hkey Hnet Hst. simpl. rewrite Hkey, Hnet.
  apply Z.eqb_neq in Hst. rewrite Hst. destruct body as [[]|]; reflexivity.
Qed.

Lemma fetch_authors_step w r rest authors :
  answered (remote w) r ->
  fetch_authors (r :: rest) authors w =
    fetch_authors rest
      (authors ++ match author_name (remote w) r with
                  | Some name => [name]
                  | None => []
                  end) w.
Proof.
  intros Hr.
  destruct r as [| | | | |d]; simpl; try (rewrite app_nil_r; reflexivity).
  simpl in Hr. destruct (assoc_get "key" d) as [key|];
    [|rewrite app_nil_r; reflexivity].
  unfold bind at 1, client_get.
  destruct (remote w (AuthorUrl key)) as [| | |st body]; try contradiction.
  simpl. destruct (st =? 200)%Z eqn:Hst.
  - apply Z.eqb_eq in Hst. destruct (Hr Hst) as (ad & ->).
    unfold bind, response_json. simpl.
    destruct (assoc_get "name" ad); reflexivity.
  - destruct body as [[]|]; rewrite app_nil_r; reflexivity.
Qed.

Lemma fetch_authors_app w pre : forall rest authors,
  Forall (answered (remote w)) pre ->
  fetch_authors (pre ++ rest) authors w =
    fetch_authors rest (authors ++ collected_names (remote w) pre) w.
Proof.
  induction pre as [|r pre IH]; intros rest authors Hpre.
  - simpl. rewrite app_nil_r. reflexivity.
  - inversion Hpre as [|? ? Hr Hpre']; subst.
    rewrite <- app_comm_cons, (fetch_authors_step _ _ _ _ Hr), (IH _ _ Hpre').
    simpl. rewrite <- app_assoc.
    destruct (author_name (remote w) r); reflexivity.
Qed.

(** When every follow-up request is answered, whatever the status, the
    loop over the author entries ends with the collected names. *)
Lemma fetch_authors_total w refs :
  Forall (answered (remote w)) refs ->
  fetch_authors refs [] w = (Ok (collected_names (remote w) refs), w).
Proof.
  intros Hrefs. rewrite <- (app_nil_r refs) at 1.
  rewrite (fetch_authors_app _ _ _ _ Hrefs). reflexivity.
Qed.

Lemma py_get_dict d k default w :
  py_get (VDict d) k default w =
    (Ok (match assoc_get k d with Some x => x | None => default end), w).
Proof. simpl. destruct (assoc_get k d); reflexivity. Qed.

Lemma lookup_fields_raises w isbn st d refs e :
  remote w (IsbnUrl isbn) = Response st (Some (VDict d)) ->
  (200 <= st < 300)%Z ->
  assoc_get "authors" d = Some (VList refs) ->
  fetch_authors refs [] w = (Raise e, w) ->
  lookup_fields isbn w = (Raise e, w).
Proof.
  intros Hnet Hst Hauthors Hfetch. unfold lookup_fields.
  erewrite bind_ok; [|unfold client_get; rewrite Hnet; reflexivity].
  simpl. replace (st =? 404)%Z with false by (symmetry; apply Z.eqb_neq; lia).
  erewrite bind_ok; cycle 1.
  { unfold raise_for_status. simpl.
    replace (200 <=? st)%Z with true by (symmetry; apply Z.leb_le; lia).
    replace (st <? 300)%Z with true by (symmetry; apply Z.ltb_lt; lia).
    reflexivity. }
  erewrite bind_ok; [|reflexivity].
  erewrite bind_ok; [|apply py_get_dict].
  apply bind_raise. unfold has_key. rewrite Hauthors.
  erewrite bind_ok; [|simpl; rewrite Hauthors; reflexivity].
  erewrite bind_ok; [|reflexivity]. exact Hfetch.
Qed.

Lemma add_book_by_isbn_raises w self bs s e :
  catalog (heap w) self = Some bs ->
  ~ In (VStr s) (isbns bs) ->
  lookup_fields (VStr s) w = (Raise e, w) ->
  add_book_by_isbn self (VStr s) w = lookup_handler (VStr s) e w.
Proof.
  intros Hcat Hfresh Hfields. rewrite add_book_by_isbn_unfold.
  rewrite (bind_ok _ _ _ _ _ (find_book_absent _ _ _ _ Hcat Hfresh)).
  erewrite try_raise; cycle 1.
  { apply bind_raise. exact Hfields. }
  reflexivity.
Qed.

Lemma file_of_extend h h' self fn :
  file_of h self = Some fn -> file_of (h ++ h') self = Some fn.
Proof.
  unfold file_of. destruct (library_at h self) as [[fn' bl]|] eqn:E; [|discriminate].
  rewrite (library_at_extend _ h' _ _ _ E). auto.
Qed.

Lemma catalog_extend h h' self bs :
  catalog h self = Some bs -> catalog (h ++ h') self = Some bs.
Proof.
  unfold catalog. destruct (library_at h self) as [[fn' bl]|] eqn:E; [|discriminate].
  rewrite (library_at_extend _ h' _ _ _ E). apply records_extend.
Qed.

Lemma lookup_fields_total w isbn st d refs names :
  remote w (IsbnUrl isbn) = Response st (Some (VDict d)) ->
  (200 <= st < 300)%Z ->
  assoc_get "authors" d = Some (VList refs) ->
  Forall (answered (remote w)) refs ->
  collected_names (remote w) refs = map VStr names ->
  lookup_fields isbn w = (Ok (resolved_title d, VStr (resolved_author names)), w).
Proof.
  intros Hnet Hst Hauthors Hrefs Hnames. unfold lookup_fields.
  erewrite bind_ok; [|unfold client_get; rewrite Hnet; reflexivity].
  simpl. replace (st =? 404)%Z with false by (symmetry; apply Z.eqb_neq; lia).
  erewrite bind_ok; cycle 1.
  { unfold raise_for_status. simpl.
    replace (200 <=? st)%Z with true by (symmetry; apply Z.leb_le; lia).
    replace (st <? 300)%Z with true by (symmetry; apply Z.ltb_lt; lia).
    reflexivity. }
  erewrite bind_ok; [|reflexivity].
  erewrite bind_ok; [|apply py_get_dict].
  erewrite bind_ok; cycle 1.
  { unfold has_key. rewrite Hauthors.
    erewrite bind_ok; [|simpl; rewrite Hauthors; reflexivity].
    erewrite bind_ok; [|reflexivity]. apply fetch_authors_total. exact Hrefs. }
  rewrite Hnames. unfold resolved_title, resolved_author.
  destruct names as [|n names].
  - reflexivity.
  - cbn [map]. unfold bind, py_join.
    change (VStr n :: map VStr names) with (map VStr (n :: names)).
    rewrite strings_of_map. reflexivity.
Qed.

Lemma add_book_by_isbn_resolved w self fn bs s t a :
  file_of (heap w) self = Some fn ->
  catalog (heap w) self = Some bs ->
  ~ In (VStr s) (isbns bs) ->
  lookup_fields (VStr s) w = (Ok (t, a), w) ->
  exists r w',
    add_book_by_isbn self (VStr s) w = (r, w') /\
    file_of (heap w') self = Some fn /\
    catalog (heap w') self = Some (bs ++ [mkBook t a (VStr s)]) /\
    book_at (heap w') (length (heap w)) = Some (mkBook t a (VStr s)) /\
    (~ fn ∈ unwritable w ->
       r = Ok (length (heap w)) /\
       files w' =
         <[fn := Document (to_json (bs ++ [mkBook t a (VStr s)]))]> (files w)) /\
    (fn ∈ unwritable w ->
       r = Raise (ConnectionError
                    (Unexpected (IOError (SaveFailed fn (IOError (CannotOpen fn)))))) /\
       files w' = files w).
Proof.
  intros Hfile Hcat Hfresh Hfields. rewrite add_book_by_isbn_unfold.
  rewrite (bind_ok _ _ _ _ _ (find_book_absent _ _ _ _ Hcat Hfresh)).
  set (b := mkBook t a (VStr s)).
  set (w1 := set_heap w (heap w ++ [OBook b])).
  assert (file_of (heap w1) self = Some fn) as Hfile1
    by (apply file_of_extend; exact Hfile).
  assert (catalog (heap w1) self = Some bs) as Hcat1
    by (apply catalog_extend; exact Hcat).
  assert (book_at (heap w1) (length (heap w)) = Some b) as Hb
    by apply book_at_new.
  destruct (add_book_new w1 self fn bs (length (heap w)) b s Hfile1 Hcat1 Hb eq_refl
              Hfresh) as (r & w' & Hrun & Hfile' & Hcat' & Hrw & Hro).
  pose proof (keeps_books_add_book self (length (heap w)) w1 _ _ Hb) as Hkeep.
  rewrite Hrun in Hkeep. simpl in Hkeep.
  unfold try_except.
  erewrite bind_ok; [|exact Hfields]. cbn [fst snd].
  erewrite bind_ok; [|apply alloc_run].
  change (set_heap w (heap w ++ [OBook (mkBook t a (VStr s))])) with w1.
  unfold bind. rewrite Hrun.
  destruct (decide (fn ∈ unwritable w)) as [Hu|Hu].
  - destruct (Hro Hu) as [-> Hfiles]. simpl.
    eexists _, w'. split; [reflexivity|]. repeat (split; [assumption|]).
    split; [intros; contradiction|]. intros _. split; [reflexivity|exact Hfiles].
  - destruct (Hrw Hu) as [-> Hfiles]. simpl.
    eexists _, w'. split; [reflexivity|]. repeat (split; [assumption|]).
    split; [intros _; split; [reflexivity|exact Hfiles]|]. intros; contradiction.
Qed.

(** C4, as the code has it: an author entry whose follow-up request is
    answered with a status other than 200 contributes no name and no
    placeholder, and the loop goes on as if the entry were not there; when
    every follow-up request is answered, whatever the statuses, the lookup
    resolves a record.  A follow-up request that fails at the network
    level is not absorbed: the lookup raises [ConnectionError] and the
    world is as it was. *)
Theorem author_request_failure w ad key :
  assoc_get "key" ad = Some key ->
  (forall st body rest authors,
     remote w (AuthorUrl key) = Response st body -> st <> 200%Z ->
     author_name (remote w) (VDict ad) = None /\
     fetch_authors (VDict ad :: rest) authors w = fetch_authors rest authors w) /\
  (forall self fn bs s st d pre rest,
     file_of (heap w) self = Some fn ->
     catalog (heap w) self = Some bs ->
     ~ In (VStr s) (isbns bs) ->
     remote w (IsbnUrl (VStr s)) = Response st (Some (VDict d)) ->
     (200 <= st < 300)%Z ->
     assoc_get "authors" d = Some (VList (pre ++ VDict ad :: rest)) ->
     Forall (answered (remote w)) pre ->
     (forall st' body names,
        remote w (AuthorUrl key) = Response st' body -> st' <> 200%Z ->
        Forall (answered (remote w)) rest ->
        collected_names (remote w) (pre ++ rest) = map VStr names ->
        ~ fn ∈ unwritable w ->
        exists w',
          add_book_by_isbn self (VStr s) w = (Ok (length (heap w)), w') /\
          catalog (heap w') self =
            Some (bs ++ [mkBook (resolved_title d)
                           (VStr (resolved_author names)) (VStr s)])) /\
     (remote w (AuthorUrl key) = Timeout ->
        add_book_by_isbn self (VStr s) w = (Raise (ConnectionError TimedOut), w)) /\
     (remote w (AuthorUrl key) = ConnectFailed ->
        add_book_by_isbn self (VStr s) w =
          (Raise (ConnectionError ConnectFailure), w)) /\
     (remote w (AuthorUrl key) = TransportFailed ->
        add_book_by_isbn self (VStr s) w =
          (Raise (ConnectionError (Unexpected TransportError)), w))).
Proof.
  intros Hkey. split.
  - intros st body rest authors Hnet Hst. split.
    + eapply author_name_skip; eassumption.
    + eapply fetch_authors_skip; eassumption.
  - intros self fn bs s st d pre rest Hfile Hcat Hfresh Hbook Hst Hauthors Hpre.
    assert (forall e,
              client_get (AuthorUrl key) w = (Raise e, w) ->
              add_book_by_isbn self (VStr s) w = lookup_handler (VStr s) e w)
      as Hfail.
    { intros e He.
      apply (add_book_by_isbn_raises _ _ _ _ _ Hcat Hfresh).
      apply (lookup_fields_raises _ _ _ _ _ _ Hbook Hst Hauthors).
      rewrite (fetch_authors_app _ _ _ _ Hpre). simpl. rewrite Hkey.
      apply bind_raise. exact He. }
    split; [|split; [|split]].
    + intros st' body names Hnet Hst' Hrest Hnames Hrw.
      assert (lookup_fields (VStr s) w =
                (Ok (resolved_title d, VStr (resolved_author names)), w)) as Hfields;
        [|destruct (add_book_by_isbn_resolved _ _ _ _ _ _ _ Hfile Hcat Hfresh Hfields)
            as (r & w' & Hrun & _ & Hcat' & _ & Hok & _);
          destruct (Hok Hrw) as [-> _]; eauto].
      apply (lookup_fields_total _ _ _ _ _ _ Hbook Hst Hauthors).
      * apply Forall_app. split; [exact Hpre|]. constructor; [|exact Hrest].
        simpl. rewrite Hkey, Hnet. intros; contradiction.
      * rewrite <- Hnames. clear Hnames Hauthors.
        induction pre as [|r pre IH]; simpl.
        -- rewrite Hkey, Hnet. apply Z.eqb_neq in Hst'. rewrite Hst'.
           destruct body as [[]|]; reflexivity.
        -- inversion Hpre; subst. rewrite IH by assumption. reflexivity.
    + intros Hnet. rewrite (Hfail TimeoutException); [reflexivity|].
      unfold client_get. rewrite Hnet. reflexivity.
    + intros Hnet. rewrite (Hfail ConnectError); [reflexivity|].
      unfold client_get. rewrite Hnet. reflexivity.
    + intros Hnet. rewrite (Hfail TransportError); [reflexivity|].
      unfold client_get. rewrite Hnet. reflexivity.
Qed.

(** ** [list_books] and [find_book] on a catalogue *)

Lemma list_books_run w self bs :
  catalog (heap w) self = Some bs ->
  exists items,
    list_books self w =
      (Ok (length (heap w)), set_heap w (heap w ++ [OList items])) /\
    records (heap w ++ [OList items]) (length (heap w)) = Some bs /\
    catalog (heap w ++ [OList items]) self = Some bs.
Proof.
  intros Hcat. pose proof Hcat as Hcat0.
  apply catalog_inv in Hcat as (fn & bl & items & Hself & Hbl & Hbs).
  exists items. unfold list_books, list_copy.
  rewrite (bind_ok _ _ _ _ _ (self_books_run _ _ _ _ Hself)).
  rewrite (bind_ok _ _ _ _ _ (list_items_run _ _ _ Hbl)).
  split; [reflexivity|]. split.
  - apply records_Some. exists items. split; [apply items_at_new|].
    apply books_extend. exact Hbs.
  - apply catalog_extend. exact Hcat0.
Qed.

Lemma found_first w items bs i :
  mapM (book_at (heap w)) items = Some bs ->
  found (heap w) (match position i bs with Some n => items !! n | None => None end)
  = first_with i bs.
Proof.
  intros Hbs. unfold first_with. destruct (position i bs) as [n|]; [|reflexivity].
  apply mapM_Some in Hbs. unfold found.
  destruct (items !! n) as [l|] eqn:Hl.
  - destruct (Forall2_lookup_l _ _ _ _ _ Hbs Hl) as (b & Hb & Hlb).
    rewrite Hb. exact Hlb.
  - symmetry. apply lookup_ge_None. apply lookup_ge_None in Hl.
    rewrite <- (Forall2_length _ _ _ Hbs). exact Hl.
Qed.

Lemma find_book_first w self bs i :
  catalog (heap w) self = Some bs ->
  exists r, find_book self i w = (Ok r, w) /\ found (heap w) r = first_with i bs.
Proof.
  intros Hcat. apply catalog_inv in Hcat as (fn & bl & items & Hself & Hbl & Hbs).
  eexists. split; [eapply find_book_run; eassumption|].
  apply found_first. exact Hbs.
Qed.

Lemma first_with_snoc bs b s :
  isbn b = VStr s -> ~ In (VStr s) (isbns bs) ->
  first_with (VStr s) (bs ++ [b]) = Some b.
Proof.
  intros Hb Hfresh. unfold first_with.
  assert (position (VStr s) (bs ++ [b]) = Some (length bs)) as ->.
  { apply position_None in Hfresh.
    induction bs as [|x bs IH]; simpl in *.
    - rewrite Hb. simpl. rewrite String.eqb_refl. reflexivity.
    - destruct (py_eq (isbn x) (VStr s)); [discriminate|].
      destruct (position (VStr s) bs); [discriminate|].
      rewrite IH; reflexivity. }
  rewrite lookup_app_r by lia. rewrite Nat.sub_diag. reflexivity.
Qed.

(** C10: when the file cannot be written, [add] of a new ISBN and [remove]
    of a present one raise the write error after the in-memory sequence
    has been changed, and nothing undoes the change: the catalogue holds
    the new sequence, [find] and [list] observe it, and the files are as
    they were: a file that held the old sequence does not hold the new
    one. *)
Theorem persistence_failure_not_atomic w self fn bs :
  file_of (heap w) self = Some fn ->
  catalog (heap w) self = Some bs ->
  fn ∈ unwritable w ->
  (forall book b s,
     book_at (heap w) book = Some b -> isbn b = VStr s ->
     ~ In (VStr s) (isbns bs) ->
     exists w',
       add_book self book w =
         (Raise (IOError (SaveFailed fn (IOError (CannotOpen fn)))), w') /\
       catalog (heap w') self = Some (bs ++ [b]) /\
       files w' = files w /\
       (load_result (files w !! fn) = Ok bs ->
        load_result (files w' !! fn) <> Ok (bs ++ [b])) /\
       (exists r, find_book self (VStr s) w' = (Ok r, w') /\
                  found (heap w') r = Some b) /\
       (exists l w'', list_books self w' = (Ok l, w'') /\
                      records (heap w'') l = Some (bs ++ [b]))) /\
  (forall s,
     In (VStr s) (isbns bs) ->
     exists w',
       remove_book self (VStr s) w =
         (Raise (IOError (SaveFailed fn (IOError (CannotOpen fn)))), w') /\
       catalog (heap w') self = Some (remove_first (VStr s) bs) /\
       files w' = files w /\
       (load_result (files w !! fn) = Ok bs ->
        load_result (files w' !! fn) <> Ok (remove_first (VStr s) bs)) /\
       (forall i, exists r, find_book self i w' = (Ok r, w') /\
                  found (heap w') r = first_with i (remove_first (VStr s) bs)) /\
       (exists l w'', list_books self w' = (Ok l, w'') /\
                      records (heap w'') l = Some (remove_first (VStr s) bs))).
Proof.
  intros Hfile Hcat Hro. split.
  - intros book b s Hb Hs Hfresh.
    destruct (add_book_new _ _ _ _ _ _ _ Hfile Hcat Hb Hs Hfresh)
      as (r & w' & Hrun & Hfile' & Hcat' & _ & Hfail).
    destruct (Hfail Hro) as [-> Hfiles].
    exists w'. split; [exact Hrun|]. split; [exact Hcat'|].
    split; [exact Hfiles|].
    split; [rewrite Hfiles; intros -> E; inversion E as [E'];
            apply (f_equal length) in E'; rewrite length_app in E';
            simpl in E'; lia|].
    split.
    + destruct (find_book_first _ _ _ (VStr s) Hcat') as (r & Hr & Hfound).
      exists r. split; [exact Hr|]. rewrite Hfound.
      apply first_with_snoc; assumption.
    + destruct (list_books_run _ _ _ Hcat') as (items & Hlist & Hrec & _).
      eexists _, _. split; [exact Hlist|exact Hrec].
  - intros s HIn.
    destruct (remove_book_present _ _ _ _ s Hfile Hcat HIn)
      as (r & w' & Hrun & Hfile' & Hcat' & Hlen & _ & Hfail & _).
    assert (r = Raise (IOError (SaveFailed fn (IOError (CannotOpen fn)))) /\
            files w' = files w) as [-> Hfiles] by (apply Hfail; exact Hro).
    exists w'. split; [exact Hrun|]. split; [exact Hcat'|].
    split; [exact Hfiles|].
    split; [rewrite Hfiles; intros -> E; inversion E as [E'];
            rewrite <- E' in Hlen; lia|].
    split.
    + intros i. apply find_book_first. exact Hcat'.
    + destruct (list_books_run _ _ _ Hcat') as (items & Hlist & Hrec & _).
      eexists _, _. split; [exact Hlist|exact Hrec].
Qed.

(** ** Mutating the list that [list_books] returned *)

Lemma list_assign_run w l items items' :
  items_at (heap w) l = Some items ->
  list_assign l items' w = (Ok tt, set_heap w (<[l := OList items']> (heap w))).
Proof.
  intros Hl. unfold list_assign.
  rewrite (bind_ok _ _ _ _ _ (list_items_run _ _ _ Hl)). reflexivity.
Qed.

Lemma list_mutations_state steps : forall w l items,
  items_at (heap w) l = Some items ->
  exists items',
    list_mutations l steps w =
      (Ok tt, set_heap w (<[l := OList items']> (heap w))).
Proof.
  induction steps as [|step steps IH]; intros w l items Hl; simpl.
  - exists items. unfold ret. f_equal.
    rewrite list_insert_id by (apply items_at_Some; exact Hl).
    symmetry. apply set_heap_id.
  - rewrite (bind_ok _ _ _ _ _ (list_assign_run _ _ _ step Hl)).
    destruct (IH (set_heap w (<[l := OList step]> (heap w))) l step)
      as (items' & ->).
    { simpl. eapply store_list_items_at. exact Hl. }
    exists items'. simpl. unfold set_heap. simpl.
    rewrite list_insert_insert_eq. reflexivity.
Qed.

(** C8, as the code has it: [list_books] returns a new list object with
    the items of the catalogue's own list.  Whatever is done to that list
    object afterwards, the catalogue keeps its sequence, [find_book]
    returns what it returned and [list_books] lists the same records.  The
    items of the new list are the catalogue's own references: the records
    are shared with the catalogue, not copied. *)
Theorem list_books_snapshot w self bs :
  catalog (heap w) self = Some bs ->
  exists l w1,
    list_books self w = (Ok l, w1) /\
    records (heap w1) l = Some bs /\
    items_at (heap w1) l = catalog_items (heap w1) self /\
    forall steps,
      exists w2,
        list_mutations l steps w1 = (Ok tt, w2) /\
        catalog (heap w2) self = Some bs /\
        (forall i, exists r,
           find_book self i w1 = (Ok r, w1) /\
           find_book self i w2 = (Ok r, w2) /\
           found (heap w2) r = found (heap w1) r) /\
        (exists l' w3, list_books self w2 = (Ok l', w3) /\
                       records (heap w3) l' = Some bs).
Proof.
  intros Hcat.
  destruct (list_books_run _ _ _ Hcat) as (items & Hlist & Hrec & Hcat1).
  destruct (catalog_inv _ _ _ Hcat) as (fn & bl & items0 & Hself & Hbl & Hbs).
  assert (items0 = items) as ->.
  { unfold list_books, list_copy in Hlist.
    rewrite (bind_ok _ _ _ _ _ (self_books_run _ _ _ _ Hself)) in Hlist.
    rewrite (bind_ok _ _ _ _ _ (list_items_run _ _ _ Hbl)) in Hlist.
    unfold alloc in Hlist. inversion Hlist as [E].
    apply app_inv_head in E. inversion E. reflexivity. }
  set (l := length (heap w)) in *.
  set (w1 := set_heap w (heap w ++ [OList items])) in *.
  assert (items_at (heap w1) l = Some items) as Hl by apply items_at_new.
  assert (library_at (heap w1) self = Some (fn, bl)) as Hself1
    by (apply library_at_extend; exact Hself).
  assert (items_at (heap w1) bl = Some items) as Hbl1
    by (apply items_at_extend; exact Hbl).
  assert (mapM (book_at (heap w1)) items = Some bs) as Hbs1
    by (apply books_extend; exact Hbs).
  assert (bl <> l) as Hne.
  { apply items_at_Some in Hbl. apply lookup_lt_Some in Hbl. unfold l. lia. }
  exists l, w1. split; [exact Hlist|]. split; [exact Hrec|]. split.
  { unfold catalog_items. rewrite Hl, Hself1, Hbl1. reflexivity. }
  intros steps.
  destruct (list_mutations_state steps _ _ _ Hl) as (items' & Hsteps).
  eexists. split; [exact Hsteps|]. simpl.
  assert (library_at (<[l := OList items']> (heap w1)) self = Some (fn, bl))
    as Hself2 by (rewrite (store_list_library_at _ _ _ _ Hl); exact Hself1).
  assert (items_at (<[l := OList items']> (heap w1)) bl = Some items) as Hbl2
    by (rewrite store_list_items_at_ne by exact Hne; exact Hbl1).
  assert (mapM (book_at (<[l := OList items']> (heap w1))) items = Some bs)
    as Hbs2.
  { rewrite <- Hbs1. apply mapM_ext. intros x.
    apply (store_list_book_at _ _ _ _ Hl). }
  assert (catalog (<[l := OList items']> (heap w1)) self = Some bs) as Hcat2.
  { unfold catalog. rewrite Hself2. apply records_Some. eauto. }
  split; [exact Hcat2|]. split.
  - intros i. eexists. split; [eapply find_book_run; eassumption|].
    split; [eapply find_book_run; simpl; eassumption|].
    simpl. destruct (position i bs) as [n|]; [|reflexivity].
    destruct (items !! n) as [x|]; [|reflexivity].
    apply (store_list_book_at _ _ _ _ Hl).
  - destruct (list_books_run (set_heap w1 (<[l := OList items']> (heap w1)))
                self bs Hcat2) as (its & Hlist2 & Hrec2 & _).
    eexists _, _. split; [exact Hlist2|exact Hrec2].
Qed.

(** ** Uniqueness of ISBNs *)

Lemma In_isbns_dec s bs : In (VStr s) (isbns bs) \/ ~ In (VStr s) (isbns bs).
Proof.
  destruct (position (VStr s) bs) as [n|] eqn:Hpos.
  - left. eapply position_Some_In. exact Hpos.
  - right. apply position_None. exact Hpos.
Qed.

Lemma NoDup_isbns_snoc bs b :
  List.NoDup (isbns bs) -> ~ In (isbn b) (isbns bs) -> List.NoDup (isbns (bs ++ [b])).
Proof.
  intros Hnd Hfresh. unfold isbns in *. rewrite map_app. simpl.
  apply NoDup_ListNoDup. apply NoDup_app. split; [apply NoDup_ListNoDup; exact Hnd|].
  split.
  - intros x Hx Hx'. apply list_elem_of_In in Hx.
    apply list_elem_of_singleton in Hx'. subst x. contradiction.
  - apply NoDup_singleton.
Qed.

Lemma NoDup_isbns_remove_first s bs :
  List.NoDup (isbns bs) -> List.NoDup (isbns (remove_first (VStr s) bs)).
Proof.
  intros Hnd. destruct (In_isbns_dec s bs) as [HIn|Hfresh].
  - destruct (remove_first_split _ _ HIn) as (pre & b & post & -> & _ & _ & ->).
    unfold isbns in *. rewrite map_app in *. simpl in Hnd.
    eapply List.NoDup_remove_1. exact Hnd.
  - unfold remove_first. apply position_None in Hfresh. rewrite Hfresh. exact Hnd.
Qed.

Lemma add_book_by_isbn_state w self fn bs s :
  file_of (heap w) self = Some fn ->
  catalog (heap w) self = Some bs ->
  exists bs',
    file_of (heap (snd (add_book_by_isbn self (VStr s) w))) self = Some fn /\
    catalog (heap (snd (add_book_by_isbn self (VStr s) w))) self = Some bs' /\
    (bs' = bs \/
     ~ In (VStr s) (isbns bs) /\ exists t a, bs' = bs ++ [mkBook t a (VStr s)]).
Proof.
  intros Hfile Hcat. destruct (In_isbns_dec s bs) as [HIn|Hfresh].
  - exists bs. unfold add_book_by_isbn.
    destruct (catalog_inv _ _ _ Hcat) as (fn' & bl & items & Hself & Hbl & Hbs).
    rewrite (bind_ok _ _ _ _ _ (find_book_run _ _ _ _ _ _ _ Hself Hbl Hbs)).
    destruct (position (VStr s) bs) as [n|] eqn:Hpos;
      [|apply position_None in Hpos; contradiction].
    destruct (lookup_lt_is_Some_2 items n) as [l Hl].
    { rewrite (length_mapM _ _ _ Hbs). eapply position_lt. exact Hpos. }
    rewrite Hl. simpl. auto.
  - pose proof (read_only_lookup_fields (VStr s) w) as Hw.
    destruct (lookup_fields (VStr s) w) as [[[t a]|e] w0] eqn:Hfields;
      simpl in Hw; subst w0.
    + destruct (add_book_by_isbn_resolved _ _ _ _ _ _ _ Hfile Hcat Hfresh Hfields)
        as (r & w' & -> & Hfile' & Hcat' & _).
      exists (bs ++ [mkBook t a (VStr s)]). simpl. eauto 10.
    + rewrite (add_book_by_isbn_raises _ _ _ _ _ Hcat Hfresh Hfields).
      destruct (@lookup_handler_raises loc (VStr s) e w) as (e' & ->).
      exists bs. simpl. auto.
Qed.

Lemma serve_unique self r w :
  unique_isbns w self -> unique_isbns (snd (serve self r w)) self.
Proof.
  intros (fn & bs & Hfile & Hcat & Hnd).
  destruct r as [t a i|i|i|i|]; simpl.
  - unfold bind at 1, Book_init. rewrite alloc_run.
    set (b := mkBook (VStr t) (VStr a) (VStr i)).
    set (w1 := set_heap w (heap w ++ [OBook b])).
    assert (file_of (heap w1) self = Some fn) as Hfile1
      by (apply file_of_extend; exact Hfile).
    assert (catalog (heap w1) self = Some bs) as Hcat1
      by (apply catalog_extend; exact Hcat).
    destruct (In_isbns_dec i bs) as [HIn|Hfresh].
    + rewrite (add_book_rejects w1 self fn bs (length (heap w)) b i Hfile1 Hcat1
                 (book_at_new _ _) eq_refl HIn).
      exists fn, bs. auto.
    + destruct (add_book_new w1 self fn bs (length (heap w)) b i Hfile1 Hcat1
                  (book_at_new _ _) eq_refl Hfresh)
        as (r & w' & -> & Hfile' & Hcat' & _).
      exists fn, (bs ++ [b]). simpl. repeat split; try assumption.
      apply NoDup_isbns_snoc; assumption.
  - unfold bind. destruct (In_isbns_dec i bs) as [HIn|Hfresh].
    + destruct (remove_book_present _ _ _ _ i Hfile Hcat HIn)
        as (r & w' & -> & Hfile' & Hcat' & _).
      exists fn, (remove_first (VStr i) bs).
      destruct r; simpl; repeat split; try assumption;
        apply NoDup_isbns_remove_first; exact Hnd.
    + rewrite (remove_book_absent _ _ _ _ Hcat Hfresh). exists fn, bs. auto.
  - destruct (add_book_by_isbn_state _ _ _ _ i Hfile Hcat)
      as (bs' & Hfile' & Hcat' & Hbs').
    unfold bind. destruct (add_book_by_isbn self (VStr i) w) as [[l|e] w'];
      simpl in *; exists fn, bs'; (repeat split; try assumption);
      (destruct Hbs' as [->|(Hfresh & t & a & ->)];
       [exact Hnd|apply NoDup_isbns_snoc; assumption]).
  - unfold bind. pose proof (read_only_find_book self (VStr i) w) as Hw.
    destruct (find_book self (VStr i) w) as [[r|e] w']; simpl in *; subst w';
      exists fn, bs; auto.
  - destruct (list_books_run _ _ _ Hcat) as (items & Hlist & _ & Hcat').
    unfold bind. rewrite Hlist. simpl. exists fn, bs.
    repeat split; try assumption. apply file_of_extend. exact Hfile.
Qed.

Lemma Library_init_catalog w fn self w' :
  Library_init fn w = (Ok self, w') ->
  exists bs, file_of (heap w') self = Some fn /\ catalog (heap w') self = Some bs.
Proof.
  intros Hinit. destruct (Library_init_run w fn) as (w1 & Hrun & _ & _ & _ & Hload).
  rewrite Hinit in Hrun.
  destruct (load_result (files w !! fn)) as [bs|e]; [|discriminate].
  inversion Hrun; subst. exists bs. apply Hload. reflexivity.
Qed.

(** Construction leaves pairwise distinct ISBNs in memory when the file is
    missing, is not loaded, or was persisted from a sequence of pairwise
    distinct ISBNs. *)
Lemma Library_init_unique w fn self w' :
  Library_init fn w = (Ok self, w') ->
  files w !! fn = None \/
  (exists c, files w !! fn = Some c /\ unloadable c) \/
  (exists bs, files w !! fn = Some (Document (to_json bs)) /\
              List.NoDup (isbns bs)) ->
  unique_isbns w' self.
Proof.
  intros Hinit Hfile.
  destruct (Library_init_run w fn) as (w1 & Hrun & _ & _ & _ & Hload).
  rewrite Hinit in Hrun.
  assert (exists bs, load_result (files w !! fn) = Ok bs /\ List.NoDup (isbns bs))
    as (bs & Hres & Hnd).
  { destruct Hfile as [->|[(c & -> & Hc)|(bs & -> & Hnd)]].
    - exists []. split; [reflexivity|constructor].
    - exists []. split; [apply load_result_unloadable; exact Hc|constructor].
    - exists bs. split; [apply load_result_to_json|exact Hnd]. }
  rewrite Hres in Hrun. inversion Hrun; subst.
  destruct (Hload bs Hres) as [Hf Hc]. exists fn, bs. auto.
Qed.

(** C1, as the code has it: ISBN uniqueness is kept by every sequence of
    add, remove, add-by-ISBN, find and list requests, whether they succeed
    or raise: when the sequence that construction left in memory has
    pairwise distinct ISBNs, so has the sequence of every state reached
    from it.  Construction itself does not check what it loads. *)
Theorem isbn_uniqueness_preserved w0 fn self w rs :
  Library_init fn w0 = (Ok self, w) ->
  (forall bs0, catalog (heap w) self = Some bs0 -> List.NoDup (isbns bs0)) ->
  exists bs,
    catalog (heap (serve_all self rs w)) self = Some bs /\ List.NoDup (isbns bs).
Proof.
  intros Hinit Hloaded.
  destruct (Library_init_catalog _ _ _ _ Hinit) as (bs0 & Hfile & Hcat).
  assert (unique_isbns w self) as Hinv by (exists fn, bs0; auto).
  clear Hinit Hloaded Hfile Hcat. revert w Hinv.
  induction rs as [|r rs IH]; intros w Hinv; simpl.
  - destruct Hinv as (fn' & bs & _ & Hcat & Hnd). eauto.
  - apply IH. apply serve_unique. exact Hinv.
Qed.

(** ** The claims on sample worlds *)

(** A catalogue constructed over a file with two records of one ISBN holds
    both. *)
Lemma load_keeps_duplicate_isbns :
  fst (Library_init "library.json" (on_disk twice_dune)) = Ok 1%nat /\
  catalog (heap (snd (Library_init "library.json" (on_disk twice_dune)))) 1%nat
  = Some [dune; dune_messiah] /\
  isbn dune = isbn dune_messiah /\
  ~ List.NoDup (isbns [dune; dune_messiah]).
Proof.
  split; [vm_compute; reflexivity|]. split; [vm_compute; reflexivity|].
  split; [reflexivity|]. intros H. inversion H as [|? ? Hin _]; subst.
  apply Hin. left. reflexivity.
Qed.


(** Bytes that are not text, JSON that is not iterable and rows that are
    not objects make construction raise. *)
Lemma load_raises :
  fst (Library_init "library.json" (on_disk Undecodable)) = Raise UnicodeDecodeError /\
  fst (Library_init "library.json" (on_disk (Document (VInt 5)))) = Raise TypeError /\
  fst (Library_init "library.json" (on_disk (Document (VList [VInt 5]))))
  = Raise TypeError /\
  fst (Library_init "library.json" (on_disk (Document (VDict [("title", VStr "x")]))))
  = Raise TypeError.
Proof. repeat split; vm_compute; reflexivity. Qed.

(** A timeout of the author request makes the whole lookup fail. *)
Lemma author_timeout_fails_lookup :
  add_book_by_isbn 1%nat (VStr "9780743273565") shelf_slow_author
  = (Raise (ConnectionError TimedOut), shelf_slow_author).
Proof. vm_compute. reflexivity. Qed.

(** After [remove] has returned [True], [find] still finds a record with
    the removed ISBN. *)
Lemma remove_leaves_second_record :
  fst (remove_then_find "library.json" (VStr "9780441172719") (on_disk twice_dune))
  = Ok (true, Some 3%nat) /\
  book_at
    (heap (snd (remove_then_find "library.json" (VStr "9780441172719")
                  (on_disk twice_dune)))) 3%nat
  = Some dune_messiah.
Proof. split; vm_compute; reflexivity. Qed.

(** Rebinding an attribute of a listed record changes what the catalogue
    finds. *)
Lemma listed_records_are_shared :
  fst (find_book 1%nat (VStr "9780142437247") shelf) = Ok (Some 2%nat) /\
  fst (relabel_listed 1%nat (VStr "9780142437247") (VStr "0") shelf) = Ok None /\
  catalog (heap (snd (relabel_listed 1%nat (VStr "9780142437247") (VStr "0") shelf)))
    1%nat
  <> catalog (heap shelf) 1%nat.
Proof.
  split; [vm_compute; reflexivity|]. split; [vm_compute; reflexivity|].
  vm_compute. discriminate.
Qed.

(** ** The theorems at work *)

Lemma shelf_writable : ~ "library.json" ∈ unwritable shelf.
Proof. intros H. vm_compute in H. discriminate H. Qed.

Lemma locked_shelf_unwritable : "library.json" ∈ unwritable locked_shelf.
Proof. vm_compute. reflexivity. Qed.

Lemma shelf_unique : List.NoDup (isbns [moby; dune]).
Proof.
  repeat constructor; simpl; intros H;
    repeat (destruct H as [H|H]; [discriminate H|]); exact H.
Qed.


Lemma remove_book_spec_witness :
  (file_of (heap shelf) 1%nat = Some "library.json" /\
   catalog (heap shelf) 1%nat = Some [moby; dune]) /\
  (exists w',
     remove_book 1%nat (VStr "9780142437247") shelf = (Ok true, w') /\
     catalog (heap w') 1%nat = Some [dune] /\
     files w' = <[ "library.json" := Document (to_json [dune]) ]> (files shelf) /\
     find_book 1%nat (VStr "9780142437247") w' = (Ok None, w')) /\
  remove_book 1%nat (VStr "9999999999999") shelf = (Ok false, shelf).
Proof.
  split; [split; reflexivity|].
  destruct (remove_book_spec shelf 1%nat "library.json" [moby; dune] "9780142437247")
    as [Hrem _]; try reflexivity.
  destruct (remove_book_spec shelf 1%nat "library.json" [moby; dune] "9999999999999")
    as [_ Hkeep]; try reflexivity.
  split.
  - destruct Hrem as (r & w' & Hrun & _ & Hcat & _ & Hrw & Hfind).
    { simpl. left. reflexivity. }
    destruct (Hrw shelf_writable) as [-> Hfiles].
    exists w'. split; [exact Hrun|]. split; [exact Hcat|]. split; [exact Hfiles|].
    apply Hfind. simpl. intros [H|[]]. discriminate H.
  - apply Hkeep. simpl. intros [H|[H|[]]]; discriminate H.
Defined.



Lemma lookup_not_found_witness :
  (catalog (heap shelf) 1%nat = Some [moby; dune] /\
   ~ In (VStr "9999999999999") (isbns [moby; dune]) /\
   remote shelf (IsbnUrl (VStr "9999999999999")) = Response 404 None) /\
  add_book_by_isbn 1%nat (VStr "9999999999999") shelf
  = (Raise (ValueError (NotFound (VStr "9999999999999"))), shelf).
Proof.
  assert (~ In (VStr "9999999999999") (isbns [moby; dune])) as Hfresh.
  { simpl. intros [H|[H|[]]]; discriminate H. }
  split; [repeat split; try reflexivity; exact Hfresh|].
  apply (lookup_not_found shelf 1%nat [moby; dune] "9999999999999" None);
    [reflexivity|exact Hfresh|reflexivity].
Defined.

Lemma list_books_snapshot_witness :
  catalog (heap shelf) 1%nat = Some [moby; dune] /\
  exists l w1,
    list_books 1%nat shelf = (Ok l, w1) /\
    records (heap w1) l = Some [moby; dune] /\
    exists w2,
      list_mutations l [[]; [5%nat; 4%nat]] w1 = (Ok tt, w2) /\
      records (heap w2) l = Some [gatsby; dune_messiah] /\
      catalog (heap w2) 1%nat = Some [moby; dune].
Proof.
  split; [reflexivity|].
  destruct (list_books_snapshot shelf 1%nat [moby; dune] eq_refl)
    as (l & w1 & Hlist & Hrec & _ & Hsteps).
  exists l, w1. split; [exact Hlist|]. split; [exact Hrec|].
  destruct (Hsteps [[]; [5%nat; 4%nat]]) as (w2 & Hrun & Hcat & _).
  exists w2. split; [exact Hrun|]. split; [|exact Hcat].
  vm_compute in Hlist. inversion Hlist; subst l w1.
  vm_compute in Hrun. inversion Hrun; subst w2. reflexivity.
Defined.


Lemma persistence_failure_not_atomic_witness :
  (file_of (heap locked_shelf) 1%nat = Some "library.json" /\
   catalog (heap locked_shelf) 1%nat = Some [moby; dune] /\
   "library.json" ∈ unwritable locked_shelf) /\
  (exists w',
     add_book 1%nat 5%nat locked_shelf
     = (Raise (IOError (SaveFailed "library.json"
                          (IOError (CannotOpen "library.json")))), w') /\
     catalog (heap w') 1%nat = Some [moby; dune; gatsby] /\
     files w' = files locked_shelf) /\
  (exists w',
     remove_book 1%nat (VStr "9780142437247") locked_shelf
     = (Raise (IOError (SaveFailed "library.json"
                          (IOError (CannotOpen "library.json")))), w') /\
     catalog (heap w') 1%nat = Some [dune] /\
     files w' = files locked_shelf).
Proof.
  split; [repeat split; try reflexivity; exact locked_shelf_unwritable|].
  destruct (persistence_failure_not_atomic locked_shelf 1%nat "library.json"
              [moby; dune] eq_refl eq_refl locked_shelf_unwritable)
    as [Hadd Hrem].
  split.
  - destruct (Hadd 5%nat gatsby "9780743273565" eq_refl eq_refl)
      as (w' & Hrun & Hcat & Hfiles & _).
    { simpl. intros [H|[H|[]]]; discriminate H. }
    exists w'. repeat split; assumption.
  - destruct (Hrem "9780142437247") as (w' & Hrun & Hcat & Hfiles & _).
    { simpl. left. reflexivity. }
    exists w'. repeat split; assumption.
Defined.

Lemma isbn_uniqueness_preserved_witness :
  (Library_init "library.json" (on_disk (Document (to_json [moby; dune])))
   = (Ok 1%nat, loaded_shelf) /\
   catalog (heap loaded_shelf) 1%nat = Some [moby; dune] /\
   List.NoDup (isbns [moby; dune])) /\
  exists bs,
    catalog (heap (serve_all 1%nat session loaded_shelf)) 1%nat = Some bs /\
    List.NoDup (isbns bs).
Proof.
  assert (Library_init "library.json" (on_disk (Document (to_json [moby; dune])))
          = (Ok 1%nat, loaded_shelf)) as Hinit
    by (vm_compute; reflexivity).
  assert (catalog (heap loaded_shelf) 1%nat = Some [moby; dune]) as Hcat
    by (vm_compute; reflexivity).
  split; [repeat split; try assumption; exact shelf_unique|].
  apply (isbn_uniqueness_preserved _ "library.json" 1%nat loaded_shelf session Hinit).
  intros bs0 Hbs0. rewrite Hcat in Hbs0. inversion Hbs0; subst bs0.
  exact shelf_unique.
Defined.

Lemma author_request_failure_witness :
  assoc_get "key" [("key", VStr "/authors/OL123A")] = Some (VStr "/authors/OL123A") /\
  fetch_authors [VDict [("key", VStr "/authors/OL123A")]; VStr "x"] [VStr "A"]
    shelf_no_author
  = fetch_authors [VStr "x"] [VStr "A"] shelf_no_author /\
  (exists w',
     add_book_by_isbn 1%nat (VStr "9780743273565") shelf_no_author
     = (Ok 6%nat, w') /\
     catalog (heap w') 1%nat
     = Some [moby; dune;
             mkBook (VStr "The Great Gatsby") (VStr "Unknown Author")
               (VStr "9780743273565")]) /\
  add_book_by_isbn 1%nat (VStr "9780743273565") shelf_slow_author
  = (Raise (ConnectionError TimedOut), shelf_slow_author).
Proof.
  assert (~ In (VStr "9780743273565") (isbns [moby; dune])) as Hfresh.
  { simpl. intros [H|[H|[]]]; discriminate H. }
  split; [reflexivity|]. split; [|split].
  - destruct (author_request_failure shelf_no_author
                [("key", VStr "/authors/OL123A")] (VStr "/authors/OL123A") eq_refl)
      as [Hskip _].
    apply (Hskip 404%Z None [VStr "x"] [VStr "A"] eq_refl). discriminate.
  - destruct (author_request_failure shelf_no_author
                [("key", VStr "/authors/OL123A")] (VStr "/authors/OL123A") eq_refl)
      as [_ Htop].
    destruct (Htop 1%nat "library.json" [moby; dune] "9780743273565" 200%Z
                [("title", VStr "The Great Gatsby");
                 ("authors", VList [VDict [("key", VStr "/authors/OL123A")]])]
                [] [] eq_refl eq_refl Hfresh eq_refl ltac:(lia) eq_refl
                (List.Forall_nil _)) as [Habsorb _].
    apply (Habsorb 404%Z None [] eq_refl); [discriminate|constructor|reflexivity|].
    intros H. vm_compute in H. discriminate H.
  - destruct (author_request_failure shelf_slow_author
                [("key", VStr "/authors/OL123A")] (VStr "/authors/OL123A") eq_refl)
      as [_ Htop].
    destruct (Htop 1%nat "library.json" [moby; dune] "9780743273565" 200%Z
                [("title", VStr "The Great Gatsby");
                 ("authors", VList [VDict [("key", VStr "/authors/OL123A")]])]
                [] [] eq_refl eq_refl Hfresh eq_refl ltac:(lia) eq_refl
                (List.Forall_nil _)) as (_ & Htimeout & _).
    apply Htimeout. reflexivity.
Defined.

(** * Further properties of the catalogue

    ** What no operation touches

    Which paths can be written and what the service answers are not
    changed by any method: only the heap and the files are. *)

Section preserves.
Context {X : Type} (f : World -> X).
Hypothesis f_heap : forall w h, f (set_heap w h) = f w.
Hypothesis f_files : forall w fs, f (set_files w fs) = f w.

Lemma preserves_read_only {A} (m : M A) : read_only m -> preserves f m.
Proof. intros H w. rewrite H. reflexivity. Qed.

Lemma preserves_bind {A B} (m : M A) (k : A -> M B) :
  preserves f m -> (forall a, preserves f (k a)) -> preserves f (bind m k).
Proof.
  intros Hm Hk w. unfold bind. specialize (Hm w).
  destruct (m w) as [[a|e] w1]; simpl in *; [|exact Hm].
  rewrite Hk. exact Hm.
Qed.

Lemma preserves_try {A} (m : M A) h :
  preserves f m -> (forall e, preserves f (h e)) -> preserves f (try_except m h).
Proof.
  intros Hm Hh w. unfold try_except. specialize (Hm w).
  destruct (m w) as [[a|e] w1]; simpl in *; [exact Hm|].
  rewrite Hh. exact Hm.
Qed.

Lemma preserves_alloc o : preserves f (alloc o).
Proof using f_heap. intros w. apply f_heap. Qed.

Lemma preserves_store l o : preserves f (store l o).
Proof using f_heap. intros w. apply f_heap. Qed.

Lemma preserves_open_write p : preserves f (open_write p).
Proof using f_files.
  intros w. unfold open_write. destruct (decide (p ∈ unwritable w)); simpl;
    [reflexivity|apply f_files].
Qed.

Lemma preserves_json_dump v p : preserves f (json_dump v p).
Proof using f_files. intros w. apply f_files. Qed.

Lemma preserves_comprehension {A B} (g : A -> M B) l :
  (forall x, preserves f (g x)) -> preserves f (comprehension g l).
Proof.
  intros Hg. induction l as [|x l IH]; simpl.
  - intros w. reflexivity.
  - apply preserves_bind; [apply Hg|]. intros y.
    apply preserves_bind; [exact IH|]. intros ys w. reflexivity.
Qed.

#[local] Hint Resolve read_only_find_book read_only_lookup_fields
  read_only_lookup_handler : reads.

Create HintDb preserves.
#[local] Hint Resolve preserves_alloc preserves_store preserves_open_write
  preserves_json_dump : preserves.

Ltac preserved :=
  repeat first
    [ progress intros
    | solve [auto with preserves]
    | solve [apply preserves_read_only; auto with reads]
    | apply preserves_bind
    | apply preserves_try
    | apply preserves_comprehension
    | match goal with
      | |- preserves _ (match ?x with _ => _ end) => destruct x
      end ].

Lemma preserves_save_books self : preserves f (save_books self).
Proof using f_files. unfold save_books. preserved. Qed.

Lemma preserves_list_append l x : preserves f (list_append l x).
Proof using f_heap. unfold list_append. preserved. Qed.

Lemma preserves_list_pop l i : preserves f (list_pop l i).
Proof using f_heap. unfold list_pop. preserved. Qed.

#[local] Hint Resolve preserves_save_books preserves_list_append
  preserves_list_pop : preserves.

Lemma preserves_add_book self book : preserves f (add_book self book).
Proof using f_heap f_files. unfold add_book. preserved. Qed.

Lemma preserves_remove_loop self isbn items : forall i,
  preserves f (remove_loop self i items isbn).
Proof using f_heap f_files.
  induction items as [|book rest IH]; intros i; simpl; preserved.
Qed.

#[local] Hint Resolve preserves_add_book preserves_remove_loop : preserves.

Lemma preserves_remove_book self isbn : preserves f (remove_book self isbn).
Proof using f_heap f_files. unfold remove_book. preserved. Qed.

Lemma preserves_list_books self : preserves f (list_books self).
Proof using f_heap. unfold list_books, list_copy. preserved. Qed.

Lemma preserves_add_book_by_isbn self isbn :
  preserves f (add_book_by_isbn self isbn).
Proof using f_heap f_files.
  intros w. rewrite add_book_by_isbn_unfold. revert w.
  change (preserves f
            (let* existing_book := find_book self isbn in
             match existing_book with
             | Some _ => raise (ValueError (AlreadyExists isbn))
             | None =>
                 try_except
                   (let* fields := lookup_fields isbn in
                    let* book := Book_init (fst fields) (snd fields) isbn in
                    let* _ := add_book self book in
                    ret book)
                   (lookup_handler isbn)
             end)).
  unfold Book_init. preserved.
Qed.

#[local] Hint Resolve preserves_remove_book preserves_list_books
  preserves_add_book_by_isbn : preserves.

Lemma preserves_serve self r : preserves f (serve self r).
Proof using f_heap f_files. destruct r; simpl; unfold Book_init; preserved. Qed.

Lemma preserves_serve_all self rs : forall w, f (serve_all self rs w) = f w.
Proof using f_heap f_files.
  induction rs as [|r rs IH]; intros w; simpl; [reflexivity|].
  rewrite IH. apply preserves_serve.
Qed.
End preserves.


Lemma serve_unwritable self r w : unwritable (snd (serve self r w)) = unwritable w.
Proof. apply (preserves_serve unwritable); reflexivity. Qed.

Lemma add_book_unwritable self book w :
  unwritable (snd (add_book self book w)) = unwritable w.
Proof. apply (preserves_add_book unwritable); reflexivity. Qed.

(** ** The lookup, case by case *)

(** Either the lookup raises before anything is created and the world is
    as it was, or it has resolved a title and an author and goes through
    [add_book] with a new record. *)
Lemma add_book_by_isbn_effect w self fn bs s :
  file_of (heap w) self = Some fn ->
  catalog (heap w) self = Some bs ->
  (exists e, add_book_by_isbn self (VStr s) w = (Raise e, w)) \/
  (~ In (VStr s) (isbns bs) /\
   exists t a r w',
     lookup_fields (VStr s) w = (Ok (t, a), w) /\
     add_book_by_isbn self (VStr s) w = (r, w') /\
     file_of (heap w') self = Some fn /\
     catalog (heap w') self = Some (bs ++ [mkBook t a (VStr s)]) /\
     book_at (heap w') (length (heap w)) = Some (mkBook t a (VStr s)) /\
     (~ fn ∈ unwritable w ->
        r = Ok (length (heap w)) /\
        files w' =
          <[fn := Document (to_json (bs ++ [mkBook t a (VStr s)]))]> (files w)) /\
     (fn ∈ unwritable w ->
        r = Raise (ConnectionError
                     (Unexpected (IOError (SaveFailed fn (IOError (CannotOpen fn)))))) /\
        files w' = files w)).
Proof.
  intros Hfile Hcat. destruct (In_isbns_dec s bs) as [HIn|Hfresh].
  - left. exists (ValueError (AlreadyExists (VStr s))). unfold add_book_by_isbn.
    destruct (catalog_inv _ _ _ Hcat) as (fn' & bl & items & Hself & Hbl & Hbs).
    rewrite (bind_ok _ _ _ _ _ (find_book_run _ _ _ _ _ _ _ Hself Hbl Hbs)).
    destruct (position (VStr s) bs) as [n|] eqn:Hpos;
      [|apply position_None in Hpos; contradiction].
    destruct (lookup_lt_is_Some_2 items n) as [l Hl].
    { rewrite (length_mapM _ _ _ Hbs). eapply position_lt. exact Hpos. }
    rewrite Hl. reflexivity.
  - pose proof (read_only_lookup_fields (VStr s) w) as Hw.
    destruct (lookup_fields (VStr s) w) as [[[t a]|e] w0] eqn:Hfields;
      simpl in Hw; subst w0.
    + right. split; [exact Hfresh|].
      destruct (add_book_by_isbn_resolved _ _ _ _ _ _ _ Hfile Hcat Hfresh Hfields)
        as (r & w' & Hrun & Hrest).
      exists t, a, r, w'. split; [reflexivity|]. split; [exact Hrun|exact Hrest].
    + left. rewrite (add_book_by_isbn_raises _ _ _ _ _ Hcat Hfresh Hfields).
      destruct (@lookup_handler_raises loc (VStr s) e w) as (e' & ->).
      exists e'. reflexivity.
Qed.





(** X3.  An ISBN that is already in the catalogue is refused before any
    request is made: whatever the service would answer, the lookup raises
    [ValueError] ("already exists") and the world is as it was. *)
Theorem lookup_duplicate_precheck w self bs s net :
  catalog (heap w) self = Some bs ->
  In (VStr s) (isbns bs) ->
  add_book_by_isbn self (VStr s) (mkWorld (heap w) (files w) (unwritable w) net)
  = (Raise (ValueError (AlreadyExists (VStr s))),
     mkWorld (heap w) (files w) (unwritable w) net).
Proof.
  intros Hcat HIn. set (w1 := mkWorld (heap w) (files w) (unwritable w) net).
  change (catalog (heap w1) self = Some bs) in Hcat.
  unfold add_book_by_isbn.
  destruct (catalog_inv _ _ _ Hcat) as (fn' & bl & items & Hself & Hbl & Hbs).
  rewrite (bind_ok _ _ _ _ _ (find_book_run _ _ _ _ _ _ _ Hself Hbl Hbs)).
  destruct (position (VStr s) bs) as [n|] eqn:Hpos;
    [|apply position_None in Hpos; contradiction].
  destruct (lookup_lt_is_Some_2 items n) as [l Hl].
  { rewrite (length_mapM _ _ _ Hbs). eapply position_lt. exact Hpos. }
  rewrite Hl. reflexivity.
Qed.

Lemma lookup_duplicate_precheck_witness :
  (catalog (heap shelf) 1%nat = Some [moby; dune] /\
   In (VStr "9780441172719") (isbns [moby; dune])) /\
  add_book_by_isbn 1%nat (VStr "9780441172719") (shelf_with (fun _ => Timeout))
  = (Raise (ValueError (AlreadyExists (VStr "9780441172719"))),
     shelf_with (fun _ => Timeout)).
Proof.
  assert (In (VStr "9780441172719") (isbns [moby; dune])) as HIn
    by (right; left; reflexivity).
  split; [split; [reflexivity|exact HIn]|].
  exact (lookup_duplicate_precheck shelf 1%nat [moby; dune] "9780441172719"
           (fun _ => Timeout) eq_refl HIn).
Defined.



(** ** Sessions *)

Lemma snd_then_ret {A} (m : M A) w :
  snd ((let* _ := m in ret tt) w) = snd (m w).
Proof. unfold bind, ret. destruct (m w) as [[a|e] w']; reflexivity. Qed.

(** What one request does to the catalogue and to the files: the catalogue
    stays a catalogue of the same file, and either the files are as they
    were (and then the sequence is as it was unless the file cannot be
    written), or the file has been rewritten with the whole new
    sequence. *)
Lemma serve_effect self r w fn bs :
  file_of (heap w) self = Some fn ->
  catalog (heap w) self = Some bs ->
  exists bs',
    file_of (heap (snd (serve self r w))) self = Some fn /\
    catalog (heap (snd (serve self r w))) self = Some bs' /\
    (files (snd (serve self r w)) = files w /\ (bs' = bs \/ fn ∈ unwritable w) \/
     ~ fn ∈ unwritable w /\
     files (snd (serve self r w)) = <[fn := Document (to_json bs')]> (files w)) /\
    (bs' = bs \/
     exists s, request_isbn r = Some s /\
       (bs' = remove_first (VStr s) bs \/
        ~ In (VStr s) (isbns bs) /\ exists b, isbn b = VStr s /\ bs' = bs ++ [b])).
Proof.
  intros Hfile Hcat.
  destruct r as [t a i|i|i|i|].
  - set (b := mkBook (VStr t) (VStr a) (VStr i)).
    set (w1 := set_heap w (heap w ++ [OBook b])).
    assert (serve self (ReqAdd t a i) w = add_book self (length (heap w)) w1) as ->
      by (unfold serve, Book_init; apply bind_ok, alloc_run).
    assert (file_of (heap w1) self = Some fn) as Hfile1
      by (apply file_of_extend; exact Hfile).
    assert (catalog (heap w1) self = Some bs) as Hcat1
      by (apply catalog_extend; exact Hcat).
    destruct (In_isbns_dec i bs) as [HIn|Hfresh].
    + rewrite (add_book_rejects w1 self fn bs (length (heap w)) b i Hfile1 Hcat1
                 (book_at_new _ _) eq_refl HIn).
      exists bs. simpl. split; [exact Hfile1|]. split; [exact Hcat1|].
      split; [left; split; [reflexivity|left; reflexivity]|left; reflexivity].
    + destruct (add_book_new w1 self fn bs (length (heap w)) b i Hfile1 Hcat1
                  (book_at_new _ _) eq_refl Hfresh)
        as (r & w' & -> & Hfile' & Hcat' & Hrw & Hro).
      exists (bs ++ [b]). simpl. split; [exact Hfile'|]. split; [exact Hcat'|].
      split; [|right; exists i; split; [reflexivity|right; split; [exact Hfresh|]];
                exists b; split; reflexivity].
      destruct (decide (fn ∈ unwritable w)) as [Hu|Hu].
      * left. destruct (Hro Hu) as [_ Hfiles]. split; [exact Hfiles|right; exact Hu].
      * right. destruct (Hrw Hu) as [_ Hfiles]. split; [exact Hu|exact Hfiles].
  - unfold serve. rewrite snd_then_ret.
    destruct (In_isbns_dec i bs) as [HIn|Hfresh].
    + destruct (remove_book_present _ _ _ _ i Hfile Hcat HIn)
        as (r & w' & -> & Hfile' & Hcat' & _ & Hrw & Hro & _).
      exists (remove_first (VStr i) bs). simpl.
      split; [exact Hfile'|]. split; [exact Hcat'|].
      split; [|right; exists i; split; [reflexivity|left; reflexivity]].
      destruct (decide (fn ∈ unwritable w)) as [Hu|Hu].
      * left. destruct (Hro Hu) as [_ Hfiles]. split; [exact Hfiles|right; exact Hu].
      * right. destruct (Hrw Hu) as [_ Hfiles]. split; [exact Hu|exact Hfiles].
    + rewrite (remove_book_absent _ _ _ _ Hcat Hfresh). exists bs. simpl.
      split; [exact Hfile|]. split; [exact Hcat|].
      split; [left; split; [reflexivity|left; reflexivity]|left; reflexivity].
  - unfold serve. rewrite snd_then_ret.
    destruct (add_book_by_isbn_effect w self fn bs i Hfile Hcat)
      as [(e0 & ->)|(Hfresh & t & a & r & w1 & _ & -> & Hfile1 & Hcat1 & _ & Hrw & Hro)].
    + exists bs. simpl. split; [exact Hfile|]. split; [exact Hcat|].
      split; [left; split; [reflexivity|left; reflexivity]|left; reflexivity].
    + exists (bs ++ [mkBook t a (VStr i)]). simpl.
      split; [exact Hfile1|]. split; [exact Hcat1|].
      split; [|right; exists i; split; [reflexivity|right; split; [exact Hfresh|]];
                exists (mkBook t a (VStr i)); split; reflexivity].
      destruct (decide (fn ∈ unwritable w)) as [Hu|Hu].
      * left. destruct (Hro Hu) as [_ Hfiles]. split; [exact Hfiles|right; exact Hu].
      * right. destruct (Hrw Hu) as [_ Hfiles]. split; [exact Hu|exact Hfiles].
  - unfold serve. rewrite snd_then_ret. rewrite (read_only_find_book self (VStr i) w).
    exists bs. split; [exact Hfile|]. split; [exact Hcat|].
    split; [left; split; [reflexivity|left; reflexivity]|left; reflexivity].
  - unfold serve. rewrite snd_then_ret.
    destruct (list_books_run _ _ _ Hcat) as (items & Hlist & _ & Hcat').
    rewrite Hlist. simpl. exists bs.
    split; [apply file_of_extend; exact Hfile|]. split; [exact Hcat'|].
    split; [left; split; [reflexivity|left; reflexivity]|left; reflexivity].
Qed.

(** Through a whole session. *)
Lemma serve_all_effect self fn rs : forall w bs,
  file_of (heap w) self = Some fn ->
  catalog (heap w) self = Some bs ->
  exists bs',
    file_of (heap (serve_all self rs w)) self = Some fn /\
    catalog (heap (serve_all self rs w)) self = Some bs' /\
    (forall p, p <> fn -> files (serve_all self rs w) !! p = files w !! p) /\
    (fn ∈ unwritable w -> files (serve_all self rs w) = files w) /\
    (~ fn ∈ unwritable w -> load_result (files w !! fn) = Ok bs ->
     load_result (files (serve_all self rs w) !! fn) = Ok bs').
Proof.
  induction rs as [|r rs IH]; intros w bs Hfile Hcat; simpl.
  - exists bs. auto.
  - destruct (serve_effect self r w fn bs Hfile Hcat)
      as (bs1 & Hfile1 & Hcat1 & Hfs & _).
    destruct (IH _ _ Hfile1 Hcat1) as (bs' & Hfile' & Hcat' & Hother & Hlocked & Hsync).
    pose proof (serve_unwritable self r w) as Hun.
    exists bs'. split; [exact Hfile'|]. split; [exact Hcat'|].
    split; [|split].
    + intros p Hp. rewrite (Hother p Hp).
      destruct Hfs as [[-> _]|[_ ->]]; [reflexivity|].
      apply lookup_insert_ne. congruence.
    + intros Hu. rewrite Hlocked by (rewrite Hun; exact Hu).
      destruct Hfs as [[-> _]|[Hw _]]; [reflexivity|contradiction].
    + intros Hu Hload. apply Hsync; [rewrite Hun; exact Hu|].
      destruct Hfs as [[-> [->|Hu']]|[_ ->]];
        [exact Hload|contradiction|].
      rewrite lookup_insert_eq. apply load_result_to_json.
Qed.



(** X6.  A catalogue writes to its own file only: through any session,
    every other path holds what it held, the set of paths that cannot be
    written and the answers of the service are as they were, and when the
    catalogue's own file cannot be written no file changes at all. *)
Theorem session_touches_own_file_only w self fn bs rs :
  file_of (heap w) self = Some fn ->
  catalog (heap w) self = Some bs ->
  (forall p, p <> fn -> files (serve_all self rs w) !! p = files w !! p) /\
  (fn ∈ unwritable w -> files (serve_all self rs w) = files w) /\
  unwritable (serve_all self rs w) = unwritable w /\
  remote (serve_all self rs w) = remote w.
Proof.
  intros Hfile Hcat.
  destruct (serve_all_effect self fn rs w bs Hfile Hcat)
    as (bs' & _ & _ & Hother & Hlocked & _).
  split; [exact Hother|]. split; [exact Hlocked|]. split.
  - apply (preserves_serve_all unwritable); reflexivity.
  - apply (preserves_serve_all remote); reflexivity.
Qed.

Lemma session_touches_own_file_only_witness :
  (file_of (heap locked_shelf) 1%nat = Some "library.json" /\
   catalog (heap locked_shelf) 1%nat = Some [moby; dune]) /\
  files (serve_all 1%nat session locked_shelf) = files locked_shelf /\
  files (serve_all 1%nat session shelf) !! "other.json" = files shelf !! "other.json".
Proof.
  split; [split; reflexivity|]. split.
  - destruct (session_touches_own_file_only locked_shelf 1%nat "library.json"
                [moby; dune] session eq_refl eq_refl) as (_ & H & _).
    apply H. exact locked_shelf_unwritable.
  - destruct (session_touches_own_file_only shelf 1%nat "library.json"
                [moby; dune] session eq_refl eq_refl) as (H & _).
    apply H. discriminate.
Defined.

(** ** Adding and removing *)

Lemma serve_add_fresh w self fn bs t a i :
  file_of (heap w) self = Some fn ->
  catalog (heap w) self = Some bs ->
  ~ In (VStr i) (isbns bs) ->
  file_of (heap (snd (serve self (ReqAdd t a i) w))) self = Some fn /\
  catalog (heap (snd (serve self (ReqAdd t a i) w))) self
  = Some (bs ++ [mkBook (VStr t) (VStr a) (VStr i)]) /\
  (~ fn ∈ unwritable w ->
     files (snd (serve self (ReqAdd t a i) w))
     = <[fn := Document (to_json (bs ++ [mkBook (VStr t) (VStr a) (VStr i)]))]>
         (files w)).
Proof.
  intros Hfile Hcat Hfresh.
  set (b := mkBook (VStr t) (VStr a) (VStr i)).
  set (w1 := set_heap w (heap w ++ [OBook b])).
  assert (serve self (ReqAdd t a i) w = add_book self (length (heap w)) w1) as ->
    by (unfold serve, Book_init; apply bind_ok, alloc_run).
  assert (file_of (heap w1) self = Some fn) as Hfile1
    by (apply file_of_extend; exact Hfile).
  assert (catalog (heap w1) self = Some bs) as Hcat1
    by (apply catalog_extend; exact Hcat).
  destruct (add_book_new w1 self fn bs (length (heap w)) b i Hfile1 Hcat1
              (book_at_new _ _) eq_refl Hfresh)
    as (r & w' & -> & Hfile' & Hcat' & Hrw & _).
  simpl. split; [exact Hfile'|]. split; [exact Hcat'|].
  intros Hu. apply (Hrw Hu).
Qed.



Lemma first_with_cons i x bs :
  first_with i (x :: bs) = if py_eq (isbn x) i then Some x else first_with i bs.
Proof.
  unfold first_with. simpl. destruct (py_eq (isbn x) i); [reflexivity|].
  destruct (position i bs); reflexivity.
Qed.

Lemma remove_first_cons i x bs :
  remove_first i (x :: bs) = if py_eq (isbn x) i then bs else x :: remove_first i bs.
Proof.
  unfold remove_first. simpl. destruct (py_eq (isbn x) i); [reflexivity|].
  destruct (position i bs); reflexivity.
Qed.

Lemma remove_first_snoc s bs b :
  isbn b = VStr s -> ~ In (VStr s) (isbns bs) ->
  remove_first (VStr s) (bs ++ [b]) = bs.
Proof.
  intros Hb Hfresh. induction bs as [|x bs IH]; simpl.
  - rewrite remove_first_cons, Hb. simpl. rewrite String.eqb_refl. reflexivity.
  - rewrite remove_first_cons.
    destruct (py_eq (isbn x) (VStr s)) eqn:E.
    + apply py_eq_str in E. exfalso. apply Hfresh. left. exact E.
    + rewrite IH; [reflexivity|]. intros H. apply Hfresh. right. exact H.
Qed.

Lemma first_with_snoc_other i bs b :
  py_eq (isbn b) i = false -> first_with i (bs ++ [b]) = first_with i bs.
Proof.
  intros Hb. induction bs as [|x bs IH]; simpl.
  - rewrite first_with_cons, Hb. reflexivity.
  - rewrite !first_with_cons, IH. reflexivity.
Qed.

Lemma first_with_remove_other s s' bs :
  s <> s' ->
  first_with (VStr s') (remove_first (VStr s) bs) = first_with (VStr s') bs.
Proof.
  intros Hne. induction bs as [|x bs IH]; [reflexivity|].
  rewrite remove_first_cons, first_with_cons.
  destruct (py_eq (isbn x) (VStr s)) eqn:E.
  - apply py_eq_str in E. rewrite E. simpl.
    destruct (String.eqb_spec s s'); [contradiction|reflexivity].
  - rewrite first_with_cons, IH. reflexivity.
Qed.



(** X9.  A request is local to its ISBN: whatever it does, and whether it
    succeeds or raises, what [find_book] yields for any other ISBN is the
    record it yielded before. *)
Theorem request_leaves_other_isbns w self fn bs r s' :
  file_of (heap w) self = Some fn ->
  catalog (heap w) self = Some bs ->
  request_isbn r <> Some s' ->
  exists res,
    find_book self (VStr s') (snd (serve self r w))
    = (Ok res, snd (serve self r w)) /\
    found (heap (snd (serve self r w))) res = first_with (VStr s') bs.
Proof.
  intros Hfile Hcat Hother.
  destruct (serve_effect self r w fn bs Hfile Hcat) as (bs' & _ & Hcat' & _ & Hbs').
  destruct (find_book_first _ self bs' (VStr s') Hcat') as (res & Hres & Hfound).
  exists res. split; [exact Hres|]. rewrite Hfound.
  destruct Hbs' as [->|(s & Hs & [->|(_ & b & Hb & ->)])]; [reflexivity| |].
  - apply first_with_remove_other. congruence.
  - apply first_with_snoc_other. rewrite Hb. simpl.
    destruct (String.eqb_spec s s'); [congruence|reflexivity].
Qed.

Lemma request_leaves_other_isbns_witness :
  (file_of (heap shelf) 1%nat = Some "library.json" /\
   catalog (heap shelf) 1%nat = Some [moby; dune] /\
   request_isbn (ReqRemove "9780142437247") <> Some "9780441172719") /\
  exists res,
    find_book 1%nat (VStr "9780441172719")
      (snd (serve 1%nat (ReqRemove "9780142437247") shelf))
    = (Ok res, snd (serve 1%nat (ReqRemove "9780142437247") shelf)) /\
    found (heap (snd (serve 1%nat (ReqRemove "9780142437247") shelf))) res
    = Some dune.
Proof.
  split; [repeat split; discriminate|].
  exact (request_leaves_other_isbns shelf 1%nat "library.json" [moby; dune]
           (ReqRemove "9780142437247") "9780441172719" eq_refl eq_refl
           ltac:(discriminate)).
Defined.

(** ** Finding *)

Lemma mapM_lookup {A B} (f : A -> option B) l k n x :
  mapM f l = Some k -> l !! n = Some x -> exists y, k !! n = Some y /\ f x = Some y.
Proof.
  intros Hm Hx. apply mapM_Some in Hm.
  destruct (Forall2_lookup_l _ _ _ _ _ Hm Hx) as (y & Hy & Hf).
  exists y. split; assumption.
Qed.

(** X10.  [find_book] on a catalogue never raises and changes nothing; it
    yields [None] exactly when no record carries the ISBN, and otherwise
    a reference held by the catalogue's own list: the first one, in the
    order of the sequence, whose record carries the ISBN. *)
Theorem find_book_spec w self bs s :
  catalog (heap w) self = Some bs ->
  exists r,
    find_book self (VStr s) w = (Ok r, w) /\
    (r = None <-> ~ In (VStr s) (isbns bs)) /\
    (forall l, r = Some l ->
       exists items n b,
         catalog_items (heap w) self = Some items /\ items !! n = Some l /\
         book_at (heap w) l = Some b /\ bs !! n = Some b /\ isbn b = VStr s /\
         ~ In (VStr s) (isbns (take n bs))).
Proof.
  intros Hcat.
  destruct (catalog_inv _ _ _ Hcat) as (fn & bl & items & Hself & Hbl & Hbs).
  rewrite (find_book_run _ _ _ _ _ _ (VStr s) Hself Hbl Hbs).
  pose proof (position_spec (VStr s) bs) as P.
  destruct (position (VStr s) bs) as [n|] eqn:Hpos.
  - destruct P as (b & Hb & Heq & Hbefore).
    destruct (lookup_lt_is_Some_2 items n) as [l Hl].
    { rewrite (length_mapM _ _ _ Hbs). eapply position_lt. exact Hpos. }
    exists (Some l). rewrite Hl. split; [reflexivity|]. split.
    + split; [discriminate|]. intros Hfresh. exfalso. apply Hfresh.
      eapply position_Some_In. exact Hpos.
    + intros l' E. inversion E; subst l'.
      destruct (mapM_lookup _ _ _ _ _ Hbs Hl) as (b' & Hb' & Hat).
      assert (b' = b) as -> by congruence.
      exists items, n, b. unfold catalog_items. rewrite Hself.
      split; [exact Hbl|]. split; [exact Hl|]. split; [exact Hat|].
      split; [exact Hb|]. split; [apply py_eq_str; exact Heq|].
      apply no_match_not_In. exact Hbefore.
  - exists None. split; [reflexivity|]. split.
    + split; [intros _; apply position_None; exact Hpos|reflexivity].
    + intros l E. discriminate E.
Qed.

Lemma find_book_spec_witness :
  catalog (heap shelf) 1%nat = Some [moby; dune] /\
  exists r,
    find_book 1%nat (VStr "9780441172719") shelf = (Ok r, shelf) /\
    (r = None <-> ~ In (VStr "9780441172719") (isbns [moby; dune])).
Proof.
  split; [reflexivity|].
  destruct (find_book_spec shelf 1%nat [moby; dune] "9780441172719" eq_refl)
    as (r & Hr & Hnone & _).
  exists r. split; [exact Hr|exact Hnone].
Defined.

(** ** Records are shared with the caller *)

Section store_book.
Context (h : list obj) (book : loc) (b b' : Book).
Hypothesis Hbook : book_at h book = Some b.

Lemma store_book_library_at l :
  library_at (<[book := OBook b']> h) l = library_at h l.
Proof using Hbook.
  apply book_at_Some in Hbook. unfold library_at.
  destruct (decide (l = book)) as [->|Hne].
  - rewrite list_lookup_insert_eq by (eapply lookup_lt_Some; exact Hbook).
    rewrite Hbook. reflexivity.
  - rewrite list_lookup_insert_ne by congruence. reflexivity.
Qed.

Lemma store_book_items_at l :
  items_at (<[book := OBook b']> h) l = items_at h l.
Proof using Hbook.
  apply book_at_Some in Hbook. unfold items_at.
  destruct (decide (l = book)) as [->|Hne].
  - rewrite list_lookup_insert_eq by (eapply lookup_lt_Some; exact Hbook).
    rewrite Hbook. reflexivity.
  - rewrite list_lookup_insert_ne by congruence. reflexivity.
Qed.

Lemma store_book_book_at :
  book_at (<[book := OBook b']> h) book = Some b'.
Proof using Hbook.
  apply book_at_Some in Hbook. apply book_at_Some.
  apply list_lookup_insert_eq. eapply lookup_lt_Some. exact Hbook.
Qed.

Lemma store_book_book_at_ne l :
  l <> book -> book_at (<[book := OBook b']> h) l = book_at h l.
Proof.
  intros Hne. unfold book_at. rewrite list_lookup_insert_ne by congruence.
  reflexivity.
Qed.
End store_book.

Lemma mapM_ext_in {A B} (f g : A -> option B) l :
  (forall x, In x l -> f x = g x) -> mapM f l = mapM g l.
Proof.
  induction l as [|x l IH]; intros H; [reflexivity|].
  simpl. rewrite (H x) by (left; reflexivity).
  rewrite IH by (intros y Hy; apply H; right; exact Hy). reflexivity.
Qed.

Lemma mapM_In {A B} (f : A -> option B) l k x :
  mapM f l = Some k -> In x l -> exists y, f x = Some y /\ In y k.
Proof.
  intros Hm Hx. apply list_elem_of_In, list_elem_of_lookup in Hx.
  destruct Hx as [n Hn].
  destruct (mapM_lookup _ _ _ _ _ Hm Hn) as (y & Hy & Hf).
  exists y. split; [exact Hf|].
  apply list_elem_of_In. eapply list_elem_of_lookup_2. exact Hy.
Qed.

(** X11.  [add_book] keeps the caller's object, not a copy of it: after
    the add, [find_book] on the ISBN yields that very object, and when
    the caller then rebinds the [isbn] of the object it still holds, the
    catalogue's last record carries the new value, whatever it is, an
    ISBN already in the catalogue included, and no file is written. *)
Theorem add_book_keeps_reference w self bs book b s v :
  catalog (heap w) self = Some bs ->
  book_at (heap w) book = Some b ->
  isbn b = VStr s ->
  ~ In (VStr s) (isbns bs) ->
  exists r w1 w2,
    add_book self book w = (r, w1) /\
    find_book self (VStr s) w1 = (Ok (Some book), w1) /\
    set_attr_isbn book v w1 = (Ok tt, w2) /\
    catalog (heap w2) self = Some (bs ++ [mkBook (title b) (author b) v]) /\
    files w2 = files w1.
Proof.
  intros Hcat Hbook Hb Hfresh.
  destruct (catalog_inv _ _ _ Hcat) as (fn & bl & items & Hself & Hbl & Hbs).
  assert (position (isbn b) bs = None) as Hpos
    by (rewrite Hb; apply position_None; exact Hfresh).
  pose proof (add_book_fresh w self fn bl items bs book b Hself Hbl Hbs Hbook Hpos)
    as Hadd.
  destruct (appended_state w self fn bl items bs book b Hself Hbl Hbs Hbook)
    as [Hself1 Hrec1].
  set (wa := appended w bl items book) in *.
  assert (exists r w1, save_books self wa = (r, w1) /\ heap w1 = heap wa)
    as (r & w1 & Hsave & Hheap).
  { destruct (decide (fn ∈ unwritable wa)) as [Hu|Hu].
    - rewrite (save_books_fail wa self fn bl Hself1 Hu). eauto.
    - rewrite (save_books_ok wa self fn bl _ Hself1 Hrec1 Hu). eauto. }
  rewrite Hsave in Hadd.
  assert (items_at (heap wa) bl = Some (items ++ [book])) as Hbl1
    by (apply (store_list_items_at (heap w) bl items); exact Hbl).
  assert (forall l, book_at (heap wa) l = book_at (heap w) l) as Hsame
    by (intros l; apply (store_list_book_at (heap w) bl items); exact Hbl).
  assert (mapM (book_at (heap wa)) (items ++ [book]) = Some (bs ++ [b])) as Hbs1.
  { apply mapM_snoc; [|rewrite Hsame; exact Hbook].
    rewrite <- Hbs. apply mapM_ext. exact Hsame. }
  assert (book_at (heap w1) book = Some b) as Hbook1
    by (rewrite Hheap, Hsame; exact Hbook).
  exists r, w1, (set_heap w1 (<[book := OBook (mkBook (title b) (author b) v)]> (heap w1))).
  split; [exact Hadd|]. split; [|split; [|split]].
  - rewrite <- Hheap in Hself1, Hbl1, Hbs1.
    rewrite (find_book_run w1 self fn bl _ _ (VStr s) Hself1 Hbl1 Hbs1).
    assert (position (VStr s) (bs ++ [b]) = Some (length bs)) as ->.
    { pose proof (first_with_snoc bs b s Hb Hfresh) as Hf. unfold first_with in Hf.
      destruct (position (VStr s) (bs ++ [b])) as [n|] eqn:E; [|discriminate].
      f_equal. pose proof (position_lt _ _ _ E) as Hlt.
      rewrite length_app in Hlt. simpl in Hlt.
      destruct (decide (n = length bs)) as [->|Hne]; [reflexivity|].
      exfalso. rewrite lookup_app_l in Hf by lia.
      pose proof (position_spec (VStr s) (bs ++ [b])) as P. rewrite E in P.
      destruct P as (b0 & Hb0 & Heq & _). rewrite lookup_app_l in Hb0 by lia.
      apply py_eq_str in Heq. apply Hfresh. unfold isbns.
      apply in_map_iff. exists b0. split; [exact Heq|].
      apply list_elem_of_In. eapply list_elem_of_lookup_2. exact Hb0. }
    rewrite <- (length_mapM _ _ _ Hbs).
    rewrite lookup_app_r by lia. rewrite Nat.sub_diag. reflexivity.
  - unfold set_attr_isbn. rewrite (bind_ok _ _ _ _ _ (book_of_run _ _ _ Hbook1)).
    reflexivity.
  - simpl. rewrite Hheap in *. unfold catalog.
    rewrite (store_book_library_at _ _ b _ Hbook1), Hself1.
    unfold records. rewrite (store_book_items_at _ _ b _ Hbook1), Hbl1.
    apply mapM_snoc; [|apply (store_book_book_at _ _ b); exact Hbook1].
    rewrite <- Hbs. apply mapM_ext_in. intros l Hl.
    rewrite store_book_book_at_ne; [apply Hsame|].
    intros ->. destruct (mapM_In _ _ _ _ Hbs Hl) as (y & Hy & HIn).
    rewrite Hbook in Hy. inversion Hy; subst y.
    apply Hfresh. rewrite <- Hb. unfold isbns. apply in_map. exact HIn.
  - reflexivity.
Qed.

Lemma add_book_keeps_reference_witness :
  (catalog (heap shelf) 1%nat = Some [moby; dune] /\
   book_at (heap shelf) 5%nat = Some gatsby /\
   ~ In (VStr "9780743273565") (isbns [moby; dune])) /\
  exists r w1 w2,
    add_book 1%nat 5%nat shelf = (r, w1) /\
    find_book 1%nat (VStr "9780743273565") w1 = (Ok (Some 5%nat), w1) /\
    set_attr_isbn 5%nat (VStr "9780441172719") w1 = (Ok tt, w2) /\
    catalog (heap w2) 1%nat
    = Some [moby; dune;
            mkBook (VStr "The Great Gatsby") (VStr "F. Scott Fitzgerald")
              (VStr "9780441172719")].
Proof.
  assert (~ In (VStr "9780743273565") (isbns [moby; dune])) as Hfresh.
  { simpl. intros [H|[H|[]]]; discriminate H. }
  split; [repeat split; exact Hfresh|].
  destruct (add_book_keeps_reference shelf 1%nat [moby; dune] 5%nat gatsby
              "9780743273565" (VStr "9780441172719") eq_refl eq_refl eq_refl Hfresh)
    as (r & w1 & w2 & H1 & H2 & H3 & H4 & _).
  exists r, w1, w2. split; [exact H1|]. split; [exact H2|].
  split; [exact H3|exact H4].
Defined.

(** ** Names that are not strings *)

Lemma strings_of_placeholder names :
  strings_of names = None ->
  match names with [] => [VStr "Unknown Author"] | _ => names end = names.
Proof. destruct names; [discriminate|reflexivity]. Qed.

(** X12.  The collected author names are joined without being checked: if
    one of them is not a string (a [null] or a number in the author
    resource), the lookup fails with a [ConnectionError] wrapping the
    [TypeError] of the join, and the world is as it was. *)
Theorem lookup_rejects_non_string_name w self bs s st d refs :
  catalog (heap w) self = Some bs ->
  ~ In (VStr s) (isbns bs) ->
  remote w (IsbnUrl (VStr s)) = Response st (Some (VDict d)) ->
  (200 <= st < 300)%Z ->
  assoc_get "authors" d = Some (VList refs) ->
  Forall (answered (remote w)) refs ->
  strings_of (collected_names (remote w) refs) = None ->
  add_book_by_isbn self (VStr s) w
  = (Raise (ConnectionError (Unexpected TypeError)), w).
Proof.
  intros Hcat Hfresh Hnet Hst Hauthors Hrefs Hnames.
  rewrite (add_book_by_isbn_raises w self bs s TypeError Hcat Hfresh); [reflexivity|].
  unfold lookup_fields.
  erewrite bind_ok; [|unfold client_get; rewrite Hnet; reflexivity].
  simpl. replace (st =? 404)%Z with false by (symmetry; apply Z.eqb_neq; lia).
  erewrite bind_ok; cycle 1.
  { unfold raise_for_status. simpl.
    replace (200 <=? st)%Z with true by (symmetry; apply Z.leb_le; lia).
    replace (st <? 300)%Z with true by (symmetry; apply Z.ltb_lt; lia).
    reflexivity. }
  erewrite bind_ok; [|reflexivity].
  erewrite bind_ok; [|apply py_get_dict].
  erewrite bind_ok; cycle 1.
  { unfold has_key. rewrite Hauthors.
    erewrite bind_ok; [|simpl; rewrite Hauthors; reflexivity].
    erewrite bind_ok; [|reflexivity]. apply fetch_authors_total. exact Hrefs. }
  rewrite (strings_of_placeholder _ Hnames).
  unfold bind, py_join. rewrite Hnames. reflexivity.
Qed.

Lemma lookup_rejects_non_string_name_witness :
  (catalog (heap shelf) 1%nat = Some [moby; dune] /\
   ~ In (VStr "9780743273565") (isbns [moby; dune]) /\
   remote (shelf_with open_library_null_name) (IsbnUrl (VStr "9780743273565"))
   = Response 200 (Some gatsby_data) /\
   remote (shelf_with open_library_null_name) (AuthorUrl (VStr "/authors/OL123A"))
   = Response 200 (Some (VDict [("name", VNone)]))) /\
  add_book_by_isbn 1%nat (VStr "9780743273565") (shelf_with open_library_null_name)
  = (Raise (ConnectionError (Unexpected TypeError)),
     shelf_with open_library_null_name).
Proof.
  assert (~ In (VStr "9780743273565") (isbns [moby; dune])) as Hfresh.
  { simpl. intros [H|[H|[]]]; discriminate H. }
  split; [repeat split; exact Hfresh|].
  apply (lookup_rejects_non_string_name (shelf_with open_library_null_name) 1%nat
           [moby; dune] "9780743273565" 200%Z
           [("title", VStr "The Great Gatsby");
            ("authors", VList [VDict [("key", VStr "/authors/OL123A")]])]
           [VDict [("key", VStr "/authors/OL123A")]]
           eq_refl Hfresh eq_refl ltac:(lia) eq_refl).
  - constructor; [|constructor]. simpl. intros _. eexists. reflexivity.
  - reflexivity.
Defined.

(** ** A file that is not loaded *)



(** ** Two catalogues over one file *)

Lemma save_books_heap w self fn bl bs :
  library_at (heap w) self = Some (fn, bl) ->
  records (heap w) bl = Some bs ->
  heap (snd (save_books self w)) = heap w.
Proof.
  intros Hself Hrec. destruct (decide (fn ∈ unwritable w)) as [Hu|Hu].
  - rewrite (save_books_fail w self fn bl Hself Hu). reflexivity.
  - rewrite (save_books_ok w self fn bl bs Hself Hrec Hu). reflexivity.
Qed.

(** An add through one catalogue leaves the list object of another
    catalogue as it is. *)
Lemma serve_add_other w self other fn fn' bl bl' bs bs' t a i :
  library_at (heap w) self = Some (fn, bl) ->
  records (heap w) bl = Some bs ->
  library_at (heap w) other = Some (fn', bl') ->
  bl <> bl' ->
  records (heap w) bl' = Some bs' ->
  library_at (heap (snd (serve self (ReqAdd t a i) w))) self = Some (fn, bl) /\
  library_at (heap (snd (serve self (ReqAdd t a i) w))) other = Some (fn', bl') /\
  records (heap (snd (serve self (ReqAdd t a i) w))) bl' = Some bs'.
Proof.
  intros Hself Hrec Hother Hne Hrec'.
  set (b := mkBook (VStr t) (VStr a) (VStr i)).
  set (w1 := set_heap w (heap w ++ [OBook b])).
  assert (serve self (ReqAdd t a i) w = add_book self (length (heap w)) w1) as ->
    by (unfold serve, Book_init; apply bind_ok, alloc_run).
  apply records_Some in Hrec. destruct Hrec as (items & Hbl & Hbs).
  assert (library_at (heap w1) self = Some (fn, bl)) as Hself1
    by (apply library_at_extend; exact Hself).
  assert (library_at (heap w1) other = Some (fn', bl')) as Hother1
    by (apply library_at_extend; exact Hother).
  assert (items_at (heap w1) bl = Some items) as Hbl1
    by (apply items_at_extend; exact Hbl).
  assert (mapM (book_at (heap w1)) items = Some bs) as Hbs1
    by (apply books_extend; exact Hbs).
  assert (records (heap w1) bl' = Some bs') as Hrec1
    by (apply records_extend; exact Hrec').
  assert (book_at (heap w1) (length (heap w)) = Some b) as Hb by apply book_at_new.
  destruct (position (isbn b) bs) as [n|] eqn:Hpos.
  - rewrite (add_book_duplicate w1 self fn bl items bs _ b n Hself1 Hbl1 Hbs1 Hb Hpos).
    simpl. auto.
  - rewrite (add_book_fresh w1 self fn bl items bs _ b Hself1 Hbl1 Hbs1 Hb Hpos).
    destruct (appended_state w1 self fn bl items bs _ b Hself1 Hbl1 Hbs1 Hb)
      as [Hself2 Hrec2].
    rewrite (save_books_heap _ self fn bl _ Hself2 Hrec2).
    split; [exact Hself2|]. unfold appended.
    change (heap (set_heap w1 (<[bl := OList (items ++ [length (heap w)])]> (heap w1))))
      with (<[bl := OList (items ++ [length (heap w)])]> (heap w1)).
    split.
    + rewrite (store_list_library_at _ bl items _ Hbl1). exact Hother1.
    + apply records_Some in Hrec1. destruct Hrec1 as (items' & Hbl' & Hbs').
      apply records_Some. exists items'. split.
      * rewrite (store_list_items_at_ne _ bl _ bl') by congruence. exact Hbl'.
      * rewrite <- Hbs'. apply mapM_ext. intros l.
        apply (store_list_book_at _ bl items). exact Hbl1.
Qed.



(** * The HTTP front end *)

Lemma call_ok {A} (m : M A) w a w' :
  m w = (Ok a, w') -> Api.call m w = (Api.Return a, w').
Proof. intros H. unfold Api.call. rewrite H. reflexivity. Qed.

Lemma call_raise {A} (m : M A) w e w' :
  m w = (Raise e, w') -> Api.call m w = (Api.Raised (Api.Py e), w').
Proof. intros H. unfold Api.call. rewrite H. reflexivity. Qed.

Lemma api_bind_ok {A B} (m : Api.endpoint A) (k : A -> Api.endpoint B) w a w' :
  m w = (Api.Return a, w') -> Api.bind m k w = k a w'.
Proof. intros H. unfold Api.bind. rewrite H. reflexivity. Qed.

Lemma api_bind_raised {A B} (m : Api.endpoint A) (k : A -> Api.endpoint B) w e w' :
  m w = (Api.Raised e, w') -> Api.bind m k w = (Api.Raised e, w').
Proof. intros H. unfold Api.bind. rewrite H. reflexivity. Qed.

Lemma api_try_ok {A} (m : Api.endpoint A) h w a w' :
  m w = (Api.Return a, w') -> Api.try_except m h w = (Api.Return a, w').
Proof. intros H. unfold Api.try_except. rewrite H. reflexivity. Qed.

Lemma api_try_raised {A} (m : Api.endpoint A) h w e w' :
  m w = (Api.Raised e, w') -> Api.try_except m h w = h e w'.
Proof. intros H. unfold Api.try_except. rewrite H. reflexivity. Qed.

Lemma attr_title_run w l b :
  book_at (heap w) l = Some b -> attr_title l w = (Ok (title b), w).
Proof.
  intros H. unfold attr_title. rewrite (bind_ok _ _ _ _ _ (book_of_run _ _ _ H)).
  reflexivity.
Qed.

Lemma attr_author_run w l b :
  book_at (heap w) l = Some b -> attr_author l w = (Ok (author b), w).
Proof.
  intros H. unfold attr_author. rewrite (bind_ok _ _ _ _ _ (book_of_run _ _ _ H)).
  reflexivity.
Qed.

(** Building the response of a record reads the record and nothing else. *)
Lemma response_of_run validate w book b :
  book_at (heap w) book = Some b ->
  Api.response_of validate book w =
    (match response_for validate b with
     | Some r => Api.Return r
     | None => Api.Raised Api.ValidationError
     end, w).
Proof.
  intros H. unfold Api.response_of.
  rewrite (api_bind_ok _ _ _ _ _ (call_ok _ _ _ _ (attr_title_run _ _ _ H))).
  rewrite (api_bind_ok _ _ _ _ _ (call_ok _ _ _ _ (attr_author_run _ _ _ H))).
  rewrite (api_bind_ok _ _ _ _ _ (call_ok _ _ _ _ (attr_isbn_run _ _ _ H))).
  unfold Api.BookResponse_init, response_for.
  destruct (validate (title b)); [|reflexivity].
  destruct (validate (author b)); [|reflexivity].
  destruct (validate (isbn b)); reflexivity.
Qed.

Lemma responses_run validate w items : forall bs,
  mapM (book_at (heap w)) items = Some bs ->
  Api.comprehension (Api.response_of validate) items w =
    (match mapM (response_for validate) bs with
     | Some rs => Api.Return rs
     | None => Api.Raised Api.ValidationError
     end, w).
Proof.
  induction items as [|l items IH]; intros bs Hbs.
  - inversion Hbs; subst. reflexivity.
  - apply mapM_Some in Hbs. inversion Hbs as [|? b ? bs' Hb Hrest]; subst.
    apply mapM_Some in Hrest. simpl.
    unfold Api.bind at 1. rewrite (response_of_run validate w l b Hb).
    destruct (response_for validate b) as [r|]; [|reflexivity].
    unfold Api.bind. rewrite (IH bs' Hrest).
    destruct (mapM (response_for validate) bs'); reflexivity.
Qed.

Lemma add_book_by_isbn_duplicate w self bs s :
  catalog (heap w) self = Some bs ->
  In (VStr s) (isbns bs) ->
  add_book_by_isbn self (VStr s) w = (Raise (ValueError (AlreadyExists (VStr s))), w).
Proof.
  intros Hcat HIn. unfold add_book_by_isbn.
  destruct (catalog_inv _ _ _ Hcat) as (fn' & bl & items & Hself & Hbl & Hbs).
  rewrite (bind_ok _ _ _ _ _ (find_book_run _ _ _ _ _ _ _ Hself Hbl Hbs)).
  destruct (position (VStr s) bs) as [n|] eqn:Hpos;
    [|apply position_None in Hpos; contradiction].
  destruct (lookup_lt_is_Some_2 items n) as [l Hl].
  { rewrite (length_mapM _ _ _ Hbs). eapply position_lt. exact Hpos. }
  rewrite Hl. reflexivity.
Qed.

(** What the [except] clauses of the lookup let out is a [ValueError] or a
    [ConnectionError]. *)
Lemma lookup_handler_class {A} isbn e w :
  exists e',
    @lookup_handler A isbn e w = (Raise e', w) /\
    (Api.is_ValueError (Api.Py e') = true \/
     Api.is_ConnectionError (Api.Py e') = true).
Proof.
  destruct e; simpl; try (eexists; split; [reflexivity|]; simpl; auto; fail).
  destruct (status_code =? 404)%Z; eexists; (split; [reflexivity|]); simpl; auto.
Qed.

Lemma add_book_by_isbn_outcomes w self fn bs s :
  file_of (heap w) self = Some fn ->
  catalog (heap w) self = Some bs ->
  (exists e,
     add_book_by_isbn self (VStr s) w = (Raise e, w) /\
     (Api.is_ValueError (Api.Py e) = true \/
      Api.is_ConnectionError (Api.Py e) = true)) \/
  (~ In (VStr s) (isbns bs) /\
   exists t a r w',
     add_book_by_isbn self (VStr s) w = (r, w') /\
     file_of (heap w') self = Some fn /\
     catalog (heap w') self = Some (bs ++ [mkBook t a (VStr s)]) /\
     book_at (heap w') (length (heap w)) = Some (mkBook t a (VStr s)) /\
     (~ fn ∈ unwritable w ->
        r = Ok (length (heap w)) /\
        files w' =
          <[fn := Document (to_json (bs ++ [mkBook t a (VStr s)]))]> (files w)) /\
     (fn ∈ unwritable w ->
        r = Raise (ConnectionError
                     (Unexpected (IOError (SaveFailed fn (IOError (CannotOpen fn)))))) /\
        files w' = files w)).
Proof.
  intros Hfile Hcat. destruct (In_isbns_dec s bs) as [HIn|Hfresh].
  - left. exists (ValueError (AlreadyExists (VStr s))).
    split; [apply add_book_by_isbn_duplicate with bs; assumption|left; reflexivity].
  - pose proof (read_only_lookup_fields (VStr s) w) as Hw.
    destruct (lookup_fields (VStr s) w) as [[[t a]|e] w0] eqn:Hfields;
      simpl in Hw; subst w0.
    + right. split; [exact Hfresh|].
      destruct (add_book_by_isbn_resolved _ _ _ _ _ _ _ Hfile Hcat Hfresh Hfields)
        as (r & w' & Hrun & Hrest).
      exists t, a, r, w'. split; [exact Hrun|exact Hrest].
    + left. rewrite (add_book_by_isbn_raises _ _ _ _ _ Hcat Hfresh Hfields).
      destruct (@lookup_handler_class loc (VStr s) e w) as (e' & -> & Hclass).
      exists e'. split; [reflexivity|exact Hclass].
Qed.

Lemma delete_book_absent library w bs s :
  catalog (heap w) library = Some bs ->
  ~ In (VStr s) (isbns bs) ->
  Api.delete_book library s w
  = (Api.Raised (Api.HTTPException 404 (Api.BookNotFound s)), w).
Proof.
  intros Hcat Hfresh. unfold Api.delete_book.
  erewrite api_try_raised; cycle 1.
  { erewrite api_bind_ok; cycle 1.
    { apply call_ok. apply remove_book_absent with bs; assumption. }
    reflexivity. }
  reflexivity.
Qed.

(** X15.  [DELETE /books/{isbn}]: an ISBN the catalogue does not hold is
    answered 404 and nothing changes; one it holds is removed and the
    deletion confirmed when the file can be written; when it cannot, the
    answer is 500 although the record has been removed from memory: with
    pairwise distinct ISBNs, the same request sent again is answered
    404. *)
Theorem api_delete_book_outcomes library w fn bs s :
  file_of (heap w) library = Some fn ->
  catalog (heap w) library = Some bs ->
  (~ In (VStr s) (isbns bs) ->
     Api.delete_book library s w
     = (Api.Raised (Api.HTTPException 404 (Api.BookNotFound s)), w)) /\
  (In (VStr s) (isbns bs) ->
     exists r w',
       Api.delete_book library s w = (r, w') /\
       catalog (heap w') library = Some (remove_first (VStr s) bs) /\
       (~ fn ∈ unwritable w ->
          r = Api.Return (Api.DeletedSuccessfully s) /\
          files w' =
            <[fn := Document (to_json (remove_first (VStr s) bs))]> (files w)) /\
       (fn ∈ unwritable w ->
          r = Api.Raised
                (Api.HTTPException 500
                   (Api.InternalServerError
                      (Api.Py (IOError (SaveFailed fn (IOError (CannotOpen fn))))))) /\
          files w' = files w /\
          (List.NoDup (isbns bs) ->
           Api.delete_book library s w'
           = (Api.Raised (Api.HTTPException 404 (Api.BookNotFound s)), w')))).
Proof.
  intros Hfile Hcat. split.
  - intros Hfresh. apply delete_book_absent with bs; assumption.
  - intros HIn.
    destruct (remove_book_present w library fn bs s Hfile Hcat HIn)
      as (r & w' & Hrun & _ & Hcat' & _ & Hrw & Hro & _).
    destruct (decide (fn ∈ unwritable w)) as [Hu|Hu].
    + destruct (Hro Hu) as [-> Hfiles].
      eexists _, w'. split; [|split; [exact Hcat'|split]].
      * unfold Api.delete_book. erewrite api_try_raised; cycle 1.
        { apply api_bind_raised. apply call_raise. exact Hrun. }
        reflexivity.
      * intros Hw. contradiction.
      * intros _. split; [reflexivity|]. split; [exact Hfiles|].
        intros Hnd. apply delete_book_absent with (remove_first (VStr s) bs);
          [exact Hcat'|apply remove_first_NoDup; exact Hnd].
    + destruct (Hrw Hu) as [-> Hfiles].
      eexists _, w'. split; [|split; [exact Hcat'|split]].
      * unfold Api.delete_book. erewrite api_try_ok; cycle 1.
        { erewrite api_bind_ok; cycle 1.
          { apply call_ok. exact Hrun. }
          reflexivity. }
        reflexivity.
      * intros _. split; [reflexivity|exact Hfiles].
      * intros Hw. contradiction.
Qed.

Lemma api_delete_book_outcomes_witness :
  (file_of (heap locked_shelf) 1%nat = Some "library.json" /\
   catalog (heap locked_shelf) 1%nat = Some [moby; dune] /\
   In (VStr "9780142437247") (isbns [moby; dune])) /\
  Api.delete_book 1%nat "9999999999999" locked_shelf
  = (Api.Raised (Api.HTTPException 404 (Api.BookNotFound "9999999999999")),
     locked_shelf) /\
  exists r w',
    Api.delete_book 1%nat "9780142437247" locked_shelf = (r, w') /\
    catalog (heap w') 1%nat = Some [dune] /\
    r = Api.Raised
          (Api.HTTPException 500
             (Api.InternalServerError
                (Api.Py (IOError (SaveFailed "library.json"
                                    (IOError (CannotOpen "library.json"))))))) /\
    Api.delete_book 1%nat "9780142437247" w'
    = (Api.Raised (Api.HTTPException 404 (Api.BookNotFound "9780142437247")), w').
Proof.
  assert (In (VStr "9780142437247") (isbns [moby; dune])) as HIn
    by (left; reflexivity).
  split; [repeat split; exact HIn|]. split.
  - destruct (api_delete_book_outcomes 1%nat locked_shelf "library.json" [moby; dune]
                "9999999999999" eq_refl eq_refl) as [H _].
    apply H. simpl. intros [E|[E|[]]]; discriminate E.
  - destruct (api_delete_book_outcomes 1%nat locked_shelf "library.json" [moby; dune]
                "9780142437247" eq_refl eq_refl) as [_ H].
    destruct (H HIn) as (r & w' & Hrun & Hcat & _ & Hro).
    destruct (Hro locked_shelf_unwritable) as (Hr & _ & Hagain).
    exists r, w'. split; [exact Hrun|]. split; [exact Hcat|].
    split; [exact Hr|]. apply Hagain. exact shelf_unique.
Defined.



Lemma api_add_raises validate library w s e w' :
  add_book_by_isbn library (VStr s) w = (Raise e, w') ->
  Api.add_book_by_isbn validate library s w =
    (if Api.is_ValueError (Api.Py e)
     then Api.Raised (Api.HTTPException 400 (Api.Str (Api.Py e)))
     else if Api.is_ConnectionError (Api.Py e)
          then Api.Raised (Api.HTTPException 503 (Api.ServiceUnavailable (Api.Py e)))
          else Api.Raised (Api.HTTPException 500 (Api.InternalServerError (Api.Py e))),
     w').
Proof.
  intros Hrun. unfold Api.add_book_by_isbn.
  erewrite api_try_raised; cycle 1.
  { apply api_bind_raised. apply call_raise. exact Hrun. }
  destruct (Api.is_ValueError (Api.Py e)); [reflexivity|].
  destruct (Api.is_ConnectionError (Api.Py e)); reflexivity.
Qed.

(** X17.  How [POST /books] reports the errors of the lookup: an ISBN the
    catalogue already holds and an ISBN the service answers 404 for are
    both answered 400 with the message of the [ValueError]; a request
    that times out is answered 503.  In each case nothing changes. *)
Theorem api_add_book_errors validate library w bs s :
  catalog (heap w) library = Some bs ->
  (In (VStr s) (isbns bs) ->
     Api.add_book_by_isbn validate library s w
     = (Api.Raised
          (Api.HTTPException 400
             (Api.Str (Api.Py (ValueError (AlreadyExists (VStr s)))))), w)) /\
  (~ In (VStr s) (isbns bs) ->
     (forall body,
        remote w (IsbnUrl (VStr s)) = Response 404 body ->
        Api.add_book_by_isbn validate library s w
        = (Api.Raised
             (Api.HTTPException 400
                (Api.Str (Api.Py (ValueError (NotFound (VStr s)))))), w)) /\
     (remote w (IsbnUrl (VStr s)) = Timeout ->
        Api.add_book_by_isbn validate library s w
        = (Api.Raised
             (Api.HTTPException 503
                (Api.ServiceUnavailable (Api.Py (ConnectionError TimedOut)))), w))).
Proof.
  intros Hcat. split.
  - intros HIn.
    rewrite (api_add_raises validate library w s _ w
               (add_book_by_isbn_duplicate w library bs s Hcat HIn)).
    reflexivity.
  - intros Hfresh. split.
    + intros body Hnet.
      assert (add_book_by_isbn library (VStr s) w
              = (Raise (ValueError (NotFound (VStr s))), w)) as Hrun.
      { rewrite (add_book_by_isbn_raises w library bs s (ValueError (NotFound (VStr s)))
                   Hcat Hfresh); [reflexivity|].
        unfold lookup_fields, bind, client_get. rewrite Hnet. reflexivity. }
      rewrite (api_add_raises validate library w s _ w Hrun). reflexivity.
    + intros Hnet.
      assert (add_book_by_isbn library (VStr s) w
              = (Raise (ConnectionError TimedOut), w)) as Hrun.
      { rewrite (add_book_by_isbn_raises w library bs s TimeoutException
                   Hcat Hfresh); [reflexivity|].
        unfold lookup_fields, bind, client_get. rewrite Hnet. reflexivity. }
      rewrite (api_add_raises validate library w s _ w Hrun). reflexivity.
Qed.

Lemma api_add_book_errors_witness :
  (catalog (heap shelf) 1%nat = Some [moby; dune] /\
   In (VStr "9780441172719") (isbns [moby; dune]) /\
   ~ In (VStr "9999999999999") (isbns [moby; dune]) /\
   remote shelf (IsbnUrl (VStr "9999999999999")) = Response 404 None) /\
  Api.add_book_by_isbn strict_str 1%nat "9780441172719" shelf
  = (Api.Raised
       (Api.HTTPException 400
          (Api.Str (Api.Py (ValueError (AlreadyExists (VStr "9780441172719")))))),
     shelf) /\
  Api.add_book_by_isbn strict_str 1%nat "9999999999999" shelf
  = (Api.Raised
       (Api.HTTPException 400
          (Api.Str (Api.Py (ValueError (NotFound (VStr "9999999999999")))))),
     shelf) /\
  Api.add_book_by_isbn strict_str 1%nat "9999999999999"
    (shelf_with (fun _ => Timeout))
  = (Api.Raised
       (Api.HTTPException 503
          (Api.ServiceUnavailable (Api.Py (ConnectionError TimedOut)))),
     shelf_with (fun _ => Timeout)).
Proof.
  assert (In (VStr "9780441172719") (isbns [moby; dune])) as HIn
    by (right; left; reflexivity).
  assert (~ In (VStr "9999999999999") (isbns [moby; dune])) as Hfresh.
  { simpl. intros [H|[H|[]]]; discriminate H. }
  split; [repeat split; [exact HIn|exact Hfresh]|]. split; [|split].
  - destruct (api_add_book_errors strict_str 1%nat shelf [moby; dune]
                "9780441172719" eq_refl) as [H _].
    apply H. exact HIn.
  - destruct (api_add_book_errors strict_str 1%nat shelf [moby; dune]
                "9999999999999" eq_refl) as [_ H].
    destruct (H Hfresh) as [H404 _]. apply (H404 None). reflexivity.
  - destruct (api_add_book_errors strict_str 1%nat (shelf_with (fun _ => Timeout))
                [moby; dune] "9999999999999" eq_refl) as [_ H].
    destruct (H Hfresh) as [_ Htimeout]. apply Htimeout. reflexivity.
Defined.



(** X19.  [GET /books/{isbn}] changes nothing and answers 404 exactly when
    no record carries the ISBN; otherwise it answers with the first
    record that carries it, or 500 when the response model refuses one of
    its fields. *)
Theorem api_get_book_outcomes validate library w bs s :
  catalog (heap w) library = Some bs ->
  Api.get_book_by_isbn validate library s w =
    (match first_with (VStr s) bs with
     | None => Api.Raised (Api.HTTPException 404 (Api.BookNotFound s))
     | Some b =>
         match response_for validate b with
         | Some resp => Api.Return resp
         | None =>
             Api.Raised
               (Api.HTTPException 500 (Api.InternalServerError Api.ValidationError))
         end
     end, w) /\
  (first_with (VStr s) bs = None <-> ~ In (VStr s) (isbns bs)) /\
  (forall b, first_with (VStr s) bs = Some b -> In b bs /\ isbn b = VStr s).
Proof.
  intros Hcat.
  destruct (catalog_inv _ _ _ Hcat) as (fn & bl & items & Hself & Hbl & Hbs).
  pose proof (find_book_run _ _ _ _ _ _ (VStr s) Hself Hbl Hbs) as Hfind.
  pose proof (position_spec (VStr s) bs) as P.
  unfold first_with, Api.get_book_by_isbn.
  destruct (position (VStr s) bs) as [n|] eqn:Hpos.
  - destruct P as (b & Hb & Heq & _).
    destruct (lookup_lt_is_Some_2 items n) as [l Hl].
    { rewrite (length_mapM _ _ _ Hbs). eapply position_lt. exact Hpos. }
    rewrite Hl in Hfind.
    destruct (mapM_lookup _ _ _ _ _ Hbs Hl) as (b' & Hb' & Hat).
    assert (b' = b) as -> by congruence.
    rewrite Hb. split; [|split].
    + pose proof (response_of_run validate w l b Hat) as Hresp.
      destruct (response_for validate b) as [resp|].
      * erewrite api_try_ok; cycle 1.
        { erewrite api_bind_ok; cycle 1.
          { apply call_ok. exact Hfind. }
          exact Hresp. }
        reflexivity.
      * erewrite api_try_raised; cycle 1.
        { erewrite api_bind_ok; cycle 1.
          { apply call_ok. exact Hfind. }
          exact Hresp. }
        reflexivity.
    + split; [discriminate|]. intros Hfresh. exfalso. apply Hfresh.
      eapply position_Some_In. exact Hpos.
    + intros b0 E. inversion E; subst b0. split.
      * apply list_elem_of_In. eapply list_elem_of_lookup_2. exact Hb.
      * apply py_eq_str. exact Heq.
  - split; [|split].
    + erewrite api_try_raised; cycle 1.
      { erewrite api_bind_ok; cycle 1.
        { apply call_ok. exact Hfind. }
        reflexivity. }
      reflexivity.
    + split; [intros _; apply position_None; exact Hpos|reflexivity].
    + intros b E. discriminate E.
Qed.

Lemma api_get_book_outcomes_witness :
  catalog (heap odd_shelf) 1%nat
  = Some [moby; dune;
          mkBook (VInt 1984) (VStr "George Orwell") (VStr "9780451524935")] /\
  Api.get_book_by_isbn strict_str 1%nat "9780441172719" odd_shelf
  = (Api.Return (Api.mkBookResponse "Dune" "Frank Herbert" "9780441172719"),
     odd_shelf) /\
  Api.get_book_by_isbn strict_str 1%nat "9999999999999" odd_shelf
  = (Api.Raised (Api.HTTPException 404 (Api.BookNotFound "9999999999999")),
     odd_shelf) /\
  Api.get_book_by_isbn strict_str 1%nat "9780451524935" odd_shelf
  = (Api.Raised
       (Api.HTTPException 500 (Api.InternalServerError Api.ValidationError)),
     odd_shelf).
Proof.
  split; [reflexivity|]. split; [|split].
  - destruct (api_get_book_outcomes strict_str 1%nat odd_shelf _ "9780441172719"
                eq_refl) as [H _].
    exact H.
  - destruct (api_get_book_outcomes strict_str 1%nat odd_shelf _ "9999999999999"
                eq_refl) as [H _].
    exact H.
  - destruct (api_get_book_outcomes strict_str 1%nat odd_shelf _ "9780451524935"
                eq_refl) as [H _].
    exact H.
Defined.

Lemma list_books_items w self bs :
  catalog (heap w) self = Some bs ->
  exists items,
    list_books self w = (Ok (length (heap w)), set_heap w (heap w ++ [OList items])) /\
    mapM (book_at (heap w ++ [OList items])) items = Some bs /\
    catalog (heap w ++ [OList items]) self = Some bs.
Proof.
  intros Hcat. destruct (list_books_run w self bs Hcat) as (items & Hrun & Hrec & Hcat').
  exists items. split; [exact Hrun|]. split; [|exact Hcat'].
  unfold records in Hrec. rewrite items_at_new in Hrec. exact Hrec.
Qed.

Lemma response_for_strings validate ts :
  (forall s, validate (VStr s) = Some s) ->
  mapM (response_for validate) (new_records ts)
  = Some (map (fun t => Api.mkBookResponse (fst (fst t)) (snd (fst t)) (snd t)) ts).
Proof.
  intros Hstr. apply mapM_Some. induction ts as [|[[t a] i] ts IH]; simpl.
  - constructor.
  - constructor; [|exact IH]. unfold response_for. simpl. rewrite !Hstr. reflexivity.
Qed.

(** X20.  [GET /books] answers with the records as responses, in the
    order of the sequence, when the response model accepts every field
    of every record; a single record with a refused field (a value that
    is not a string, as a file can hold it) makes the whole listing
    answer 500.  Neither the sequence nor the files change. *)
Theorem api_get_all_books_outcomes validate library w bs :
  catalog (heap w) library = Some bs ->
  exists w',
    Api.get_all_books validate library w =
      (match mapM (response_for validate) bs with
       | Some rs => Api.Return rs
       | None =>
           Api.Raised
             (Api.HTTPException 500 (Api.InternalServerError Api.ValidationError))
       end, w') /\
    catalog (heap w') library = Some bs /\ files w' = files w /\
    ((forall s, validate (VStr s) = Some s) ->
     forall ts, bs = new_records ts ->
       mapM (response_for validate) bs
       = Some (map (fun t => Api.mkBookResponse (fst (fst t)) (snd (fst t)) (snd t))
                 ts)).
Proof.
  intros Hcat.
  destruct (list_books_items w library bs Hcat) as (items & Hlist & Hbs & Hcat').
  set (w1 := set_heap w (heap w ++ [OList items])) in *.
  exists w1. split; [|split; [exact Hcat'|split; [reflexivity|]]].
  - assert (list_items (length (heap w)) w1 = (Ok items, w1)) as Hitems
      by (apply list_items_run; apply items_at_new).
    pose proof (responses_run validate w1 items bs Hbs) as Hresp.
    unfold Api.get_all_books.
    destruct (mapM (response_for validate) bs) as [rs|].
    + erewrite api_try_ok; cycle 1.
      { erewrite api_bind_ok; cycle 1.
        { apply call_ok. exact Hlist. }
        erewrite api_bind_ok; cycle 1.
        { apply call_ok. exact Hitems. }
        exact Hresp. }
      reflexivity.
    + erewrite api_try_raised; cycle 1.
      { erewrite api_bind_ok; cycle 1.
        { apply call_ok. exact Hlist. }
        erewrite api_bind_ok; cycle 1.
        { apply call_ok. exact Hitems. }
        exact Hresp. }
      reflexivity.
  - intros Hstr ts ->. apply response_for_strings. exact Hstr.
Qed.

Lemma api_get_all_books_outcomes_witness :
  (catalog (heap shelf) 1%nat = Some [moby; dune] /\
   catalog (heap odd_shelf) 1%nat
   = Some [moby; dune;
           mkBook (VInt 1984) (VStr "George Orwell") (VStr "9780451524935")]) /\
  fst (Api.get_all_books strict_str 1%nat shelf)
  = Api.Return [Api.mkBookResponse "Moby Dick" "Herman Melville" "9780142437247";
                Api.mkBookResponse "Dune" "Frank Herbert" "9780441172719"] /\
  fst (Api.get_all_books strict_str 1%nat odd_shelf)
  = Api.Raised (Api.HTTPException 500 (Api.InternalServerError Api.ValidationError)).
Proof.
  split; [split; reflexivity|]. split.
  - destruct (api_get_all_books_outcomes strict_str 1%nat shelf [moby; dune] eq_refl)
      as (w' & Hrun & _).
    rewrite Hrun. reflexivity.
  - destruct (api_get_all_books_outcomes strict_str 1%nat odd_shelf _ eq_refl)
      as (w' & Hrun & _).
    rewrite Hrun. reflexivity.
Defined.

(** X21.  [GET /health] answers ["healthy"] with the number of records of
    the sequence as [book_count], whatever the records hold, also when
    [GET /books] on the same catalogue answers 500; the sequence and the
    files do not change. *)
Theorem api_health_counts_records library w bs :
  catalog (heap w) library = Some bs ->
  exists w',
    Api.health_check library w
    = (Api.Return
         (Api.mkHealth "healthy" "Library Management System is running" (length bs)),
       w') /\
    catalog (heap w') library = Some bs /\ files w' = files w.
Proof.
  intros Hcat.
  destruct (list_books_items w library bs Hcat) as (items & Hlist & Hbs & Hcat').
  set (w1 := set_heap w (heap w ++ [OList items])) in *.
  exists w1. split; [|split; [exact Hcat'|reflexivity]].
  assert (list_items (length (heap w)) w1 = (Ok items, w1)) as Hitems
    by (apply list_items_run; apply items_at_new).
  unfold Api.health_check.
  erewrite api_try_ok; cycle 1.
  { erewrite api_bind_ok; cycle 1.
    { apply call_ok. exact Hlist. }
    erewrite api_bind_ok; cycle 1.
    { apply call_ok. exact Hitems. }
    reflexivity. }
  rewrite (length_mapM _ _ _ Hbs). reflexivity.
Qed.

Lemma api_health_counts_records_witness :
  catalog (heap odd_shelf) 1%nat
  = Some [moby; dune;
          mkBook (VInt 1984) (VStr "George Orwell") (VStr "9780451524935")] /\
  fst (Api.health_check 1%nat odd_shelf)
  = Api.Return
      (Api.mkHealth "healthy" "Library Management System is running" 3%nat).
Proof.
  split; [reflexivity|].
  destruct (api_health_counts_records 1%nat odd_shelf _ eq_refl) as (w' & Hrun & _).
  rewrite Hrun. reflexivity.
Defined.

(** ** Endpoints as catalogue requests *)

Lemma read_only_attr_title l : read_only (attr_title l).
Proof. unfold attr_title. reads. Qed.

Lemma read_only_attr_author l : read_only (attr_author l).
Proof. unfold attr_author. reads. Qed.

(** An endpoint computation that leaves the world as it is. *)
Lemma response_of_world validate book w :
  snd (Api.response_of validate book w) = w.
Proof.
  unfold Api.response_of, Api.bind, Api.call, Api.BookResponse_init.
  pose proof (read_only_attr_title book w) as Ht.
  destruct (attr_title book w) as [[t|e] w1]; simpl in Ht; subst w1; [|reflexivity].
  pose proof (read_only_attr_author book w) as Ha.
  destruct (attr_author book w) as [[a|e] w1]; simpl in Ha; subst w1; [|reflexivity].
  pose proof (read_only_attr_isbn book w) as Hi.
  destruct (attr_isbn book w) as [[i|e] w1]; simpl in Hi; subst w1; [|reflexivity].
  destruct (validate t); [|reflexivity].
  destruct (validate a); [|reflexivity].
  destruct (validate i); reflexivity.
Qed.

Lemma responses_world validate items : forall w,
  snd (Api.comprehension (Api.response_of validate) items w) = w.
Proof.
  induction items as [|l items IH]; intros w; [reflexivity|].
  simpl. unfold Api.bind at 1.
  pose proof (response_of_world validate l w) as Hl.
  destruct (Api.response_of validate l w) as [[r|e] w1]; simpl in Hl; subst w1;
    [|reflexivity].
  unfold Api.bind. pose proof (IH w) as Hrest.
  destruct (Api.comprehension (Api.response_of validate) items w) as [[rs|e] w1];
    simpl in Hrest; subst w1; reflexivity.
Qed.

Lemma handle_serve validate library r w :
  handle validate library r w = snd (serve library (request_of r) w).
Proof.
  destruct r as [|i|i|i|]; simpl; rewrite snd_then_ret.
  - unfold Api.get_all_books, Api.try_except, Api.bind, Api.call.
    destruct (list_books library w) as [[books|e] w1]; [|reflexivity]. simpl.
    pose proof (read_only_list_items books w1) as Hitems.
    destruct (list_items books w1) as [[items|e] w2]; simpl in Hitems; subst w2;
      [|reflexivity].
    pose proof (responses_world validate items w1) as Hresp.
    destruct (Api.comprehension (Api.response_of validate) items w1) as [[rs|e] w2];
      simpl in Hresp; subst w2; reflexivity.
  - unfold Api.add_book_by_isbn, Api.try_except, Api.bind, Api.call.
    destruct (add_book_by_isbn library (VStr i) w) as [[book|e] w1]; simpl.
    + pose proof (response_of_world validate book w1) as Hresp.
      destruct (Api.response_of validate book w1) as [[resp|e] w2];
        simpl in Hresp; subst w2; [reflexivity|].
      destruct (Api.is_ValueError e); [reflexivity|].
      destruct (Api.is_ConnectionError e); reflexivity.
    + destruct e; reflexivity.
  - unfold Api.get_book_by_isbn, Api.try_except, Api.bind, Api.call.
    destruct (find_book library (VStr i) w) as [[[book|]|e] w1]; simpl;
      [|reflexivity|reflexivity].
    pose proof (response_of_world validate book w1) as Hresp.
    destruct (Api.response_of validate book w1) as [[resp|e] w2];
      simpl in Hresp; subst w2; [reflexivity|].
    destruct e; reflexivity.
  - unfold Api.delete_book, Api.try_except, Api.bind, Api.call.
    destruct (remove_book library (VStr i) w) as [[[|]|e] w1]; reflexivity.
  - unfold Api.health_check, Api.try_except, Api.bind, Api.call.
    destruct (list_books library w) as [[books|e] w1]; [|reflexivity]. simpl.
    pose proof (read_only_list_items books w1) as Hitems.
    destruct (list_items books w1) as [[items|e] w2]; simpl in Hitems; subst w2;
      reflexivity.
Qed.

Lemma handle_all_serve_all validate library rs : forall w,
  handle_all validate library rs w = serve_all library (map request_of rs) w.
Proof.
  induction rs as [|r rs IH]; intros w; [reflexivity|].
  simpl. rewrite handle_serve. apply IH.
Qed.

(** X22.  The HTTP front end keeps the ISBNs of its catalogue pairwise
    distinct: what an endpoint does to the world is what the one
    catalogue method it calls does, whatever it answers, so after any
    sequence of requests, answered 200 or with an error, a catalogue that
    started with pairwise distinct ISBNs still has pairwise distinct
    ISBNs. *)
Theorem api_session_keeps_isbns_unique validate library rs w :
  unique_isbns w library ->
  handle_all validate library rs w = serve_all library (map request_of rs) w /\
  unique_isbns (handle_all validate library rs w) library.
Proof.
  intros Hinv. split; [apply handle_all_serve_all|].
  revert w Hinv. induction rs as [|r rs IH]; intros w Hinv; [exact Hinv|].
  simpl. apply IH. rewrite handle_serve. apply serve_unique. exact Hinv.
Qed.

Lemma api_session_keeps_isbns_unique_witness :
  unique_isbns shelf 1%nat /\
  unique_isbns (handle_all strict_str 1%nat http_session shelf) 1%nat /\
  catalog (heap (handle_all strict_str 1%nat http_session shelf)) 1%nat
  = Some [dune; gatsby].
Proof.
  assert (unique_isbns shelf 1%nat) as Hinv.
  { exists "library.json", [moby; dune].
    split; [reflexivity|]. split; [reflexivity|exact shelf_unique]. }
  split; [exact Hinv|]. split.
  - apply (api_session_keeps_isbns_unique strict_str 1%nat http_session shelf Hinv).
  - vm_compute. reflexivity.
Defined.

(** * The console front end *)

Lemma consumes_ret {A} (a : A) : consumes (Main.ret a).
Proof. intros st. simpl. lia. Qed.

Lemma consumes_raise {A} e : consumes (@Main.raise A e).
Proof. intros st. simpl. lia. Qed.

Lemma consumes_print l : consumes (Main.print l).
Proof. intros st. simpl. lia. Qed.

Lemma consumes_input p : consumes (Main.input p).
Proof. intros st. unfold Main.input. destruct (Main.stdin (snd st)); simpl; lia. Qed.

Lemma consumes_call {A} (m : M A) : consumes (Main.call m).
Proof.
  intros st. unfold Main.call. destruct (m (fst st)) as [[a|e] w']; simpl; lia.
Qed.

Lemma consumes_bind {A B} (m : Main.prog A) (k : A -> Main.prog B) :
  consumes m -> (forall a, consumes (k a)) -> consumes (Main.bind m k).
Proof.
  intros Hm Hk st. unfold Main.bind. specialize (Hm st).
  destruct (m st) as [[a|e] st1]; simpl in *; [|exact Hm].
  specialize (Hk a st1). lia.
Qed.

Lemma consumes_try {A} (m : Main.prog A) h :
  consumes m -> (forall e, consumes (h e)) -> consumes (Main.try_except m h).
Proof.
  intros Hm Hh st. unfold Main.try_except. specialize (Hm st).
  destruct (m st) as [[a|e] st1]; simpl in *; [exact Hm|].
  specialize (Hh e st1). lia.
Qed.

Create HintDb console.
#[local] Hint Resolve consumes_ret consumes_raise consumes_print consumes_input
  consumes_call : console.

Ltac consuming :=
  repeat first
    [ progress intros
    | solve [auto with console]
    | apply consumes_bind
    | apply consumes_try
    | match goal with
      | |- consumes (match ?x with _ => _ end) => destruct x
      end ].

Lemma consumes_read strip p : consumes (Main.read strip p).
Proof. unfold Main.read. consuming. Qed.

#[local] Hint Resolve consumes_read : console.

Lemma consumes_report e : consumes (Main.report e).
Proof. unfold Main.report. consuming. Qed.

#[local] Hint Resolve consumes_report : console.

Lemma consumes_add_book strip library : consumes (Main.add_book strip library).
Proof. unfold Main.add_book. consuming. Qed.

Lemma consumes_remove_book strip library : consumes (Main.remove_book strip library).
Proof. unfold Main.remove_book. consuming. Qed.

Lemma consumes_print_books books : forall i, consumes (Main.print_books i books).
Proof. induction books as [|b books IH]; intros i; simpl; consuming. Qed.

#[local] Hint Resolve consumes_print_books : console.

Lemma consumes_list_books library : consumes (Main.list_books library).
Proof. unfold Main.list_books. consuming. Qed.

Lemma consumes_search_book strip library : consumes (Main.search_book strip library).
Proof. unfold Main.search_book. consuming. Qed.

Lemma total_ret {A} (a : A) : total (Main.ret a).
Proof. intros st. exists a. reflexivity. Qed.

Lemma total_print l : total (Main.print l).
Proof. intros st. exists tt. reflexivity. Qed.

Lemma total_bind {A B} (m : Main.prog A) (k : A -> Main.prog B) :
  total m -> (forall a, total (k a)) -> total (Main.bind m k).
Proof.
  intros Hm Hk st. unfold Main.bind. destruct (Hm st) as [a Ha].
  destruct (m st) as [[a'|e] st1]; simpl in Ha; [|discriminate].
  apply Hk.
Qed.

(** A [try] whose handlers catch everything and end normally ends
    normally, whatever its body does. *)
Lemma total_try {A} (m : Main.prog A) h :
  (forall e, total (h e)) -> total (Main.try_except m h).
Proof.
  intros Hh st. unfold Main.try_except.
  destruct (m st) as [[a|e] st1]; [exists a; reflexivity|apply Hh].
Qed.

#[local] Hint Resolve total_ret total_print : console.

Ltac ending :=
  repeat first
    [ progress intros
    | solve [auto with console]
    | apply total_bind
    | apply total_try
    | match goal with
      | |- total (match ?x with _ => _ end) => destruct x
      end ].

Lemma total_display_menu : total Main.display_menu.
Proof. unfold Main.display_menu. ending. Qed.

Lemma total_report e : total (Main.report e).
Proof. unfold Main.report. ending. Qed.

#[local] Hint Resolve total_report : console.

Lemma total_add_book strip library : total (Main.add_book strip library).
Proof. unfold Main.add_book. ending. Qed.

Lemma total_remove_book strip library : total (Main.remove_book strip library).
Proof. unfold Main.remove_book. ending. Qed.

Lemma total_list_books library : total (Main.list_books library).
Proof. unfold Main.list_books. ending. Qed.

Lemma total_search_book strip library : total (Main.search_book strip library).
Proof. unfold Main.search_book. ending. Qed.

Lemma total_turn strip library : total (Main.turn strip library).
Proof. unfold Main.turn. ending. Qed.

Lemma display_menu_run st :
  exists out,
    Main.display_menu st = (Main.Done tt, (fst st, Main.mkConsole (Main.stdin (snd st)) out)).
Proof. eexists. reflexivity. Qed.

(** A menu action run to its end: it ends normally and does not add to
    the input. *)
Lemma action_run (m : Main.prog unit) st :
  total m -> consumes m ->
  exists st', m st = (Main.Done tt, st') /\
              (length (Main.stdin (snd st')) <= length (Main.stdin (snd st)))%nat.
Proof.
  intros Ht Hc. destruct (Ht st) as [[] Ha]. specialize (Hc st).
  destruct (m st) as [r st']. simpl in *. subst r. exists st'. auto.
Qed.

(** One turn either ends the loop or has read at least one line. *)
Lemma turn_run strip library st :
  exists again st',
    Main.turn strip library st = (Main.Done again, st') /\
    (again = true ->
     (length (Main.stdin (snd st')) < length (Main.stdin (snd st)))%nat).
Proof.
  destruct st as [w [ins out]]. unfold Main.turn, Main.try_except.
  destruct (display_menu_run (w, Main.mkConsole ins out)) as [out1 Hmenu].
  unfold Main.bind at 1. rewrite Hmenu. simpl fst. simpl Main.stdin.
  unfold Main.bind at 1, Main.read at 1, Main.bind at 1, Main.input. simpl.
  destruct ins as [|s ins].
  - simpl. eexists _, _. split; [reflexivity|]. discriminate.
  - simpl.
    set (st1 := (w, Main.mkConsole ins (out1 ++ [Main.Prompt "Enter your choice (1-5): "]))).
    assert (forall m : Main.prog unit, total m -> consumes m ->
              exists st',
                (Main.bind m (fun _ => Main.ret true)) st1 = (Main.Done true, st') /\
                (length (Main.stdin (snd st')) < S (length ins))%nat) as Hact.
    { intros m Ht Hc. destruct (action_run m st1 Ht Hc) as (st' & Hrun & Hlen).
      exists st'. unfold Main.bind. rewrite Hrun. split; [reflexivity|].
      simpl in Hlen. lia. }
    destruct (String.eqb (strip s) "1").
    { destruct (Hact _ (total_add_book strip library) (consumes_add_book strip library))
        as (st' & -> & Hlen). eauto. }
    destruct (String.eqb (strip s) "2").
    { destruct (Hact _ (total_remove_book strip library)
                  (consumes_remove_book strip library)) as (st' & -> & Hlen). eauto. }
    destruct (String.eqb (strip s) "3").
    { destruct (Hact _ (total_list_books library) (consumes_list_books library))
        as (st' & -> & Hlen). eauto. }
    destruct (String.eqb (strip s) "4").
    { destruct (Hact _ (total_search_book strip library)
                  (consumes_search_book strip library)) as (st' & -> & Hlen). eauto. }
    destruct (String.eqb (strip s) "5").
    { eexists _, _. split; [reflexivity|]. discriminate. }
    eexists _, _. split; [reflexivity|]. intros _. simpl. lia.
Qed.

Lemma loop_run strip library fuel : forall st,
  (length (Main.stdin (snd st)) < fuel)%nat ->
  exists st', Main.loop strip fuel library st = (Main.Done true, st').
Proof.
  induction fuel as [|fuel IH]; intros st Hlen; [lia|].
  simpl. destruct (turn_run strip library st) as (again & st1 & Hturn & Hless).
  unfold Main.bind. rewrite Hturn. destruct again.
  - apply IH. specialize (Hless eq_refl). lia.
  - eexists. reflexivity.
Qed.

(** X23.  The console program ends on every input: run for one turn more
    than there are lines to read, [main] ends normally, whatever the
    world, the file and the lines are; no exception leaves it and the
    loop does not go on after the input is exhausted. *)
Theorem main_terminates strip w c :
  exists st',
    Main.main strip (S (length (Main.stdin c))) (w, c) = (Main.Done true, st').
Proof.
  unfold Main.main, Main.bind, Main.try_except, Main.call, Main.print, Main.ret.
  cbn [fst snd Main.stdin Main.stdout].
  destruct (Library_init "library.json" w) as [[library|e] w1].
  - apply loop_run. simpl. lia.
  - eexists. reflexivity.
Qed.

(** ** The console program as a sequence of requests *)

Lemma serve_all_app self rs1 : forall rs2 w,
  serve_all self (rs1 ++ rs2) w = serve_all self rs2 (serve_all self rs1 w).
Proof. induction rs1 as [|r rs1 IH]; intros rs2 w; simpl; [reflexivity|apply IH]. Qed.

Lemma serve_all_unique self rs : forall w,
  unique_isbns w self -> unique_isbns (serve_all self rs w) self.
Proof.
  induction rs as [|r rs IH]; intros w Hinv; [exact Hinv|].
  simpl. apply IH. apply serve_unique. exact Hinv.
Qed.

Section requests.
Context (library : loc).

Lemma requests_only_ret {A} (a : A) : requests_only library (Main.ret a).
Proof. intros st. exists []. reflexivity. Qed.

Lemma requests_only_raise {A} e : requests_only library (@Main.raise A e).
Proof. intros st. exists []. reflexivity. Qed.

Lemma requests_only_print l : requests_only library (Main.print l).
Proof. intros st. exists []. reflexivity. Qed.

Lemma requests_only_input p : requests_only library (Main.input p).
Proof.
  intros st. exists []. unfold Main.input. destruct (Main.stdin (snd st)); reflexivity.
Qed.

Lemma requests_only_bind {A B} (m : Main.prog A) (k : A -> Main.prog B) :
  requests_only library m -> (forall a, requests_only library (k a)) ->
  requests_only library (Main.bind m k).
Proof.
  intros Hm Hk st. unfold Main.bind. destruct (Hm st) as [rs1 H1].
  destruct (m st) as [[a|e] st1]; simpl in H1; [|exists rs1; exact H1].
  destruct (Hk a st1) as [rs2 H2]. exists (rs1 ++ rs2).
  rewrite serve_all_app, <- H1. exact H2.
Qed.

Lemma requests_only_try {A} (m : Main.prog A) h :
  requests_only library m -> (forall e, requests_only library (h e)) ->
  requests_only library (Main.try_except m h).
Proof.
  intros Hm Hh st. unfold Main.try_except. destruct (Hm st) as [rs1 H1].
  destruct (m st) as [[a|e] st1]; simpl in H1; [exists rs1; exact H1|].
  destruct (Hh e st1) as [rs2 H2]. exists (rs1 ++ rs2).
  rewrite serve_all_app, <- H1. exact H2.
Qed.

Lemma requests_only_call_read {A} (m : M A) :
  read_only m -> requests_only library (Main.call m).
Proof.
  intros Hm st. exists []. unfold Main.call. specialize (Hm (fst st)).
  destruct (m (fst st)) as [[a|e] w']; simpl in *; exact Hm.
Qed.

(** A call whose effect on the world is that of a request. *)
Lemma requests_only_call_serve {A} (m : M A) r :
  (forall w, snd (m w) = snd (serve library r w)) ->
  requests_only library (Main.call m).
Proof.
  intros Hm st. exists [r]. unfold Main.call. specialize (Hm (fst st)).
  destruct (m (fst st)) as [[a|e] w']; simpl in *; exact Hm.
Qed.

Lemma requests_only_call_remove i :
  requests_only library (Main.call (remove_book library (VStr i))).
Proof.
  apply (requests_only_call_serve _ (ReqRemove i)). intros w. simpl.
  symmetry. apply snd_then_ret.
Qed.

Lemma requests_only_call_lookup i :
  requests_only library (Main.call (add_book_by_isbn library (VStr i))).
Proof.
  apply (requests_only_call_serve _ (ReqLookup i)). intros w. simpl.
  symmetry. apply snd_then_ret.
Qed.

Lemma requests_only_call_list :
  requests_only library (Main.call (list_books library)).
Proof.
  apply (requests_only_call_serve _ ReqList). intros w. simpl.
  symmetry. apply snd_then_ret.
Qed.

(** Creating the record and adding it, the two calls of a manual add. *)
Lemma requests_only_call_add {B} t a i (k : unit -> Main.prog B) :
  (forall x, requests_only library (k x)) ->
  requests_only library
    (Main.bind (Main.call (Book_init (VStr t) (VStr a) (VStr i)))
       (fun book => Main.bind (Main.call (add_book library book)) k)).
Proof.
  intros Hk st. unfold Main.bind at 1, Main.call at 1, Book_init.
  rewrite alloc_run. cbn [fst snd].
  set (w1 := set_heap (fst st) (heap (fst st) ++ [OBook (mkBook (VStr t) (VStr a) (VStr i))])).
  assert (serve library (ReqAdd t a i) (fst st)
          = add_book library (length (heap (fst st))) w1) as Hserve
    by (unfold serve, Book_init; apply bind_ok, alloc_run).
  unfold Main.bind, Main.call. cbn [fst snd].
  destruct (add_book library (length (heap (fst st))) w1) as [[[]|e] w2].
  - destruct (Hk tt (w2, snd st)) as [rs Hrs]. exists (ReqAdd t a i :: rs).
    change (serve_all library (ReqAdd t a i :: rs) (fst st))
      with (serve_all library rs (snd (serve library (ReqAdd t a i) (fst st)))).
    rewrite Hserve. exact Hrs.
  - exists [ReqAdd t a i].
    change (serve_all library [ReqAdd t a i] (fst st))
      with (snd (serve library (ReqAdd t a i) (fst st))).
    rewrite Hserve. reflexivity.
Qed.

#[local] Hint Resolve read_only_find_book read_only_attr_title read_only_attr_author
  : reads.

Create HintDb requests.
#[local] Hint Resolve requests_only_ret requests_only_raise requests_only_print
  requests_only_input requests_only_call_remove requests_only_call_lookup
  requests_only_call_list : requests.

Ltac requesting :=
  repeat first
    [ progress intros
    | solve [auto with requests]
    | solve [apply requests_only_call_read; auto with reads]
    | apply requests_only_call_add
    | apply requests_only_bind
    | apply requests_only_try
    | match goal with
      | |- requests_only _ (match ?x with _ => _ end) => destruct x
      end ].

Lemma requests_only_read strip p : requests_only library (Main.read strip p).
Proof. unfold Main.read. requesting. Qed.

#[local] Hint Resolve requests_only_read : requests.

Lemma requests_only_display_menu : requests_only library Main.display_menu.
Proof. unfold Main.display_menu. requesting. Qed.

Lemma requests_only_report e : requests_only library (Main.report e).
Proof. unfold Main.report. requesting. Qed.

#[local] Hint Resolve requests_only_report : requests.

Lemma requests_only_add_book strip :
  requests_only library (Main.add_book strip library).
Proof. unfold Main.add_book. requesting. Qed.

Lemma requests_only_remove_book strip :
  requests_only library (Main.remove_book strip library).
Proof. unfold Main.remove_book. requesting. Qed.

Lemma requests_only_print_books books : forall i,
  requests_only library (Main.print_books i books).
Proof. induction books as [|b books IH]; intros i; simpl; requesting. Qed.

#[local] Hint Resolve requests_only_print_books : requests.

Lemma requests_only_list_books : requests_only library (Main.list_books library).
Proof. unfold Main.list_books. requesting. Qed.

Lemma requests_only_search_book strip :
  requests_only library (Main.search_book strip library).
Proof. unfold Main.search_book. requesting. Qed.

#[local] Hint Resolve requests_only_display_menu requests_only_add_book
  requests_only_remove_book requests_only_list_books requests_only_search_book
  : requests.

Lemma requests_only_turn strip : requests_only library (Main.turn strip library).
Proof. unfold Main.turn. requesting. Qed.

Lemma requests_only_loop strip fuel : requests_only library (Main.loop strip fuel library).
Proof.
  induction fuel as [|fuel IH]; simpl.
  - apply requests_only_ret.
  - apply requests_only_bind; [apply requests_only_turn|].
    intros [|]; [exact IH|apply requests_only_ret].
Qed.
End requests.

Lemma main_run strip fuel w c library w1 :
  Library_init "library.json" w = (Ok library, w1) ->
  Main.main strip fuel (w, c) =
    Main.loop strip fuel library
      (w1, Main.mkConsole (Main.stdin c)
             ((Main.stdout c
               ++ [Main.Text "Initializing Library Management System..."])
              ++ [Main.Text "Library loaded successfully!"])).
Proof.
  intros Hinit.
  unfold Main.main, Main.bind, Main.try_except, Main.call, Main.print, Main.ret.
  cbn [fst snd Main.stdin Main.stdout]. rewrite Hinit. reflexivity.
Qed.

(** X24.  Whatever is typed, what the console program does to the world
    after the catalogue has been constructed is what a sequence of add,
    remove, lookup, find and list requests to that one catalogue does;
    so a catalogue constructed with pairwise distinct ISBNs has pairwise
    distinct ISBNs when the program ends. *)
Theorem console_run_is_request_sequence strip fuel w c library w1 :
  Library_init "library.json" w = (Ok library, w1) ->
  exists rs,
    fst (snd (Main.main strip fuel (w, c))) = serve_all library rs w1 /\
    (unique_isbns w1 library ->
     unique_isbns (fst (snd (Main.main strip fuel (w, c)))) library).
Proof.
  intros Hinit. rewrite (main_run strip fuel w c library w1 Hinit).
  destruct (requests_only_loop library strip fuel
              (w1, Main.mkConsole (Main.stdin c)
                     ((Main.stdout c
                       ++ [Main.Text "Initializing Library Management System..."])
                      ++ [Main.Text "Library loaded successfully!"])))
    as [rs Hrs].
  exists rs. split; [exact Hrs|].
  intros Hinv. rewrite Hrs. apply serve_all_unique. exact Hinv.
Qed.

Lemma console_run_is_request_sequence_witness :
  Library_init "library.json" (on_disk (Document (to_json [moby; dune])))
  = (Ok 1%nat, loaded_shelf) /\
  (exists rs,
     fst (snd (Main.main (fun s => s) 20
                 (on_disk (Document (to_json [moby; dune])),
                  Main.mkConsole typed [])))
     = serve_all 1%nat rs loaded_shelf) /\
  catalog
    (heap (fst (snd (Main.main (fun s => s) 20
                       (on_disk (Document (to_json [moby; dune])),
                        Main.mkConsole typed []))))) 1%nat
  = Some [moby; dune; gatsby].
Proof.
  split; [vm_compute; reflexivity|]. split.
  - destruct (console_run_is_request_sequence (fun s => s) 20
                (on_disk (Document (to_json [moby; dune])))
                (Main.mkConsole typed []) 1%nat loaded_shelf
                ltac:(vm_compute; reflexivity)) as (rs & Hrs & _).
    exists rs. exact Hrs.
  - vm_compute. reflexivity.
Defined.

(** ** The menu actions, run *)

Lemma main_bind_done {A B} (m : Main.prog A) (k : A -> Main.prog B) st a st' :
  m st = (Main.Done a, st') -> Main.bind m k st = k a st'.
Proof. intros H. unfold Main.bind. rewrite H. reflexivity. Qed.

Lemma main_bind_raised {A B} (m : Main.prog A) (k : A -> Main.prog B) st e st' :
  m st = (Main.Raised e, st') -> Main.bind m k st = (Main.Raised e, st').
Proof. intros H. unfold Main.bind. rewrite H. reflexivity. Qed.

Lemma main_try_done {A} (m : Main.prog A) h st a st' :
  m st = (Main.Done a, st') -> Main.try_except m h st = (Main.Done a, st').
Proof. intros H. unfold Main.try_except. rewrite H. reflexivity. Qed.

Lemma main_try_raised {A} (m : Main.prog A) h st e st' :
  m st = (Main.Raised e, st') -> Main.try_except m h st = h e st'.
Proof. intros H. unfold Main.try_except. rewrite H. reflexivity. Qed.

Lemma main_call_ok {A} (m : M A) w c a w' :
  m w = (Ok a, w') -> Main.call m (w, c) = (Main.Done a, (w', c)).
Proof. intros H. unfold Main.call. simpl. rewrite H. reflexivity. Qed.

Lemma main_call_raise {A} (m : M A) w c e w' :
  m w = (Raise e, w') -> Main.call m (w, c) = (Main.Raised (Main.Py e), (w', c)).
Proof. intros H. unfold Main.call. simpl. rewrite H. reflexivity. Qed.

Lemma print_run l w ins out :
  Main.print l (w, Main.mkConsole ins out)
  = (Main.Done tt, (w, Main.mkConsole ins (out ++ [l]))).
Proof. reflexivity. Qed.

Lemma read_line strip p w s ins out :
  Main.read strip p (w, Main.mkConsole (s :: ins) out)
  = (Main.Done (strip s), (w, Main.mkConsole ins (out ++ [Main.Prompt p]))).
Proof. reflexivity. Qed.

Ltac printed := erewrite main_bind_done; [|apply print_run].
Ltac line_read := erewrite main_bind_done; [|apply read_line].

(** X25.  A field left blank never reaches the catalogue: when the ISBN
    typed for a removal, a search or a lookup, or the title, the author
    or the ISBN typed for a manual add is empty once stripped, the action
    prints that the field cannot be empty and returns; the lines typed up
    to there are consumed and the world is as it was. *)
Theorem blank_fields_never_reach_catalogue
  strip library w ins out blank one two lt la :
  strip blank = EmptyString ->
  strip one = "1" -> strip two = "2" ->
  strip lt <> EmptyString -> strip la <> EmptyString ->
  (exists out',
     Main.remove_book strip library (w, Main.mkConsole (blank :: ins) out)
     = (Main.Done tt,
        (w, Main.mkConsole ins (out' ++ [Main.Text "Error: ISBN cannot be empty"])))) /\
  (exists out',
     Main.search_book strip library (w, Main.mkConsole (blank :: ins) out)
     = (Main.Done tt,
        (w, Main.mkConsole ins (out' ++ [Main.Text "Error: ISBN cannot be empty"])))) /\
  (exists out',
     Main.add_book strip library (w, Main.mkConsole (one :: blank :: ins) out)
     = (Main.Done tt,
        (w, Main.mkConsole ins (out' ++ [Main.Text "Error: Title cannot be empty"])))) /\
  (exists out',
     Main.add_book strip library (w, Main.mkConsole (one :: lt :: blank :: ins) out)
     = (Main.Done tt,
        (w, Main.mkConsole ins (out' ++ [Main.Text "Error: Author cannot be empty"])))) /\
  (exists out',
     Main.add_book strip library
       (w, Main.mkConsole (one :: lt :: la :: blank :: ins) out)
     = (Main.Done tt,
        (w, Main.mkConsole ins (out' ++ [Main.Text "Error: ISBN cannot be empty"])))) /\
  (exists out',
     Main.add_book strip library (w, Main.mkConsole (two :: blank :: ins) out)
     = (Main.Done tt,
        (w, Main.mkConsole ins (out' ++ [Main.Text "Error: ISBN cannot be empty"])))).
Proof.
  intros Hblank Hone Htwo Ht Ha.
  assert (String.eqb (strip lt) EmptyString = false) as Ht'
    by (apply String.eqb_neq; exact Ht).
  assert (String.eqb (strip la) EmptyString = false) as Ha'
    by (apply String.eqb_neq; exact Ha).
  split; [|split; [|split; [|split; [|split]]]].
  - eexists. unfold Main.remove_book. printed.
    erewrite main_try_done; [reflexivity|].
    line_read. rewrite Hblank. apply print_run.
  - eexists. unfold Main.search_book. printed.
    erewrite main_try_done; [reflexivity|].
    line_read. rewrite Hblank. apply print_run.
  - eexists. unfold Main.add_book. do 4 printed.
    erewrite main_try_done; [reflexivity|].
    line_read. rewrite Hone. rewrite String.eqb_refl.
    line_read. rewrite Hblank. apply print_run.
  - eexists. unfold Main.add_book. do 4 printed.
    erewrite main_try_done; [reflexivity|].
    line_read. rewrite Hone. rewrite String.eqb_refl.
    line_read. rewrite Ht'.
    line_read. rewrite Hblank. apply print_run.
  - eexists. unfold Main.add_book. do 4 printed.
    erewrite main_try_done; [reflexivity|].
    line_read. rewrite Hone. rewrite String.eqb_refl.
    line_read. rewrite Ht'.
    line_read. rewrite Ha'.
    line_read. rewrite Hblank. apply print_run.
  - eexists. unfold Main.add_book. do 4 printed.
    erewrite main_try_done; [reflexivity|].
    line_read. rewrite Htwo.
    change (String.eqb "2" "1") with false. rewrite String.eqb_refl.
    line_read. rewrite Hblank. apply print_run.
Qed.

Lemma blank_fields_never_reach_catalogue_witness :
  exists out',
    Main.add_book (fun s => s) 1%nat
      (shelf, Main.mkConsole ["1"; "Dune"; "Frank Herbert"; ""; "5"] [])
    = (Main.Done tt,
       (shelf, Main.mkConsole ["5"]
                 (out' ++ [Main.Text "Error: ISBN cannot be empty"]))).
Proof.
  destruct (blank_fields_never_reach_catalogue (fun s => s) 1%nat shelf ["5"] []
              "" "1" "2" "Dune" "Frank Herbert" eq_refl eq_refl eq_refl
              ltac:(discriminate) ltac:(discriminate))
    as (_ & _ & _ & _ & H & _).
  exact H.
Defined.

Lemma print_books_run w ins items : forall bs i out,
  mapM (book_at (heap w)) items = Some bs ->
  Main.print_books i items (w, Main.mkConsole ins out)
  = (Main.Done tt, (w, Main.mkConsole ins (out ++ numbered i bs))).
Proof.
  induction items as [|l items IH]; intros bs i out Hbs.
  - inversion Hbs; subst. simpl. rewrite app_nil_r. reflexivity.
  - apply mapM_Some in Hbs. inversion Hbs as [|? b ? bs' Hb Hrest]; subst.
    apply mapM_Some in Hrest. simpl.
    erewrite main_bind_done; [|apply main_call_ok; apply book_of_run; exact Hb].
    printed. rewrite (IH bs' (S i) _ Hrest). rewrite <- app_assoc. reflexivity.
Qed.

(** X26.  The listing of the console shows the catalogue as it is: for an
    empty sequence the line that there are no books, otherwise the
    number of records and every record, numbered from 1, in the order of
    the sequence.  It reads no input and changes neither the sequence nor
    the files. *)
Theorem console_list_shows_sequence library w c bs :
  catalog (heap w) library = Some bs ->
  exists w',
    Main.list_books library (w, c)
    = (Main.Done tt,
       (w', Main.mkConsole (Main.stdin c)
              ((Main.stdout c ++ [Main.Text (Main.nl ++ "--- All Books ---")])
               ++ listing bs))) /\
    catalog (heap w') library = Some bs /\ files w' = files w.
Proof.
  intros Hcat. destruct c as [ins out].
  destruct (list_books_items w library bs Hcat) as (items & Hlist & Hbs & Hcat').
  set (w1 := set_heap w (heap w ++ [OList items])) in *.
  exists w1. split; [|split; [exact Hcat'|reflexivity]].
  assert (list_items (length (heap w)) w1 = (Ok items, w1)) as Hitems
    by (apply list_items_run; apply items_at_new).
  unfold Main.list_books. printed. simpl Main.stdin. simpl Main.stdout.
  erewrite main_try_done; [reflexivity|].
  erewrite main_bind_done; [|apply main_call_ok; exact Hlist].
  erewrite main_bind_done; [|apply main_call_ok; exact Hitems].
  pose proof (length_mapM _ _ _ Hbs) as Hlen.
  destruct items as [|l items].
  - destruct bs; [|discriminate]. apply print_run.
  - destruct bs as [|b bs]; [discriminate|].
    printed. printed. rewrite Hlen.
    rewrite (print_books_run w1 ins (l :: items) (b :: bs) 1 _ Hbs).
    unfold listing. rewrite <- !app_assoc. reflexivity.
Qed.

Lemma console_list_shows_sequence_witness :
  catalog (heap shelf) 1%nat = Some [moby; dune] /\
  Main.stdout (snd (snd (Main.list_books 1%nat (shelf, Main.mkConsole [] []))))
  = [Main.Text (Main.nl ++ "--- All Books ---"); Main.TotalBooks 2;
     Main.Text (Main.times "-" 60); Main.Numbered 1 moby; Main.Numbered 2 dune].
Proof.
  split; [reflexivity|].
  destruct (console_list_shows_sequence 1%nat shelf (Main.mkConsole [] [])
              [moby; dune] eq_refl) as (w' & Hrun & _).
  rewrite Hrun. reflexivity.
Defined.

(** X27.  A search in the console prints the first record that carries
    the ISBN typed, stripped, or that no book was found with it, exactly
    when no record carries it; the world is as it was. *)
Theorem console_search_shows_first_match strip library w bs s ins out :
  catalog (heap w) library = Some bs ->
  strip s <> EmptyString ->
  Main.search_book strip library (w, Main.mkConsole (s :: ins) out)
  = (Main.Done tt,
     (w, Main.mkConsole ins
           (((out ++ [Main.Text (Main.nl ++ "--- Search Book ---")])
             ++ [Main.Prompt "Enter ISBN to search: "])
            ++ [match first_with (VStr (strip s)) bs with
                | Some b => Main.Found b
                | None => Main.NothingFound (strip s)
                end]))) /\
  (first_with (VStr (strip s)) bs = None <-> ~ In (VStr (strip s)) (isbns bs)).
Proof.
  intros Hcat Hs.
  assert (String.eqb (strip s) EmptyString = false) as Hs'
    by (apply String.eqb_neq; exact Hs).
  destruct (catalog_inv _ _ _ Hcat) as (fn & bl & items & Hself & Hbl & Hbs).
  pose proof (find_book_run _ _ _ _ _ _ (VStr (strip s)) Hself Hbl Hbs) as Hfind.
  pose proof (position_spec (VStr (strip s)) bs) as P.
  unfold first_with. split.
  - unfold Main.search_book. printed.
    erewrite main_try_done; [reflexivity|].
    line_read. rewrite Hs'.
    erewrite main_bind_done; [|apply main_call_ok; exact Hfind].
    destruct (position (VStr (strip s)) bs) as [n|] eqn:Hpos.
    + destruct P as (b & Hb & _).
      destruct (lookup_lt_is_Some_2 items n) as [l Hl].
      { rewrite (length_mapM _ _ _ Hbs). eapply position_lt. exact Hpos. }
      rewrite Hl, Hb.
      destruct (mapM_lookup _ _ _ _ _ Hbs Hl) as (b' & Hb' & Hat).
      assert (b' = b) as -> by congruence.
      erewrite main_bind_done; [|apply main_call_ok; apply book_of_run; exact Hat].
      apply print_run.
    + apply print_run.
  - destruct (position (VStr (strip s)) bs) as [n|] eqn:Hpos.
    + destruct P as (b & Hb & _). rewrite Hb. split; [discriminate|].
      intros Hfresh. exfalso. apply Hfresh. eapply position_Some_In. exact Hpos.
    + split; [intros _; apply position_None; exact Hpos|reflexivity].
Qed.

Lemma console_search_shows_first_match_witness :
  catalog (heap shelf) 1%nat = Some [moby; dune] /\
  Main.search_book (fun s => s) 1%nat
    (shelf, Main.mkConsole ["9780441172719"] [])
  = (Main.Done tt,
     (shelf, Main.mkConsole []
               [Main.Text (Main.nl ++ "--- Search Book ---");
                Main.Prompt "Enter ISBN to search: "; Main.Found dune])).
Proof.
  split; [reflexivity|].
  destruct (console_search_shows_first_match (fun s => s) 1%nat shelf [moby; dune]
              "9780441172719" [] [] eq_refl ltac:(discriminate)) as [H _].
  exact H.
Defined.



Lemma console_lookup_raises strip library w two li ins out e w' :
  strip two = "2" ->
  strip li <> EmptyString ->
  add_book_by_isbn library (VStr (strip li)) w = (Raise e, w') ->
  exists out',
    Main.add_book strip library (w, Main.mkConsole (two :: li :: ins) out)
    = Main.report (Main.Py e) (w', Main.mkConsole ins out').
Proof.
  intros Htwo Hi Hrun.
  assert (String.eqb (strip li) EmptyString = false) as Hi'
    by (apply String.eqb_neq; exact Hi).
  eexists. unfold Main.add_book. do 4 printed.
  erewrite main_try_raised; [reflexivity|].
  line_read. rewrite Htwo. change (String.eqb "2" "1") with false.
  rewrite String.eqb_refl. line_read. rewrite Hi'. printed.
  apply main_bind_raised. apply main_call_raise. exact Hrun.
Qed.


